(** * CPA 005 formatter of the EFT generator: embedding and properties

    The TypeScript CPA 005 formatter (functions [validateConfig],
    [validateTransactions], [validateCPA005], [formatHeader] and
    [formatToCPA005]) is embedded function by function, over the
    interfaces of [types.ts].

    - JavaScript strings are [string]s, one character per code unit.
    - JavaScript numbers that hold amounts and CPA codes are binary64
      [float]s; counters and indices, which only ever hold small
      non-negative integers, are [N].
    - [throw] is the [Throw] constructor of [result].
    - The configuration object is shared and mutated by [validateConfig]:
      validation returns the configuration it leaves behind.
    - [new Date()] reads a clock; the number of reads made so far is
      threaded through the encoder. *)

From Stdlib Require Import Bool List Arith NArith ZArith Lia.
From Stdlib Require Import Ascii String.
From Stdlib Require Import Uint63 PrimFloat SpecFloat FloatOps FloatAxioms.
Import ListNotations.

Set Warnings "-inexact-float".

Local Open Scope string_scope.

(** ** The JavaScript string and number operations the formatter uses *)

Module JS.

Fixpoint repeat (c : ascii) (n : nat) : string :=
  match n with
  | O => ""
  | S k => String c (repeat c k)
  end.

(** [s.padStart(n, c)] for a one-character filler [c]. *)
Definition padStart (s : string) (n : nat) (c : ascii) : string :=
  repeat c (n - String.length s) ++ s.

(** [s.padEnd(n, c)] for a one-character filler [c]. *)
Definition padEnd (s : string) (n : nat) (c : ascii) : string :=
  s ++ repeat c (n - String.length s).

(** [s.slice(0, n)]. *)
Definition sliceTo (s : string) (n : nat) : string :=
  substring 0 n s.

(** [s.slice(-n)]. *)
Definition sliceLast (s : string) (n : nat) : string :=
  substring (String.length s - n) n s.

Definition isDigit (c : ascii) : bool :=
  let k := N_of_ascii c in ((48 <=? k) && (k <=? 57))%N.

Fixpoint allDigits (s : string) : bool :=
  match s with
  | "" => true
  | String c r => isDigit c && allDigits r
  end.

(** [/^\d{lo,hi}$/.test(s)]. *)
Definition matchDigits (lo hi : nat) (s : string) : bool :=
  (lo <=? String.length s)%nat && (String.length s <=? hi)%nat && allDigits s.

(** [xs.includes(s)] on an array of strings. *)
Definition includes (xs : list string) (s : string) : bool :=
  existsb (String.eqb s) xs.

(** A [Set<string>], in insertion order. *)
Definition Set_has (xs : list string) (s : string) : bool :=
  includes xs s.

Definition Set_add (xs : list string) (s : string) : list string :=
  if Set_has xs s then xs else xs ++ [s].

(** [xs.join(sep)]. *)
Fixpoint join (sep : string) (xs : list string) : string :=
  match xs with
  | [] => ""
  | [x] => x
  | x :: r => x ++ sep ++ join sep r
  end.

(** *** Decimal numerals *)

Definition digitChar (d : N) : ascii := ascii_of_N (48 + d).

Fixpoint digitsAux (fuel : nat) (n : N) (acc : string) : string :=
  match fuel with
  | O => acc
  | S f =>
      let acc' := String (digitChar (n mod 10)) acc in
      if (n <? 10)%N then acc' else digitsAux f (n / 10) acc'
  end.

(** [n.toString()] for a non-negative integer [n] below [2^53]. *)
Definition natToString (n : N) : string :=
  digitsAux (S (N.to_nat (N.log2 n))) n "".

(** *** Numbers (binary64) *)

(** The integer [floor (v + 1/2)] for [v = (-1)^s * m * 2^e]. *)
Definition roundHalfUp (s : bool) (m : positive) (e : Z) : Z :=
  let n := if s then Z.neg m else Z.pos m in
  if (0 <=? e)%Z then (n * 2 ^ e)%Z
  else ((2 * n + 2 ^ (- e)) / (2 * 2 ^ (- e)))%Z.

(** [Math.round(x)]: the integral number closest to [x], ties towards
    plus infinity; the sign of a zero result is the sign of [x]. *)
Definition Math_round (x : float) : float :=
  match Prim2SF x with
  | S754_finite s m e =>
      if (0 <=? e)%Z then x
      else
        let r := of_uint63 (Uint63Axioms.of_Z (Z.abs (roundHalfUp s m e))) in
        if s then PrimFloat.opp r else r
  | _ => x
  end.

(** The value of a finite number when it is an integer. *)
Definition integerValue (s : bool) (m : positive) (e : Z) : option Z :=
  let n := if s then Z.neg m else Z.pos m in
  if (0 <=? e)%Z then Some (n * 2 ^ e)%Z
  else if (Z.pos m mod 2 ^ (- e) =? 0)%Z then Some (n / 2 ^ (- e))%Z
  else None.

Section NumberToString.

(** [Number.prototype.toString] on a number that is not an integer of
    magnitude below [2^53] (shortest round-trip digits, fractional and
    exponential notation) belongs to the language runtime and is left
    abstract. *)
Variable toStringGeneral : float -> string.

(** [x.toString()]. *)
Definition toString (x : float) : string :=
  match Prim2SF x with
  | S754_nan => "NaN"
  | S754_infinity false => "Infinity"
  | S754_infinity true => "-Infinity"
  | S754_zero _ => "0"
  | S754_finite s m e =>
      match integerValue s m e with
      | Some v =>
          if (Z.abs v <? 2 ^ 53)%Z then
            (if s then "-" else "") ++ natToString (Z.to_N (Z.abs v))
          else toStringGeneral x
      | None => toStringGeneral x
      end
  end.

End NumberToString.

End JS.

Arguments JS.includes : simpl never.
Arguments JS.matchDigits : simpl never.
Arguments JS.padStart : simpl never.
Arguments JS.padEnd : simpl never.
Arguments JS.sliceTo : simpl never.
Arguments JS.sliceLast : simpl never.
Arguments JS.natToString : simpl never.
Arguments JS.toString : simpl never.
Arguments JS.Math_round : simpl never.
Arguments JS.Set_has : simpl never.
Arguments JS.Set_add : simpl never.

(** ** Results of functions that may throw *)

Inductive result (A : Type) : Type :=
| Ok (value : A)
| Throw (message : string).
Arguments Ok {A} value.
Arguments Throw {A} message.

Definition bind {A B : Type} (r : result A) (k : A -> result B) : result B :=
  match r with
  | Ok a => k a
  | Throw m => Throw m
  end.

Definition isThrow {A : Type} (r : result A) : bool :=
  match r with
  | Ok _ => false
  | Throw _ => true
  end.

(** A [for ... of] loop whose body may throw. *)
Fixpoint forOf {S A : Type} (body : S -> A -> result S) (st : S) (xs : list A)
  : result S :=
  match xs with
  | [] => Ok st
  | x :: r => bind (body st x) (fun st' => forOf body st' r)
  end.

Definition orElse {A : Type} (o : option A) (d : A) : A :=
  match o with
  | Some a => a
  | None => d
  end.

(** An optional string interpolated in a template literal. *)
Definition interpolate (o : option string) : string :=
  orElse o "undefined".

Definition CRLF : string :=
  String (ascii_of_nat 13) (String (ascii_of_nat 10) "").

(** ** The data model ([types.ts]) *)

(** What the formatter takes from outside this repository: [Date] objects
    and the conversion of the package [@cityssm/modern-julian-date], the
    table behind [isValidCPACode] (it lives in [index.js]; the formatter
    only counts a warning when it answers [false]), and the part of
    [Number.prototype.toString] left abstract above. *)
Class Runtime (Date : Type) : Type := {
  toShortModernJulianDate : Date -> string;
  isValidCPACode : float -> bool;
  toStringGeneral : float -> string
}.

Section CPA005.

Context {Date : Type} {runtime : Runtime Date}.

Definition numberToString : float -> string := JS.toString toStringGeneral.

Record EFTConfiguration : Type := {
  originatorId : string;
  originatorShortName : option string;
  originatorLongName : string;
  fileCreationNumber : string;
  fileCreationDate : option Date;
  destinationDataCentre : option string;
  destinationCurrency : option string
}.

Record EFTTransactionSegment : Type := {
  cpaCode : float;
  amount : float;
  paymentDate : option Date;
  bankInstitutionNumber : string;
  bankTransitNumber : string;
  itemTraceNumber : option string;
  bankAccountNumber : string;
  payeeName : string;
  crossReferenceNumber : option string
}.

Record EFTTransaction : Type := {
  recordType : string;
  segments : list EFTTransactionSegment
}.

(** Modelled from the spec: the class [EFTGenerator] of [index.js], the
    state holder whose accessors [getConfiguration] and [getTransactions]
    hand out the stored configuration object and transaction list. *)
Record EFTGenerator : Type := {
  getConfiguration : EFTConfiguration;
  getTransactions : list EFTTransaction
}.

(** The assignment [eftConfig.originatorShortName = name]. *)
Definition setOriginatorShortName (eftConfig : EFTConfiguration)
    (name : string) : EFTConfiguration :=
  {| originatorId := originatorId eftConfig;
     originatorShortName := Some name;
     originatorLongName := originatorLongName eftConfig;
     fileCreationNumber := fileCreationNumber eftConfig;
     fileCreationDate := fileCreationDate eftConfig;
     destinationDataCentre := destinationDataCentre eftConfig;
     destinationCurrency := destinationCurrency eftConfig |}.

Definition toJulianDate (date : Date) : string :=
  "0" ++ toShortModernJulianDate date.

(** ** Validation *)

(** [validateConfig] returns the configuration object as it leaves it,
    together with the warning count or the error thrown. *)
Definition validateConfig (eftConfig : EFTConfiguration)
  : EFTConfiguration * result N :=
  if (10 <? String.length (originatorId eftConfig))%nat then
    (eftConfig,
     Throw ("originatorId length exceeds 10: " ++ originatorId eftConfig))
  else if negb (JS.matchDigits 1 4 (fileCreationNumber eftConfig)) then
    (eftConfig,
     Throw ("fileCreationNumber should be 1 to 4 digits: "
            ++ fileCreationNumber eftConfig))
  else if negb (JS.matchDigits 0 5
                  (orElse (destinationDataCentre eftConfig) "")) then
    (eftConfig,
     Throw ("destinationDataCentre should be 1 to 5 digits: "
            ++ interpolate (destinationDataCentre eftConfig)))
  else
    let '(warningCount, eftConfig, shortName) :=
      match originatorShortName eftConfig with
      | None =>
          (1%N,
           setOriginatorShortName eftConfig (originatorLongName eftConfig),
           originatorLongName eftConfig)
      | Some name => (0%N, eftConfig, name)
      end in
    let warningCount :=
      if (15 <? String.length shortName)%nat
      then (warningCount + 1)%N else warningCount in
    let warningCount :=
      if (30 <? String.length (originatorLongName eftConfig))%nat
      then (warningCount + 1)%N else warningCount in
    if negb (JS.includes [""; "CAD"; "USD"]
               (orElse (destinationCurrency eftConfig) "")) then
      (eftConfig,
       Throw ("Unsupported destinationCurrency: "
              ++ interpolate (destinationCurrency eftConfig)))
    else (eftConfig, Ok warningCount).

(** The body of the loop over the segments of one transaction; the state
    is the warning count and the set of cross-reference numbers seen. *)
Definition validateSegment (st : N * list string)
    (segment : EFTTransactionSegment) : result (N * list string) :=
  let '(warningCount, crossReferenceNumbers) := st in
  let warningCount :=
    if negb (isValidCPACode (cpaCode segment))
    then (warningCount + 1)%N else warningCount in
  if (amount segment <=? 0)%float then
    Throw ("Segment amount cannot be less than or equal to zero: "
           ++ numberToString (amount segment))
  else if (100000000 <=? amount segment)%float then
    Throw ("Segment amount cannot exceed $100,000,000: "
           ++ numberToString (amount segment))
  else if negb (JS.matchDigits 1 3 (bankInstitutionNumber segment)) then
    Throw ("bankInstitutionNumber should be 1 to 3 digits: "
           ++ bankInstitutionNumber segment)
  else if negb (JS.matchDigits 1 5 (bankTransitNumber segment)) then
    Throw ("bankTransitNumber should be 1 to 5 digits: "
           ++ bankTransitNumber segment)
  else if negb (JS.matchDigits 1 12 (bankAccountNumber segment)) then
    Throw ("bankAccountNumber should be 1 to 12 digits: "
           ++ bankAccountNumber segment)
  else
    let warningCount :=
      if (30 <? String.length (payeeName segment))%nat
      then (warningCount + 1)%N else warningCount in
    match crossReferenceNumber segment with
    | Some number =>
        let warningCount :=
          if JS.Set_has crossReferenceNumbers number
          then (warningCount + 1)%N else warningCount in
        Ok (warningCount, JS.Set_add crossReferenceNumbers number)
    | None => Ok (warningCount, crossReferenceNumbers)
    end.

(** The body of the loop over the transactions. *)
Definition validateTransaction (st : N * list string)
    (transaction : EFTTransaction) : result (N * list string) :=
  let '(warningCount, crossReferenceNumbers) := st in
  let warningCount :=
    if (List.length (segments transaction) =? 0)%nat
    then (warningCount + 1)%N else warningCount in
  let warningCount :=
    if (6 <? List.length (segments transaction))%nat
    then (warningCount + 1)%N else warningCount in
  if negb (JS.includes ["C"; "D"] (recordType transaction)) then
    Throw ("Unsupported recordType: " ++ recordType transaction)
  else
    forOf validateSegment (warningCount, crossReferenceNumbers)
      (segments transaction).

Definition validateTransactions (eftTransactions : list EFTTransaction)
  : result N :=
  let count := N.of_nat (List.length eftTransactions) in
  bind (if (count =? 0)%N then Ok 1%N
        else if (999999999 <? count)%N
             then Throw "Transaction count exceeds 999,999,999."
             else Ok 0%N)
    (fun warningCount =>
       bind (forOf validateTransaction (warningCount, []) eftTransactions)
         (fun st => Ok (fst st))).

(** [validateCPA005] evaluates the two validators from left to right;
    the generator it returns holds the configuration as validation left
    it. *)
Definition validateCPA005 (eftGenerator : EFTGenerator)
  : EFTGenerator * result N :=
  let '(eftConfig, configWarnings) :=
    validateConfig (getConfiguration eftGenerator) in
  let eftGenerator :=
    {| getConfiguration := eftConfig;
       getTransactions := getTransactions eftGenerator |} in
  (eftGenerator,
   bind configWarnings (fun c =>
   bind (validateTransactions (getTransactions eftGenerator)) (fun t =>
   Ok (c + t)%N))).

(** ** Encoding *)

(** [date ?? new Date()]: [now k] is what the [k]-th [new Date()] of a run
    returns; the date is returned with the number of reads made so far. *)
Definition orNow (now : nat -> Date) (clockReads : nat) (date : option Date)
  : Date * nat :=
  match date with
  | Some date => (date, clockReads)
  | None => (now clockReads, S clockReads)
  end.

(** [formatHeader] reads the clock when the configuration has no file
    creation date. *)
Definition formatHeader (now : nat -> Date) (clockReads : nat)
    (eftConfig : EFTConfiguration) : string * nat :=
  let dated := orNow now clockReads (fileCreationDate eftConfig) in
  let fileCreationJulianDate := toJulianDate (fst dated) in
  let dataCentre :=
    match destinationDataCentre eftConfig with
    | Some centre => JS.padStart centre 5 "0"
    | None => JS.padEnd "" 5 " "
    end in
  let destinationCurrency :=
    match destinationCurrency eftConfig with
    | Some currency => currency
    | None => JS.padEnd "" 3 " "
    end in
  ("A"
   ++ JS.padStart "1" 9 "0"
   ++ JS.padEnd (originatorId eftConfig) 10 " "
   ++ JS.sliceLast (JS.padStart (fileCreationNumber eftConfig) 4 "0") 4
   ++ fileCreationJulianDate
   ++ dataCentre
   ++ JS.padEnd "" 20 " "
   ++ destinationCurrency
   ++ JS.padEnd "" 1406 " ",
   snd dated).

(** The local variables of [formatToCPA005] that its loops update. *)
Record Encoder : Type := {
  outputLines : list string;
  recordCount : N;
  record : string;
  totalValueDebits : float;
  totalNumberDebits : N;
  totalValueCredits : float;
  totalNumberCredits : N;
  clockReads : nat
}.

(** The start of a physical record: type letter, sequence number,
    originator and file creation number. *)
Definition recordStart (eftConfig : EFTConfiguration)
    (transaction : EFTTransaction) (recordCount : N) : string :=
  recordType transaction
  ++ JS.padStart (JS.natToString recordCount) 9 "0"
  ++ JS.padEnd (originatorId eftConfig) 10 " "
  ++ JS.padStart (fileCreationNumber eftConfig) 4 "0".

(** The branch taken when [segmentIndex % 6 === 0]. *)
Definition openRecord (eftConfig : EFTConfiguration)
    (transaction : EFTTransaction) (segmentIndex : N) (st : Encoder)
  : Encoder :=
  let isCredit := (recordType transaction =? "C")%string in
  {| outputLines :=
       if (0 <? segmentIndex)%N then outputLines st ++ [record st]
       else outputLines st;
     recordCount := recordCount st + 1;
     record := recordStart eftConfig transaction (recordCount st + 1);
     totalValueDebits := totalValueDebits st;
     totalNumberDebits :=
       if isCredit then totalNumberDebits st
       else (totalNumberDebits st + 1)%N;
     totalValueCredits := totalValueCredits st;
     totalNumberCredits :=
       if isCredit then (totalNumberCredits st + 1)%N
       else totalNumberCredits st;
     clockReads := clockReads st |}.

(** The cross-reference number written for a segment. *)
Definition crossReferenceOf (eftConfig : EFTConfiguration)
    (recordCount segmentIndex : N) (segment : EFTTransactionSegment)
  : string :=
  match crossReferenceNumber segment with
  | Some number => number
  | None =>
      "f" ++ fileCreationNumber eftConfig
      ++ "r" ++ JS.natToString recordCount
      ++ "s" ++ JS.natToString (segmentIndex + 1)
  end.

Definition amountField (segment : EFTTransactionSegment) : string :=
  JS.padStart
    (numberToString (JS.Math_round (amount segment * 100)%float)) 10 "0".

Definition itemTraceField (segmentIndex : N)
    (segment : EFTTransactionSegment) : string :=
  match itemTraceNumber segment with
  | None => JS.padStart "" 22 "0"
  | Some trace =>
      trace ++ JS.padStart (JS.natToString (segmentIndex + 1)) 4 "0"
  end.

Definition crossReferenceField (eftConfig : EFTConfiguration)
    (recordCount segmentIndex : N) (segment : EFTTransactionSegment)
  : string :=
  JS.sliceTo
    (JS.padEnd (crossReferenceOf eftConfig recordCount segmentIndex segment)
       19 " ") 19.

(** The text appended to [record] for one segment. *)
Definition segmentText (eftConfig : EFTConfiguration)
    (recordCount segmentIndex : N) (paymentJulianDate : string)
    (segment : EFTTransactionSegment) : string :=
  let originatorShortName :=
    orElse (originatorShortName eftConfig) (originatorLongName eftConfig) in
  numberToString (cpaCode segment)
  ++ amountField segment
  ++ paymentJulianDate
  ++ JS.padStart (bankInstitutionNumber segment) 4 "0"
  ++ JS.padStart (bankTransitNumber segment) 5 "0"
  ++ JS.padEnd (bankAccountNumber segment) 12 " "
  ++ itemTraceField segmentIndex segment
  ++ JS.padStart "" 3 "0"
  ++ JS.sliceTo (JS.padEnd originatorShortName 15 " ") 15
  ++ JS.sliceTo (JS.padEnd (payeeName segment) 30 " ") 30
  ++ JS.sliceTo (JS.padEnd (originatorLongName eftConfig) 30 " ") 30
  ++ JS.padEnd (JS.sliceTo (originatorId eftConfig) 5) 10 " "
  ++ crossReferenceField eftConfig recordCount segmentIndex segment
  ++ JS.padEnd "" 9 " "
  ++ JS.padEnd "" 12 " "
  ++ JS.padEnd "" 15 " "
  ++ JS.padEnd "" 22 " "
  ++ JS.padEnd "" 2 " "
  ++ JS.padStart "" 11 "0".

(** One iteration of the loop over [segmentIndex]. *)
Definition encodeSegment (now : nat -> Date) (eftConfig : EFTConfiguration)
    (transaction : EFTTransaction) (segmentIndex : N) (st : Encoder)
    (segment : EFTTransactionSegment) : Encoder :=
  let st :=
    if (segmentIndex mod 6 =? 0)%N
    then openRecord eftConfig transaction segmentIndex st else st in
  let dated := orNow now (clockReads st) (paymentDate segment) in
  let paymentJulianDate := toJulianDate (fst dated) in
  let isCredit := (recordType transaction =? "C")%string in
  {| outputLines := outputLines st;
     recordCount := recordCount st;
     record :=
       record st
       ++ segmentText eftConfig (recordCount st) segmentIndex
            paymentJulianDate segment;
     totalValueDebits :=
       if isCredit then totalValueDebits st
       else (totalValueDebits st + amount segment)%float;
     totalNumberDebits := totalNumberDebits st;
     totalValueCredits :=
       if isCredit then (totalValueCredits st + amount segment)%float
       else totalValueCredits st;
     totalNumberCredits := totalNumberCredits st;
     clockReads := snd dated |}.

(** The loop over [segmentIndex], from [segmentIndex] on. *)
Fixpoint encodeSegments (now : nat -> Date) (eftConfig : EFTConfiguration)
    (transaction : EFTTransaction) (segmentIndex : N) (st : Encoder)
    (rest : list EFTTransactionSegment) : Encoder :=
  match rest with
  | [] => st
  | segment :: rest' =>
      encodeSegments now eftConfig transaction (segmentIndex + 1)
        (encodeSegment now eftConfig transaction segmentIndex st segment)
        rest'
  end.

Definition withRecord (st : Encoder) (text : string) : Encoder :=
  {| outputLines := outputLines st;
     recordCount := recordCount st;
     record := text;
     totalValueDebits := totalValueDebits st;
     totalNumberDebits := totalNumberDebits st;
     totalValueCredits := totalValueCredits st;
     totalNumberCredits := totalNumberCredits st;
     clockReads := clockReads st |}.

Definition pushLine (st : Encoder) (line : string) : Encoder :=
  {| outputLines := outputLines st ++ [line];
     recordCount := recordCount st;
     record := record st;
     totalValueDebits := totalValueDebits st;
     totalNumberDebits := totalNumberDebits st;
     totalValueCredits := totalValueCredits st;
     totalNumberCredits := totalNumberCredits st;
     clockReads := clockReads st |}.

(** One iteration of the loop over the transactions. *)
Definition encodeTransaction (now : nat -> Date)
    (eftConfig : EFTConfiguration) (st : Encoder)
    (transaction : EFTTransaction) : Encoder :=
  let st :=
    encodeSegments now eftConfig transaction 0 (withRecord st "")
      (segments transaction) in
  if negb (record st =? "")%string
  then pushLine st (JS.padEnd (record st) 1464 " ")
  else st.

Definition formatTrailer (eftConfig : EFTConfiguration) (st : Encoder)
  : string :=
  "Z"
  ++ JS.padStart (JS.natToString (recordCount st + 1)) 9 "0"
  ++ JS.padEnd (originatorId eftConfig) 10 " "
  ++ JS.sliceLast (JS.padStart (fileCreationNumber eftConfig) 4 "0") 4
  ++ JS.padStart
       (numberToString (JS.Math_round (totalValueDebits st * 100)%float))
       14 "0"
  ++ JS.padStart (JS.natToString (totalNumberDebits st)) 8 "0"
  ++ JS.padStart
       (numberToString (JS.Math_round (totalValueCredits st * 100)%float))
       14 "0"
  ++ JS.padStart (JS.natToString (totalNumberCredits st)) 8 "0"
  ++ JS.padEnd "" 1396 " ".

(** The encoder after the header has been pushed. *)
Definition afterHeader (header : string) (reads : nat) : Encoder :=
  {| outputLines := [header];
     recordCount := 1;
     record := "";
     totalValueDebits := 0;
     totalNumberDebits := 0;
     totalValueCredits := 0;
     totalNumberCredits := 0;
     clockReads := reads |}.

(** The encoder when the loop over the transactions is left. *)
Definition encodeAll (now : nat -> Date) (eftConfig : EFTConfiguration)
    (eftTransactions : list EFTTransaction) : Encoder :=
  let header := formatHeader now 0 eftConfig in
  fold_left (encodeTransaction now eftConfig) eftTransactions
    (afterHeader (fst header) (snd header)).

(** The array [outputLines] once the trailer is pushed. *)
Definition linesOf (now : nat -> Date) (eftConfig : EFTConfiguration)
    (eftTransactions : list EFTTransaction) : list string :=
  let st := encodeAll now eftConfig eftTransactions in
  (outputLines st ++ [formatTrailer eftConfig st])%list.

(** [formatToCPA005] up to the final [join]: the lines, with the generator
    as the call leaves it. *)
Definition formatLines (now : nat -> Date) (eftGenerator : EFTGenerator)
  : EFTGenerator * result (list string) :=
  let '(eftGenerator, warningCount) := validateCPA005 eftGenerator in
  (eftGenerator,
   bind warningCount (fun _ =>
     Ok (linesOf now (getConfiguration eftGenerator)
           (getTransactions eftGenerator)))).

Definition formatToCPA005 (now : nat -> Date) (eftGenerator : EFTGenerator)
  : EFTGenerator * result string :=
  let '(eftGenerator, lines) := formatLines now eftGenerator in
  (eftGenerator, bind lines (fun lines => Ok (JS.join CRLF lines))).

End CPA005.

Arguments EFTConfiguration Date : clear implicits.
Arguments EFTTransactionSegment Date : clear implicits.
Arguments EFTTransaction Date : clear implicits.
Arguments EFTGenerator Date : clear implicits.

Arguments validateSegment : simpl never.
Arguments validateTransaction : simpl never.
Arguments validateTransactions : simpl never.
Arguments formatHeader : simpl never.
Arguments recordStart : simpl never.
Arguments segmentText : simpl never.
Arguments encodeSegment : simpl never.
Arguments encodeTransaction : simpl never.
Arguments formatTrailer : simpl never.
Arguments linesOf : simpl never.


(** ** The earlier JavaScript formatter

    The compiled formatter kept beside the TypeScript one reads the
    generator's [_header] and [_defaults] objects, does not validate, does
    not clear [record] between transactions and pushes a line after every
    transaction.  The fields of the two objects are those its code reads. *)

Module Legacy.

(** [toModernJulianDate(date).toString()], from the package
    [@cityssm/modern-julian-date]. *)
Class Julian (Date : Type) : Type := {
  modernJulianDateText : Date -> string
}.

Section Formatter.

Context {Date : Type} {runtime : Runtime Date} {julian : Julian Date}.

Record Header : Type := {
  originatorId : string;
  fileCreationNumber : string;
  fileCreationDate : option Date;
  destinationDataCentre : option string;
  destinationCurrency : option string
}.

Record Defaults : Type := {
  originatorShortName : string;
  originatorLongName : string
}.

Record Generator : Type := {
  _header : Header;
  _defaults : Defaults;
  getTransactions : list (EFTTransaction Date)
}.

(** [s.slice(n)]. *)
Definition sliceFrom (s : string) (n : nat) : string :=
  substring n (String.length s - n) s.

Definition toJulianDate (date : Date) : string :=
  "0" ++ sliceFrom (modernJulianDateText date) 2.

Definition formatHeader (now : nat -> Date) (clockReads : nat)
    (eftHeader : Header) : string * nat :=
  let dated := orNow now clockReads (fileCreationDate eftHeader) in
  let fileCreationJulianDate := toJulianDate (fst dated) in
  let dataCentre :=
    match destinationDataCentre eftHeader with
    | Some centre => JS.padStart centre 5 "0"
    | None => JS.padEnd "" 5 " "
    end in
  let destinationCurrency :=
    match destinationCurrency eftHeader with
    | Some currency => currency
    | None => JS.padEnd "" 3 " "
    end in
  ("A"
   ++ JS.padStart "1" 9 "0"
   ++ JS.padEnd (originatorId eftHeader) 10 " "
   ++ JS.sliceLast (JS.padStart (fileCreationNumber eftHeader) 4 "0") 4
   ++ fileCreationJulianDate
   ++ dataCentre
   ++ JS.padEnd "" 20 " "
   ++ destinationCurrency
   ++ JS.padEnd "" 1406 " ",
   snd dated).

Definition recordStart (eftGenerator : Generator)
    (transaction : EFTTransaction Date) (recordCount : N) : string :=
  recordType transaction
  ++ JS.padStart (JS.natToString recordCount) 9 "0"
  ++ JS.padEnd (originatorId (_header eftGenerator)) 10 " "
  ++ JS.padStart (fileCreationNumber (_header eftGenerator)) 4 "0".

(** The branch taken when [segmentIndex % 6 === 0]. *)
Definition openRecord (eftGenerator : Generator)
    (transaction : EFTTransaction Date) (segmentIndex : N) (st : Encoder)
  : Encoder :=
  let isCredit := (recordType transaction =? "C")%string in
  {| outputLines :=
       if (0 <? segmentIndex)%N then outputLines st ++ [record st]
       else outputLines st;
     recordCount := recordCount st + 1;
     record := recordStart eftGenerator transaction (recordCount st + 1);
     totalValueDebits := totalValueDebits st;
     totalNumberDebits :=
       if isCredit then totalNumberDebits st
       else (totalNumberDebits st + 1)%N;
     totalValueCredits := totalValueCredits st;
     totalNumberCredits :=
       if isCredit then (totalNumberCredits st + 1)%N
       else totalNumberCredits st;
     clockReads := clockReads st |}.

Definition crossReferenceOf (eftGenerator : Generator)
    (recordCount segmentIndex : N) (segment : EFTTransactionSegment Date)
  : string :=
  match crossReferenceNumber segment with
  | Some number => number
  | None =>
      "f" ++ fileCreationNumber (_header eftGenerator)
      ++ "r" ++ JS.natToString recordCount
      ++ "s" ++ JS.natToString (segmentIndex + 1)
  end.

(** The text appended to [record] for one segment. *)
Definition segmentText (eftGenerator : Generator)
    (recordCount segmentIndex : N) (paymentJulianDate : string)
    (segment : EFTTransactionSegment Date) : string :=
  numberToString (cpaCode segment)
  ++ JS.padStart
       (numberToString (JS.Math_round (amount segment * 100)%float)) 10 "0"
  ++ paymentJulianDate
  ++ JS.padEnd "" 1 " "
  ++ JS.padStart (bankInstitutionNumber segment) 3 "0"
  ++ JS.padStart (bankTransitNumber segment) 5 "0"
  ++ JS.padEnd (bankAccountNumber segment) 12 " "
  ++ JS.padStart "" 22 "0"
  ++ JS.padStart "" 3 "0"
  ++ JS.sliceTo
       (JS.padEnd (originatorShortName (_defaults eftGenerator)) 15 " ") 15
  ++ JS.sliceTo (JS.padEnd (payeeName segment) 30 " ") 30
  ++ JS.sliceTo
       (JS.padEnd (originatorLongName (_defaults eftGenerator)) 30 " ") 30
  ++ JS.padEnd (originatorId (_header eftGenerator)) 10 " "
  ++ JS.sliceTo
       (JS.padEnd
          (crossReferenceOf eftGenerator recordCount segmentIndex segment)
          19 " ") 19
  ++ JS.padStart "" 1 "0"
  ++ JS.padEnd "" 12 " "
  ++ JS.padEnd "" 15 " "
  ++ JS.padEnd "" 22 " "
  ++ JS.padEnd "" 2 " "
  ++ JS.padStart "" 11 "0".

(** One iteration of the loop over [segmentIndex]. *)
Definition encodeSegment (now : nat -> Date) (eftGenerator : Generator)
    (transaction : EFTTransaction Date) (segmentIndex : N) (st : Encoder)
    (segment : EFTTransactionSegment Date) : Encoder :=
  let st :=
    if (segmentIndex mod 6 =? 0)%N
    then openRecord eftGenerator transaction segmentIndex st else st in
  let dated := orNow now (clockReads st) (paymentDate segment) in
  let paymentJulianDate := toJulianDate (fst dated) in
  let isCredit := (recordType transaction =? "C")%string in
  {| outputLines := outputLines st;
     recordCount := recordCount st;
     record :=
       record st
       ++ segmentText eftGenerator (recordCount st) segmentIndex
            paymentJulianDate segment;
     totalValueDebits :=
       if isCredit then totalValueDebits st
       else (totalValueDebits st + amount segment)%float;
     totalNumberDebits := totalNumberDebits st;
     totalValueCredits :=
       if isCredit then (totalValueCredits st + amount segment)%float
       else totalValueCredits st;
     totalNumberCredits := totalNumberCredits st;
     clockReads := snd dated |}.

Fixpoint encodeSegments (now : nat -> Date) (eftGenerator : Generator)
    (transaction : EFTTransaction Date) (segmentIndex : N) (st : Encoder)
    (rest : list (EFTTransactionSegment Date)) : Encoder :=
  match rest with
  | [] => st
  | segment :: rest' =>
      encodeSegments now eftGenerator transaction (segmentIndex + 1)
        (encodeSegment now eftGenerator transaction segmentIndex st segment)
        rest'
  end.

(** One iteration of the loop over the transactions: [record] is not
    cleared, and a line is pushed whatever it holds. *)
Definition encodeTransaction (now : nat -> Date) (eftGenerator : Generator)
    (st : Encoder) (transaction : EFTTransaction Date) : Encoder :=
  let st :=
    encodeSegments now eftGenerator transaction 0 st (segments transaction) in
  pushLine st (JS.padEnd (record st) 1464 " ").

Definition formatTrailer (eftGenerator : Generator) (st : Encoder)
  : string :=
  "Z"
  ++ JS.padStart (JS.natToString (recordCount st + 1)) 9 "0"
  ++ JS.padEnd (originatorId (_header eftGenerator)) 10 " "
  ++ JS.sliceLast
       (JS.padStart (fileCreationNumber (_header eftGenerator)) 4 "0") 4
  ++ JS.padStart
       (numberToString (JS.Math_round (totalValueDebits st * 100)%float))
       14 "0"
  ++ JS.padStart (JS.natToString (totalNumberDebits st)) 8 "0"
  ++ JS.padStart
       (numberToString (JS.Math_round (totalValueCredits st * 100)%float))
       14 "0"
  ++ JS.padStart (JS.natToString (totalNumberCredits st)) 8 "0"
  ++ JS.padEnd "" 1396 " ".

(** The encoder when the loop over the transactions is left. *)
Definition encodeAll (now : nat -> Date) (eftGenerator : Generator)
  : Encoder :=
  let header := formatHeader now 0 (_header eftGenerator) in
  fold_left (encodeTransaction now eftGenerator)
    (getTransactions eftGenerator)
    (afterHeader (fst header) (snd header)).

(** The array [outputLines] once the trailer is pushed. *)
Definition linesOf (now : nat -> Date) (eftGenerator : Generator)
  : list string :=
  let st := encodeAll now eftGenerator in
  (outputLines st ++ [formatTrailer eftGenerator st])%list.

Definition formatToCPA005 (now : nat -> Date) (eftGenerator : Generator)
  : string :=
  JS.join CRLF (linesOf now eftGenerator).

End Formatter.

Arguments Header Date : clear implicits.
Arguments Generator Date : clear implicits.
Arguments formatHeader : simpl never.
Arguments recordStart : simpl never.
Arguments segmentText : simpl never.
Arguments encodeSegment : simpl never.
Arguments encodeTransaction : simpl never.
Arguments formatTrailer : simpl never.
Arguments linesOf : simpl never.

End Legacy.

(** ** Quantities the properties are stated with *)

Section Reference.

Context {Date : Type}.

(** The cross-reference numbers supplied in a transaction list, in the
    order in which the validator meets them. *)
Definition suppliedReferences (txs : list (EFTTransaction Date))
  : list string :=
  flat_map
    (fun t =>
       flat_map
         (fun s =>
            match crossReferenceNumber s with
            | Some number => [number]
            | None => []
            end)
         (segments t))
    txs.

(** Two lists with the same members. *)
Definition sameMembers (seen before : list string) : Prop :=
  forall y, JS.Set_has seen y = existsb (String.eqb y) before.

(** How many members of [xs] repeat a member of [before] or an earlier
    member of [xs]. *)
Fixpoint repeats (before xs : list string) : N :=
  match xs with
  | [] => 0
  | x :: r =>
      ((if existsb (String.eqb x) before then 1 else 0)
       + repeats (x :: before) r)%N
  end.

Definition withoutReference (s : EFTTransactionSegment Date)
  : EFTTransactionSegment Date := {|
  cpaCode := cpaCode s;
  amount := amount s;
  paymentDate := paymentDate s;
  bankInstitutionNumber := bankInstitutionNumber s;
  bankTransitNumber := bankTransitNumber s;
  itemTraceNumber := itemTraceNumber s;
  bankAccountNumber := bankAccountNumber s;
  payeeName := payeeName s;
  crossReferenceNumber := None
|}.

Definition withoutReferences (txs : list (EFTTransaction Date))
  : list (EFTTransaction Date) :=
  map (fun t => {| recordType := recordType t;
                   segments := map withoutReference (segments t) |})
    txs.

(** What follows the cross-reference field in the text of a segment. *)
Definition returnFiller : string :=
  JS.padEnd "" 9 " "
  ++ JS.padEnd "" 12 " "
  ++ JS.padEnd "" 15 " "
  ++ JS.padEnd "" 22 " "
  ++ JS.padEnd "" 2 " "
  ++ JS.padStart "" 11 "0".

(** The 19-character field written for a cross-reference number. *)
Definition referenceField (number : string) : string :=
  JS.sliceTo (JS.padEnd number 19 " ") 19.

Definition isDebit (t : EFTTransaction Date) : bool :=
  (recordType t =? "D")%string.

Definition isCredit (t : EFTTransaction Date) : bool :=
  (recordType t =? "C")%string.

(** The segments of the transactions of one kind, in input order. *)
Definition segmentsOf (kind : EFTTransaction Date -> bool)
    (txs : list (EFTTransaction Date)) : list (EFTTransactionSegment Date) :=
  flat_map (fun t => segments t) (filter kind txs).

(** The running sum of dollar amounts, in binary64, from zero and in
    input order. *)
Definition addAmount (total : float) (s : EFTTransactionSegment Date)
  : float :=
  (total + amount s)%float.

Definition dollarSum (segs : list (EFTTransactionSegment Date)) : float :=
  fold_left addAmount segs 0%float.

(** The number of physical detail records of one transaction: one per
    started group of six segments. *)
Definition recordsOf (t : EFTTransaction Date) : N :=
  ((N.of_nat (List.length (segments t)) + 5) / 6)%N.

Definition recordTotal (txs : list (EFTTransaction Date)) : N :=
  fold_right (fun t n => (recordsOf t + n)%N) 0%N txs.

(** The cross-reference numbers supplied by a list of segments. *)
Definition referencesOf (segs : list (EFTTransactionSegment Date))
  : list string :=
  flat_map
    (fun s =>
       match crossReferenceNumber s with
       | Some number => [number]
       | None => []
       end)
    segs.

Definition withoutReferencesIn (t : EFTTransaction Date)
  : EFTTransaction Date :=
  {| recordType := recordType t;
     segments := map withoutReference (segments t) |}.

(** [k] more warnings on a validation loop state. *)
Definition addWarnings (k : N) (r : result (N * list string))
  : result (N * list string) :=
  bind r (fun st => Ok (fst st + k, snd st)%N).

Definition addCount (k : N) (r : result N) : result N :=
  bind r (fun n => Ok (n + k)%N).

Definition validRecordType (t : EFTTransaction Date) : bool :=
  JS.includes ["C"; "D"] (recordType t).

(** The four guards of [validateConfig], as the code tests them. *)
Definition configFault (cfg : EFTConfiguration Date) : Prop :=
  10 < String.length (originatorId cfg)
  \/ JS.matchDigits 1 4 (fileCreationNumber cfg) = false
  \/ (exists centre, destinationDataCentre cfg = Some centre
                     /\ JS.matchDigits 0 5 centre = false)
  \/ (exists currency, destinationCurrency cfg = Some currency
                       /\ currency <> "" /\ currency <> "CAD"
                       /\ currency <> "USD").

(** The three guards of [validateConfig] that come before the short name
    is looked at, as the code tests them. *)
Definition earlyFault (cfg : EFTConfiguration Date) : bool :=
  (10 <? String.length (originatorId cfg))%nat
  || negb (JS.matchDigits 1 4 (fileCreationNumber cfg))
  || negb (JS.matchDigits 0 5 (orElse (destinationDataCentre cfg) "")).

Definition withTransactions (g : EFTGenerator Date)
    (txs : list (EFTTransaction Date)) : EFTGenerator Date :=
  {| getConfiguration := getConfiguration g; getTransactions := txs |}.

End Reference.

Section Layout.

Context {Date : Type} {runtime : Runtime Date}.

(** A segment of transaction [t] whose variable-width parts have the width
    the record layout counts on: a code of 3 characters, at most 10 digits
    of cents, and an item trace number, when supplied, of 18 characters
    followed by a position of at most 4 digits. *)
Definition fitsSegment (t : EFTTransaction Date)
    (s : EFTTransactionSegment Date) : Prop :=
  String.length (numberToString (cpaCode s)) = 3
  /\ String.length
       (numberToString (JS.Math_round (amount s * 100)%float)) <= 10
  /\ match itemTraceNumber s with
     | None => True
     | Some trace =>
         String.length trace = 18
         /\ (N.of_nat (List.length (segments t)) < 10000)%N
     end.

(** A transaction list whose totals have the width of the trailer fields
    and whose records can be numbered with 9 digits. *)
Definition fitsTotals (txs : list (EFTTransaction Date)) : Prop :=
  String.length
    (numberToString
       (JS.Math_round (dollarSum (segmentsOf isDebit txs) * 100)%float))
  <= 14
  /\ String.length
       (numberToString
          (JS.Math_round (dollarSum (segmentsOf isCredit txs) * 100)%float))
     <= 14
  /\ (recordTotal (filter isDebit txs) < 10 ^ 8)%N
  /\ (recordTotal (filter isCredit txs) < 10 ^ 8)%N
  /\ (recordTotal txs + 2 < 10 ^ 9)%N.

(** The bank numbers of a segment as validation leaves them. *)
Definition bankNumbersFit (s : EFTTransactionSegment Date) : Prop :=
  String.length (bankInstitutionNumber s) <= 3
  /\ String.length (bankTransitNumber s) <= 5
  /\ String.length (bankAccountNumber s) <= 12.

Definition fullLine (line : string) : Prop := String.length line = 1464.

(** The number of segments in the record being filled, before the
    iteration for index [idx]. *)
Definition filled (idx : N) : nat := N.to_nat ((idx - 1) mod 6) + 1.

(** The date written for a segment met in state [st]. *)
Definition dateField (now : nat -> Date) (st : Encoder)
    (s : EFTTransactionSegment Date) : string :=
  toJulianDate (fst (orNow now (clockReads st) (paymentDate s))).

(** Between two iterations of the loop over the segments, the lines pushed
    and the record being filled, if any, are as many as [recordCount]. *)
Definition counted (idx : N) (st : Encoder) : Prop :=
  (N.of_nat (List.length (outputLines st))
   + (if (idx =? 0)%N then 0 else 1) = recordCount st)%N
  /\ (idx <> 0%N -> 0 < String.length (record st)).

End Layout.

(** ** Faults and warnings of the transaction list *)

Section Faults.

Context {Date : Type} {runtime : Runtime Date}.

(** The five guards of the loop over the segments that throw. *)
Definition segmentFault (s : EFTTransactionSegment Date) : bool :=
  (amount s <=? 0)%float
  || (100000000 <=? amount s)%float
  || negb (JS.matchDigits 1 3 (bankInstitutionNumber s))
  || negb (JS.matchDigits 1 5 (bankTransitNumber s))
  || negb (JS.matchDigits 1 12 (bankAccountNumber s)).

Definition transactionFault (t : EFTTransaction Date) : bool :=
  negb (validRecordType t) || existsb segmentFault (segments t).

(** The warnings a segment gives by itself: an unknown CPA code, a payee
    name that will be cut. *)
Definition segmentWarnings (s : EFTTransactionSegment Date) : N :=
  ((if isValidCPACode (cpaCode s) then 0 else 1)
   + (if (30 <? String.length (payeeName s))%nat then 1 else 0))%N.

(** The warnings a transaction gives by itself: no segment, more than six
    segments, and those of its segments. *)
Definition transactionWarnings (t : EFTTransaction Date) : N :=
  ((if (List.length (segments t) =? 0)%nat then 1 else 0)
   + (if (6 <? List.length (segments t))%nat then 1 else 0)
   + fold_right (fun s n => segmentWarnings s + n) 0 (segments t))%N.

(** The warnings of a transaction list: an empty list, those of its
    transactions, and the cross-reference numbers that repeat. *)
Definition listWarnings (txs : list (EFTTransaction Date)) : N :=
  ((match txs with [] => 1 | _ :: _ => 0 end)
   + fold_right (fun t n => transactionWarnings t + n) 0 txs
   + repeats [] (suppliedReferences txs))%N.

End Faults.

(** ** The shape of a line *)

Section Shape.

Context {Date : Type}.

(** A line that is [letter] followed by the number of its position,
    counted from 1 and left-padded with zeros to 9 characters. *)
Definition carriesNumber (i : nat) (line letter : string) : Prop :=
  exists rest,
    line = letter ++ JS.padStart (JS.natToString (N.of_nat i + 1)) 9 "0"
                  ++ rest.

(** Lines pushed so far: the header is first, and every other line begins
    with the record type of a transaction of the list. *)
Definition detailLines (txs : list (EFTTransaction Date))
    (lines : list string) : Prop :=
  forall i line,
    nth_error lines i = Some line ->
    exists letter,
      carriesNumber i line letter
      /\ (i = 0 -> letter = "A")
      /\ (0 < i -> exists t, In t txs /\ letter = recordType t).

(** What holds between two iterations of the loop over the segments of a
    transaction of the list. *)
Definition numbering {runtime : Runtime Date} (cfg : EFTConfiguration Date)
    (txs : list (EFTTransaction Date)) (t : EFTTransaction Date) (idx : N)
    (st : Encoder) : Prop :=
  detailLines txs (outputLines st)
  /\ 0 < List.length (outputLines st)
  /\ counted idx st
  /\ (idx <> 0%N ->
      exists rest, record st = recordStart cfg t (recordCount st) ++ rest).

(** A number that is not a number. *)
Definition isNaN (x : float) : Prop := Prim2SF x = S754_nan.

(** The segment [s] with the cross-reference number [number]. *)
Definition citing (number : string) (s : EFTTransactionSegment Date)
  : EFTTransactionSegment Date := {|
  cpaCode := cpaCode s;
  amount := amount s;
  paymentDate := paymentDate s;
  bankInstitutionNumber := bankInstitutionNumber s;
  bankTransitNumber := bankTransitNumber s;
  itemTraceNumber := itemTraceNumber s;
  bankAccountNumber := bankAccountNumber s;
  payeeName := payeeName s;
  crossReferenceNumber := Some number
|}.

End Shape.

(** ** Quantities for the earlier formatter *)

Section LegacyReference.

Context {Date : Type}.

(** Two encoders with the same record count and the same totals. *)
Definition sameTotals (a b : Encoder) : Prop :=
  recordCount a = recordCount b
  /\ totalValueDebits a = totalValueDebits b
  /\ totalNumberDebits a = totalNumberDebits b
  /\ totalValueCredits a = totalValueCredits b
  /\ totalNumberCredits a = totalNumberCredits b.

Definition hasNoSegment (t : EFTTransaction Date) : bool :=
  (List.length (segments t) =? 0)%nat.

(** The number of transactions without segments. *)
Definition emptyCount (txs : list (EFTTransaction Date)) : N :=
  N.of_nat (List.length (filter hasNoSegment txs)).

(** Between two iterations of the earlier loop over the segments: the lines
    pushed and the record being filled are [extra] more than the record
    count, which has grown by one for every started group of six. *)
Definition legacyCounted (extra first : N) (idx : N) (st : Encoder) : Prop :=
  (N.of_nat (List.length (outputLines st))
   + (if (idx =? 0)%N then 0 else 1) = recordCount st + extra)%N
  /\ recordCount st = (first + (idx + 5) / 6)%N.

(** What the earlier layout counts on in a segment: a code of 3
    characters, at most 10 digits of cents, bank numbers of the validated
    widths. *)
Definition legacyFits {runtime : Runtime Date}
    (s : EFTTransactionSegment Date) : Prop :=
  String.length (numberToString (cpaCode s)) = 3
  /\ String.length
       (numberToString (JS.Math_round (amount s * 100)%float)) <= 10
  /\ bankNumbersFit s.

(** Between two iterations of the earlier loop over the segments of a
    transaction entered with the lines [before]: the lines pushed since are
    records of 1416 characters, one for every group of six left behind, and
    the record being filled has 232 characters for each of its segments
    after the 24 of its start. *)
Definition legacyWidths (before : list string) (first : N) (idx : N)
    (st : Encoder) : Prop :=
  (exists pushed,
      outputLines st = (before ++ pushed)%list
      /\ Forall (fun line => String.length line = 1416) pushed
      /\ (N.of_nat (List.length pushed) + (if (idx =? 0)%N then 0 else 1)
          = (idx + 5) / 6)%N)
  /\ recordCount st = (first + (idx + 5) / 6)%N
  /\ (idx <> 0%N -> String.length (record st) = 24 + 232 * filled idx).

End LegacyReference.

(** ** Sample inputs *)

Module Sample.

(** A stand-in for [Date]: a year and a day of the year. *)
Record Day : Type := { year : N; dayOfYear : N }.

Definition shortJulian (d : Day) : string :=
  JS.sliceLast (JS.padStart (JS.natToString (year d)) 2 "0") 2
  ++ JS.sliceLast (JS.padStart (JS.natToString (dayOfYear d)) 3 "0") 3.

(** The codes accepted here are the integers from 200 to 799; any table
    would do. *)
Definition knownCode (code : float) : bool :=
  ((200 <=? code) && (code <=? 799))%float.

#[global] Instance runtime : Runtime Day := {|
  toShortModernJulianDate := shortJulian;
  isValidCPACode := knownCode;
  toStringGeneral := fun _ => "1e+21"
|}.

Definition today : nat -> Day := fun _ => {| year := 2024; dayOfYear := 61 |}.
Definition tomorrow : nat -> Day := fun _ => {| year := 2024; dayOfYear := 62 |}.

Definition config : EFTConfiguration Day := {|
  originatorId := "0000012345";
  originatorShortName := None;
  originatorLongName := "Test Co";
  fileCreationNumber := "0001";
  fileCreationDate := Some {| year := 2024; dayOfYear := 32 |};
  destinationDataCentre := None;
  destinationCurrency := None
|}.

Definition segment : EFTTransactionSegment Day := {|
  cpaCode := 450;
  amount := 12.34;
  paymentDate := Some {| year := 2024; dayOfYear := 33 |};
  bankInstitutionNumber := "001";
  bankTransitNumber := "12345";
  itemTraceNumber := None;
  bankAccountNumber := "123456789";
  payeeName := "Jane Doe";
  crossReferenceNumber := None
|}.

Definition withCode (code : float) (s : EFTTransactionSegment Day)
  : EFTTransactionSegment Day := {|
  cpaCode := code;
  amount := amount s;
  paymentDate := paymentDate s;
  bankInstitutionNumber := bankInstitutionNumber s;
  bankTransitNumber := bankTransitNumber s;
  itemTraceNumber := itemTraceNumber s;
  bankAccountNumber := bankAccountNumber s;
  payeeName := payeeName s;
  crossReferenceNumber := crossReferenceNumber s
|}.

Definition withAmount (value : float) (s : EFTTransactionSegment Day)
  : EFTTransactionSegment Day := {|
  cpaCode := cpaCode s;
  amount := value;
  paymentDate := paymentDate s;
  bankInstitutionNumber := bankInstitutionNumber s;
  bankTransitNumber := bankTransitNumber s;
  itemTraceNumber := itemTraceNumber s;
  bankAccountNumber := bankAccountNumber s;
  payeeName := payeeName s;
  crossReferenceNumber := crossReferenceNumber s
|}.

Definition withReference (number : option string)
    (s : EFTTransactionSegment Day) : EFTTransactionSegment Day := {|
  cpaCode := cpaCode s;
  amount := amount s;
  paymentDate := paymentDate s;
  bankInstitutionNumber := bankInstitutionNumber s;
  bankTransitNumber := bankTransitNumber s;
  itemTraceNumber := itemTraceNumber s;
  bankAccountNumber := bankAccountNumber s;
  payeeName := payeeName s;
  crossReferenceNumber := number
|}.

Definition withoutDate (s : EFTTransactionSegment Day)
  : EFTTransactionSegment Day := {|
  cpaCode := cpaCode s;
  amount := amount s;
  paymentDate := None;
  bankInstitutionNumber := bankInstitutionNumber s;
  bankTransitNumber := bankTransitNumber s;
  itemTraceNumber := itemTraceNumber s;
  bankAccountNumber := bankAccountNumber s;
  payeeName := payeeName s;
  crossReferenceNumber := crossReferenceNumber s
|}.

Definition withCurrency (currency : option string)
    (c : EFTConfiguration Day) : EFTConfiguration Day := {|
  originatorId := originatorId c;
  originatorShortName := originatorShortName c;
  originatorLongName := originatorLongName c;
  fileCreationNumber := fileCreationNumber c;
  fileCreationDate := fileCreationDate c;
  destinationDataCentre := destinationDataCentre c;
  destinationCurrency := currency
|}.

Definition credit (segs : list (EFTTransactionSegment Day))
  : EFTTransaction Day := {| recordType := "C"; segments := segs |}.

Definition debit (segs : list (EFTTransactionSegment Day))
  : EFTTransaction Day := {| recordType := "D"; segments := segs |}.

Definition generatorOf (c : EFTConfiguration Day)
    (txs : list (EFTTransaction Day)) : EFTGenerator Day :=
  {| getConfiguration := c; getTransactions := txs |}.

Definition generator (txs : list (EFTTransaction Day)) : EFTGenerator Day :=
  generatorOf config txs.

Definition withShortName (name : option string)
    (c : EFTConfiguration Day) : EFTConfiguration Day := {|
  originatorId := originatorId c;
  originatorShortName := name;
  originatorLongName := originatorLongName c;
  fileCreationNumber := fileCreationNumber c;
  fileCreationDate := fileCreationDate c;
  destinationDataCentre := destinationDataCentre c;
  destinationCurrency := destinationCurrency c
|}.

Definition withOriginatorId (id : string) (c : EFTConfiguration Day)
  : EFTConfiguration Day := {|
  originatorId := id;
  originatorShortName := originatorShortName c;
  originatorLongName := originatorLongName c;
  fileCreationNumber := fileCreationNumber c;
  fileCreationDate := fileCreationDate c;
  destinationDataCentre := destinationDataCentre c;
  destinationCurrency := destinationCurrency c
|}.

Definition withoutCreationDate (c : EFTConfiguration Day)
  : EFTConfiguration Day := {|
  originatorId := originatorId c;
  originatorShortName := originatorShortName c;
  originatorLongName := originatorLongName c;
  fileCreationNumber := fileCreationNumber c;
  fileCreationDate := None;
  destinationDataCentre := destinationDataCentre c;
  destinationCurrency := destinationCurrency c
|}.

Definition invoice (number : string) : EFTTransactionSegment Day :=
  withReference (Some number) segment.

(** Two segments that supply the same cross-reference number. *)
Definition repeatedReference : list (EFTTransaction Day) :=
  [credit [invoice "INV-1"]; debit [segment; invoice "INV-1"]].

(** A debit without segments between two payments. *)
Definition aroundEmpty : list (EFTTransaction Day) :=
  [credit [segment]; debit []; debit [segment]].

(** One debit transaction of two segments. *)
Definition twoDebits : list (EFTTransaction Day) :=
  [debit [segment; segment]].

(** One credit transaction of six segments whose code has four digits. *)
Definition longCodes : list (EFTTransaction Day) :=
  [credit [withCode 1000 segment; withCode 1000 segment;
           withCode 1000 segment; withCode 1000 segment;
           withCode 1000 segment; withCode 1000 segment]].

(** A payee name of 31 characters and a code outside the table. *)
Definition longPayee : EFTTransactionSegment Day := {|
  cpaCode := 1;
  amount := amount segment;
  paymentDate := paymentDate segment;
  bankInstitutionNumber := bankInstitutionNumber segment;
  bankTransitNumber := bankTransitNumber segment;
  itemTraceNumber := itemTraceNumber segment;
  bankAccountNumber := bankAccountNumber segment;
  payeeName := "Jane Doe of the long family name";
  crossReferenceNumber := Some "INV-1"
|}.

(** A transit number that is not made of digits. *)
Definition badTransit : EFTTransactionSegment Day := {|
  cpaCode := cpaCode segment;
  amount := amount segment;
  paymentDate := paymentDate segment;
  bankInstitutionNumber := bankInstitutionNumber segment;
  bankTransitNumber := "12a45";
  itemTraceNumber := itemTraceNumber segment;
  bankAccountNumber := bankAccountNumber segment;
  payeeName := payeeName segment;
  crossReferenceNumber := crossReferenceNumber segment
|}.

#[global] Instance julian : Legacy.Julian Day := {|
  Legacy.modernJulianDateText := fun d =>
    JS.sliceLast (JS.padStart (JS.natToString (year d)) 4 "0") 4
    ++ JS.sliceLast (JS.padStart (JS.natToString (dayOfYear d)) 3 "0") 3
|}.

(** The sample configuration as the earlier formatter reads it. *)
Definition legacy (txs : list (EFTTransaction Day)) : Legacy.Generator Day :=
  {| Legacy._header :=
       {| Legacy.originatorId := "0000012345";
          Legacy.fileCreationNumber := "0001";
          Legacy.fileCreationDate := Some {| year := 2024; dayOfYear := 32 |};
          Legacy.destinationDataCentre := None;
          Legacy.destinationCurrency := None |};
     Legacy._defaults :=
       {| Legacy.originatorShortName := "Test Co";
          Legacy.originatorLongName := "Test Co" |};
     Legacy.getTransactions := txs |}.

Definition sevenSegments : list (EFTTransactionSegment Day) :=
  [segment; segment; segment; segment; segment; segment; segment].

End Sample.

(** ** Facts about the string operations *)

Module JSFacts.
Import JS.

Lemma length_append (a b : string) :
  String.length (a ++ b) = String.length a + String.length b.
Proof.
  induction a as [|c a IH]; simpl; [reflexivity | now rewrite IH].
Qed.

Lemma append_assoc (a b c : string) : (a ++ b) ++ c = a ++ (b ++ c).
Proof.
  induction a as [|x a IH]; simpl; [reflexivity | now rewrite IH].
Qed.

Lemma length_repeat (c : ascii) (n : nat) : String.length (repeat c n) = n.
Proof.
  induction n as [|n IH]; simpl; [reflexivity | now rewrite IH].
Qed.

Lemma length_padStart (s : string) (n : nat) (c : ascii) :
  String.length (padStart s n c) = Nat.max n (String.length s).
Proof.
  unfold padStart. rewrite length_append, length_repeat. lia.
Qed.

Lemma length_padEnd (s : string) (n : nat) (c : ascii) :
  String.length (padEnd s n c) = Nat.max n (String.length s).
Proof.
  unfold padEnd. rewrite length_append, length_repeat. lia.
Qed.

Lemma length_substring (s : string) (a n : nat) :
  String.length (substring a n s) = Nat.min n (String.length s - a).
Proof.
  revert a n. induction s as [|c s IH]; intros a n.
  - destruct a, n; reflexivity.
  - destruct a as [|a]; destruct n as [|n]; simpl; try reflexivity.
    + rewrite IH. now rewrite Nat.sub_0_r.
    + rewrite IH. reflexivity.
    + rewrite IH. reflexivity.
Qed.

Lemma length_sliceTo (s : string) (n : nat) :
  String.length (sliceTo s n) = Nat.min n (String.length s).
Proof.
  unfold sliceTo. rewrite length_substring. now rewrite Nat.sub_0_r.
Qed.

Lemma length_sliceLast (s : string) (n : nat) :
  String.length (sliceLast s n) = Nat.min n (String.length s).
Proof.
  unfold sliceLast. rewrite length_substring. lia.
Qed.

(** A padded and cut field has exactly its width. *)
Lemma length_field (s : string) (n : nat) (c : ascii) :
  String.length (sliceTo (padEnd s n c) n) = n.
Proof.
  rewrite length_sliceTo, length_padEnd. lia.
Qed.

Lemma matchDigits_length (lo hi : nat) (s : string) :
  matchDigits lo hi s = true -> lo <= String.length s <= hi.
Proof.
  unfold matchDigits. intros H.
  apply andb_true_iff in H as [H _]. apply andb_true_iff in H as [H1 H2].
  apply Nat.leb_le in H1. apply Nat.leb_le in H2. lia.
Qed.

Lemma length_digitsAux (fuel k : nat) (n : N) (acc : string) :
  (n < 10 ^ N.of_nat k)%N -> 1 <= k ->
  String.length (digitsAux fuel n acc) <= String.length acc + k.
Proof.
  revert k n acc. induction fuel as [|fuel IH]; intros k n acc Hn Hk; simpl.
  - lia.
  - destruct (N.ltb_spec n 10) as [Hlt|Hge]; simpl.
    + lia.
    + destruct k as [|[|k]]; [lia | simpl in Hn; lia |].
      assert (Hdiv : (n / 10 < 10 ^ N.of_nat (S k))%N).
      { apply N.Div0.div_lt_upper_bound.
        rewrite <- N.pow_succ_r'. now rewrite <- Nat2N.inj_succ. }
      specialize (IH (S k) (n / 10)%N
                    (String (digitChar (n mod 10)) acc) Hdiv).
      simpl in IH. lia.
Qed.

Lemma length_natToString (k : nat) (n : N) :
  (n < 10 ^ N.of_nat k)%N -> 1 <= k -> String.length (natToString n) <= k.
Proof.
  intros Hn Hk. unfold natToString.
  apply (length_digitsAux _ k n "" Hn Hk).
Qed.

Lemma eqb_empty_false (s : string) :
  0 < String.length s -> (s =? "")%string = false.
Proof.
  destruct s; simpl; [lia | reflexivity].
Qed.

Lemma substring_append_take (a b : string) :
  substring 0 (String.length a) (a ++ b) = a.
Proof.
  induction a as [|c a IH]; simpl.
  - destruct b; reflexivity.
  - now rewrite IH.
Qed.

End JSFacts.

(** ** Properties of [validateConfig] *)


Section ConfigProperties.

Context {Date : Type}.
Implicit Type cfg : EFTConfiguration Date.

Lemma includes_currency (currency : string) :
  JS.includes [""; "CAD"; "USD"] currency = false <->
  currency <> "" /\ currency <> "CAD" /\ currency <> "USD".
Proof.
  unfold JS.includes. cbn [existsb]. rewrite !orb_false_iff, !String.eqb_neq.
  tauto.
Qed.

Lemma validateConfig_cases cfg :
  (configFault cfg /\ isThrow (snd (validateConfig cfg)) = true)
  \/ (~ configFault cfg
      /\ exists n, snd (validateConfig cfg) = Ok n /\ (n <= 3)%N).
Proof.
  unfold configFault, validateConfig.
  destruct (Nat.ltb_spec 10 (String.length (originatorId cfg))) as [H1|H1].
  { left. simpl. auto. }
  destruct (JS.matchDigits 1 4 (fileCreationNumber cfg)) eqn:H2; simpl.
  2:{ left. auto. }
  assert (H3 : JS.matchDigits 0 5 (orElse (destinationDataCentre cfg) "")
               = false
               <-> exists centre, destinationDataCentre cfg = Some centre
                                  /\ JS.matchDigits 0 5 centre = false).
  { destruct (destinationDataCentre cfg) as [d|]; simpl.
    - split; [intros H; exists d; auto | intros [c [E H]]; congruence].
    - split; [discriminate | intros [c [E _]]; discriminate]. }
  destruct (JS.matchDigits 0 5 (orElse (destinationDataCentre cfg) ""))
    eqn:H3'; simpl.
  2:{ left. split; [|reflexivity]. right. right. left. now apply H3. }
  assert (H4 : JS.includes [""; "CAD"; "USD"]
                 (orElse (destinationCurrency cfg) "") = false
               <-> exists currency,
                     destinationCurrency cfg = Some currency
                     /\ currency <> "" /\ currency <> "CAD"
                     /\ currency <> "USD").
  { destruct (destinationCurrency cfg) as [c|]; simpl orElse.
    - rewrite includes_currency. split.
      + intros H; exists c; auto.
      + intros [c' [E H]]. now inversion E; subst.
    - split; [discriminate | intros [c [E _]]; discriminate]. }
  destruct (originatorShortName cfg) as [name|]; simpl;
    destruct (JS.includes [""; "CAD"; "USD"]
                (orElse (destinationCurrency cfg) "")) eqn:H4'; simpl.
  all: try (left; split; [|reflexivity]; right; right; right;
            now apply H4).
  all: right; split;
    [ intros [F|[F|[F|F]]];
      [ lia | congruence
      | apply H3 in F; congruence | apply H4 in F; congruence ]
    | eexists; split; [reflexivity|] ].
  all: repeat match goal with
         | |- context [(?a <? ?b)%nat] => destruct (a <? b)%nat
         end; lia.
Qed.

(** C4 (amended).  [validateConfig] throws exactly when the originator id
    is longer than 10 characters, or the file creation number is not 1 to
    4 digits, or the destination data centre is defined and is not 0 to 5
    digits, or the destination currency is defined and is none of the
    empty string, "CAD" and "USD"; otherwise it returns a warning count,
    which is at most 3. *)
Theorem validateConfig_throws_iff cfg :
  (isThrow (snd (validateConfig cfg)) = true <-> configFault cfg)
  /\ (isThrow (snd (validateConfig cfg)) = false ->
      exists n, snd (validateConfig cfg) = Ok n /\ (0 <= n <= 3)%N).
Proof.
  destruct (validateConfig_cases cfg) as [[F T]|[NF [n [E B]]]].
  - split; [tauto | congruence].
  - rewrite E. simpl. split.
    + split; [discriminate | tauto].
    + intros _. exists n. split; [reflexivity | lia].
Qed.

(** What [validateConfig] leaves untouched. *)
Lemma validateConfig_frame cfg :
  let cfg' := fst (validateConfig cfg) in
  originatorId cfg' = originatorId cfg
  /\ originatorLongName cfg' = originatorLongName cfg
  /\ fileCreationNumber cfg' = fileCreationNumber cfg
  /\ fileCreationDate cfg' = fileCreationDate cfg
  /\ destinationDataCentre cfg' = destinationDataCentre cfg
  /\ destinationCurrency cfg' = destinationCurrency cfg.
Proof.
  unfold validateConfig.
  destruct (10 <? String.length (originatorId cfg))%nat; [now repeat split|].
  destruct (negb (JS.matchDigits 1 4 (fileCreationNumber cfg)));
    [now repeat split|].
  destruct (negb (JS.matchDigits 0 5 (orElse (destinationDataCentre cfg) "")));
    [now repeat split|].
  destruct (originatorShortName cfg); simpl;
    now destruct (negb (JS.includes _ _)).
Qed.

(** C9 (amended).  When the short name is undefined and the originator
    id, the file creation number and the destination data centre pass
    their guards, [validateConfig] leaves the given configuration with the
    short name set to the long name, and its outcome is that for the same
    configuration with that short name supplied, with one more warning
    when it returns and with the same error when it throws on the
    currency.  When the short name is undefined and one of these three
    guards fails, [validateConfig] throws and leaves the configuration as
    it was, without a short name.  When the short name is defined, the
    configuration is left as it was, whether [validateConfig] returns or
    throws.  In every case, every field other than the short name is left
    as it was. *)
Theorem validateConfig_short_name_default cfg :
  (forall n,
      originatorShortName cfg = None ->
      snd (validateConfig cfg) = Ok n ->
      fst (validateConfig cfg)
      = setOriginatorShortName cfg (originatorLongName cfg)
      /\ originatorShortName (fst (validateConfig cfg))
         = Some (originatorLongName cfg)
      /\ (1 <= n)%N
      /\ snd (validateConfig
                (setOriginatorShortName cfg (originatorLongName cfg)))
         = Ok (n - 1)%N)
  /\ (originatorShortName cfg = None ->
      earlyFault cfg = false ->
      fst (validateConfig cfg)
      = setOriginatorShortName cfg (originatorLongName cfg)
      /\ snd (validateConfig cfg)
         = addCount 1
             (snd (validateConfig
                     (setOriginatorShortName cfg (originatorLongName cfg)))))
  /\ (originatorShortName cfg = None ->
      earlyFault cfg = true ->
      fst (validateConfig cfg) = cfg
      /\ isThrow (snd (validateConfig cfg)) = true)
  /\ (forall name,
         originatorShortName cfg = Some name ->
         fst (validateConfig cfg) = cfg)
  /\ (let cfg' := fst (validateConfig cfg) in
      originatorId cfg' = originatorId cfg
      /\ originatorLongName cfg' = originatorLongName cfg
      /\ fileCreationNumber cfg' = fileCreationNumber cfg
      /\ fileCreationDate cfg' = fileCreationDate cfg
      /\ destinationDataCentre cfg' = destinationDataCentre cfg
      /\ destinationCurrency cfg' = destinationCurrency cfg).
Proof.
  split; [|split; [|split; [|split; [|exact (validateConfig_frame cfg)]]]].
  - intros n Hnone. unfold validateConfig. simpl.
    destruct (10 <? String.length (originatorId cfg))%nat;
      [discriminate|].
    destruct (JS.matchDigits 1 4 (fileCreationNumber cfg));
      [|discriminate].
    destruct (JS.matchDigits 0 5 (orElse (destinationDataCentre cfg) ""));
      [|discriminate].
    rewrite Hnone. simpl.
    destruct (JS.includes [""; "CAD"; "USD"]
                (orElse (destinationCurrency cfg) ""));
      [|discriminate].
    simpl. intros E. injection E as <-.
    split; [reflexivity|]. split; [reflexivity|].
    destruct (15 <? String.length (originatorLongName cfg))%nat;
      destruct (30 <? String.length (originatorLongName cfg))%nat;
      (split; [lia | f_equal; lia]).
  - intros Hnone He. unfold earlyFault in He.
    apply orb_false_iff in He as [He H3].
    apply orb_false_iff in He as [H1 H2].
    unfold validateConfig, setOriginatorShortName.
    cbn [originatorId fileCreationNumber destinationDataCentre
         originatorShortName originatorLongName destinationCurrency].
    rewrite H1, H2, H3, Hnone. cbv zeta iota beta.
    cbn [originatorLongName destinationCurrency].
    destruct (negb (JS.includes [""; "CAD"; "USD"]
                      (orElse (destinationCurrency cfg) "")));
      cbn [fst snd addCount bind]; split; try reflexivity.
    destruct (15 <? String.length (originatorLongName cfg))%nat;
      destruct (30 <? String.length (originatorLongName cfg))%nat;
      f_equal; lia.
  - intros _ He. unfold earlyFault in He. unfold validateConfig.
    destruct (10 <? String.length (originatorId cfg))%nat;
      [split; reflexivity|].
    destruct (negb (JS.matchDigits 1 4 (fileCreationNumber cfg)));
      [split; reflexivity|].
    destruct (negb (JS.matchDigits 0 5
                      (orElse (destinationDataCentre cfg) "")));
      [split; reflexivity | discriminate He].
  - intros name Hsome. unfold validateConfig.
    destruct (10 <? String.length (originatorId cfg))%nat;
      [reflexivity|].
    destruct (JS.matchDigits 1 4 (fileCreationNumber cfg));
      [|reflexivity].
    destruct (JS.matchDigits 0 5 (orElse (destinationDataCentre cfg) ""));
      [|reflexivity].
    rewrite Hsome. cbv zeta iota beta.
    now destruct (negb (JS.includes [""; "CAD"; "USD"]
                          (orElse (destinationCurrency cfg) ""))).
Qed.

End ConfigProperties.

(** The sample configuration, which has no short name, is accepted with
    one warning and leaves validation with the long name as short name. *)
Lemma validateConfig_throws_iff_sample :
  exists n, snd (validateConfig Sample.config) = Ok n /\ (0 <= n <= 3)%N.
Proof.
  apply (proj2 (validateConfig_throws_iff Sample.config)). reflexivity.
Defined.

(** C4 as stated fails: a destination currency that is defined as the
    empty string is neither "CAD" nor "USD", and [validateConfig] returns. *)
Lemma validateConfig_accepts_empty_currency :
  snd (validateConfig (Sample.withCurrency (Some "") Sample.config)) = Ok 1%N
  /\ exists currency,
      destinationCurrency (Sample.withCurrency (Some "") Sample.config)
      = Some currency
      /\ currency <> "CAD" /\ currency <> "USD".
Proof.
  split; [reflexivity|].
  exists "". repeat split; discriminate.
Qed.

(** The sample configuration, which has no short name, returns with one
    warning and the long name as short name; with the currency "EUR" the
    short name is set all the same and the currency is then refused; with
    a short name supplied nothing is changed. *)
Lemma validateConfig_short_name_default_sample :
  (originatorShortName (fst (validateConfig Sample.config)) = Some "Test Co"
   /\ snd (validateConfig Sample.config) = Ok 1%N
   /\ snd (validateConfig
             (setOriginatorShortName Sample.config "Test Co")) = Ok 0%N)
  /\ (fst (validateConfig (Sample.withCurrency (Some "EUR") Sample.config))
      = setOriginatorShortName
          (Sample.withCurrency (Some "EUR") Sample.config) "Test Co"
      /\ snd (validateConfig
                (Sample.withCurrency (Some "EUR") Sample.config))
         = Throw "Unsupported destinationCurrency: EUR")
  /\ fst (validateConfig (Sample.withShortName (Some "TC") Sample.config))
     = Sample.withShortName (Some "TC") Sample.config.
Proof.
  split; [|split].
  - pose proof (proj1 (validateConfig_short_name_default Sample.config)
                  1%N eq_refl eq_refl) as H.
    destruct H as (_ & H1 & _ & H2).
    split; [exact H1 | split; [reflexivity | exact H2]].
  - destruct (proj1 (proj2 (validateConfig_short_name_default
                              (Sample.withCurrency (Some "EUR")
                                 Sample.config)))
                eq_refl eq_refl) as [H1 H2].
    split; [exact H1 | rewrite H2; reflexivity].
  - exact (proj1 (proj2 (proj2 (proj2 (validateConfig_short_name_default
                           (Sample.withShortName (Some "TC")
                              Sample.config)))))
             "TC" eq_refl).
Defined.

(** C9 as stated fails: with an originator id of 11 characters and no
    short name, [validateConfig] throws on the id, sets no short name and
    returns no count to which a warning is added. *)
Lemma validateConfig_throws_before_default :
  originatorShortName (Sample.withOriginatorId "00000012345" Sample.config)
  = None
  /\ originatorShortName
       (fst (validateConfig
               (Sample.withOriginatorId "00000012345" Sample.config)))
     = None
  /\ snd (validateConfig
            (Sample.withOriginatorId "00000012345" Sample.config))
     = Throw "originatorId length exceeds 10: 00000012345".
Proof.
  repeat split.
Qed.

(** ** Properties of [validateTransactions] *)

Section LoopFacts.

Context {S A : Type}.
Variable body : S -> A -> result S.

Lemma forOf_app (xs ys : list A) (st : S) :
  forOf body st (xs ++ ys)
  = bind (forOf body st xs) (fun st' => forOf body st' ys).
Proof.
  revert st. induction xs as [|x xs IH]; intros st; simpl; [reflexivity|].
  destruct (body st x) as [st'|m]; simpl; [apply IH | reflexivity].
Qed.

Lemma forOf_throws (x : A) (xs : list A) :
  In x xs ->
  (forall st, isThrow (body st x) = true) ->
  forall st, isThrow (forOf body st xs) = true.
Proof.
  intros Hin Hx. induction xs as [|y xs IH]; intros st; [contradiction|].
  simpl. destruct Hin as [->|Hin].
  - specialize (Hx st). destruct (body st x); [discriminate | reflexivity].
  - destruct (body st y); simpl; [now apply IH | reflexivity].
Qed.

Lemma forOf_each (xs : list A) :
  forall st st',
    forOf body st xs = Ok st' ->
    forall x, In x xs -> exists a b, body a x = Ok b.
Proof.
  induction xs as [|y xs IH]; intros st st' H x Hx; [contradiction|].
  simpl in H. destruct (body st y) as [st1|m] eqn:E; [|discriminate].
  simpl in H. destruct Hx as [<-|Hx].
  - now exists st, st1.
  - exact (IH st1 st' H x Hx).
Qed.

End LoopFacts.

Section TransactionProperties.

Context {Date : Type} {runtime : Runtime Date}.
Implicit Type s : EFTTransactionSegment Date.
Implicit Type t : EFTTransaction Date.
Implicit Type txs : list (EFTTransaction Date).

Lemma validateSegment_shift (w k : N) (seen : list string) s :
  validateSegment (w + k, seen)%N s
  = addWarnings k (validateSegment (w, seen) s).
Proof.
  unfold validateSegment, addWarnings.
  destruct (amount s <=? 0)%float; [reflexivity|].
  destruct (100000000 <=? amount s)%float; [reflexivity|].
  destruct (JS.matchDigits 1 3 (bankInstitutionNumber s)); [|reflexivity].
  destruct (JS.matchDigits 1 5 (bankTransitNumber s)); [|reflexivity].
  destruct (JS.matchDigits 1 12 (bankAccountNumber s)); [|reflexivity].
  simpl.
  destruct (isValidCPACode (cpaCode s)),
    (30 <? String.length (payeeName s))%nat,
    (crossReferenceNumber s) as [x|]; simpl;
    try destruct (JS.Set_has seen x); simpl; do 2 f_equal; lia.
Qed.

Lemma validateSegments_shift (w k : N) (seen : list string)
    (segs : list (EFTTransactionSegment Date)) :
  forOf validateSegment (w + k, seen)%N segs
  = addWarnings k (forOf validateSegment (w, seen) segs).
Proof.
  revert w seen. induction segs as [|s segs IH]; intros w seen; simpl.
  - reflexivity.
  - rewrite validateSegment_shift.
    destruct (validateSegment (w, seen) s) as [[w' seen']|m]; simpl.
    + apply IH.
    + reflexivity.
Qed.

Lemma validateTransaction_shift (w k : N) (seen : list string) t :
  validateTransaction (w + k, seen)%N t
  = addWarnings k (validateTransaction (w, seen) t).
Proof.
  unfold validateTransaction.
  destruct (negb (JS.includes ["C"; "D"] (recordType t)));
    [reflexivity|].
  destruct (List.length (segments t) =? 0)%nat,
    (6 <? List.length (segments t))%nat;
    rewrite <- validateSegments_shift; do 2 f_equal; lia.
Qed.

Lemma validateTransactions_loop_shift (w k : N) (seen : list string) txs :
  forOf validateTransaction (w + k, seen)%N txs
  = addWarnings k (forOf validateTransaction (w, seen) txs).
Proof.
  revert w seen. induction txs as [|t txs IH]; intros w seen; simpl.
  - reflexivity.
  - rewrite validateTransaction_shift.
    destruct (validateTransaction (w, seen) t) as [[w' seen']|m]; simpl.
    + apply IH.
    + reflexivity.
Qed.

(** A segment whose amount fails one of the two amount guards makes the
    loop body throw from any state. *)
Lemma validateSegment_amount_throws (st : N * list string) s :
  (amount s <=? 0)%float = true \/ (100000000 <=? amount s)%float = true ->
  isThrow (validateSegment st s) = true.
Proof.
  intros H. unfold validateSegment. destruct st as [w seen].
  destruct (amount s <=? 0)%float; [reflexivity|].
  destruct H as [H|H]; [discriminate|]. now rewrite H.
Qed.

Lemma validateTransaction_amount_throws (st : N * list string) t s :
  In s (segments t) ->
  (amount s <=? 0)%float = true \/ (100000000 <=? amount s)%float = true ->
  isThrow (validateTransaction st t) = true.
Proof.
  intros Hin H. unfold validateTransaction. destruct st as [w seen].
  destruct (negb (JS.includes ["C"; "D"] (recordType t)));
    [reflexivity|].
  apply (forOf_throws validateSegment s); [exact Hin|].
  intros st. now apply validateSegment_amount_throws.
Qed.

Lemma validateTransactions_amount_throws txs t s :
  In t txs -> In s (segments t) ->
  (amount s <=? 0)%float = true \/ (100000000 <=? amount s)%float = true ->
  isThrow (validateTransactions txs) = true.
Proof.
  intros Ht Hs H. unfold validateTransactions.
  assert (L : forall st, isThrow (forOf validateTransaction st txs) = true).
  { apply (forOf_throws validateTransaction t); [exact Ht|].
    intros st. now apply (validateTransaction_amount_throws st t s). }
  destruct (N.of_nat (List.length txs) =? 0)%N; simpl.
  - specialize (L (1%N, [])).
    destruct (forOf validateTransaction (1%N, []) txs);
      [discriminate | reflexivity].
  - destruct (999999999 <? N.of_nat (List.length txs))%N; simpl;
      [reflexivity|].
    specialize (L (0%N, [])).
    destruct (forOf validateTransaction (0%N, []) txs);
      [discriminate | reflexivity].
Qed.

Lemma Set_has_add (seen : list string) (x y : string) :
  JS.Set_has (JS.Set_add seen x) y = (String.eqb y x || JS.Set_has seen y)%bool.
Proof.
  unfold JS.Set_add. destruct (JS.Set_has seen x) eqn:Hx.
  - destruct (String.eqb_spec y x) as [->|]; [now rewrite Hx | reflexivity].
  - unfold JS.Set_has, JS.includes. rewrite existsb_app. simpl.
    rewrite orb_false_r. apply orb_comm.
Qed.

Lemma sameMembers_add (seen before : list string) (x : string) :
  sameMembers seen before -> sameMembers (JS.Set_add seen x) (x :: before).
Proof.
  intros H y. rewrite Set_has_add. simpl. now rewrite H.
Qed.

Lemma sameMembers_nil : sameMembers [] [].
Proof. intros y. reflexivity. Qed.

(** The state a segment leaves, from what the same segment without its
    cross-reference number leaves. *)
Lemma validateSegment_reference (w : N) (seen : list string) s :
  validateSegment (w, seen) s
  = bind (validateSegment (0%N, []) (withoutReference s))
      (fun st =>
         match crossReferenceNumber s with
         | Some x =>
             Ok ((w + fst st + if JS.Set_has seen x then 1 else 0)%N,
                 JS.Set_add seen x)
         | None => Ok ((w + fst st)%N, seen)
         end).
Proof.
  unfold validateSegment. simpl.
  destruct (amount s <=? 0)%float; [reflexivity|].
  destruct (100000000 <=? amount s)%float; [reflexivity|].
  destruct (JS.matchDigits 1 3 (bankInstitutionNumber s)); [|reflexivity].
  destruct (JS.matchDigits 1 5 (bankTransitNumber s)); [|reflexivity].
  destruct (JS.matchDigits 1 12 (bankAccountNumber s)); [|reflexivity].
  simpl.
  destruct (isValidCPACode (cpaCode s)),
    (30 <? String.length (payeeName s))%nat,
    (crossReferenceNumber s) as [x|]; simpl;
    try destruct (JS.Set_has seen x); simpl; do 2 f_equal; lia.
Qed.

Lemma validateSegment_bare_state (w : N) (seen : list string) s :
  forall st, validateSegment (w, seen) (withoutReference s) = Ok st ->
             snd st = seen.
Proof.
  intros st. rewrite validateSegment_reference. simpl.
  destruct (validateSegment (0%N, []) (withoutReference (withoutReference s)));
    simpl; [|discriminate].
  intros E. injection E as <-. reflexivity.
Qed.

Lemma validateSegments_reference (segs : list (EFTTransactionSegment Date)) :
  forall (w : N) (seen before : list string),
    sameMembers seen before ->
    forOf validateSegment (w, seen) segs
    = bind (forOf validateSegment (0%N, []) (map withoutReference segs))
        (fun st =>
           Ok ((w + fst st + repeats before (referencesOf segs))%N,
               fold_left JS.Set_add (referencesOf segs) seen)).
Proof.
  induction segs as [|s segs IH]; intros w seen before Hsame.
  - simpl. do 2 f_equal. lia.
  - cbn [forOf map]. rewrite validateSegment_reference.
    destruct (validateSegment (0%N, []) (withoutReference s))
      as [[a seen0]|m] eqn:E; [|reflexivity].
    assert (seen0 = []) by (apply (validateSegment_bare_state _ _ _ _ E)).
    subst seen0. cbn [bind fst].
    replace (a, @nil string) with ((0 + a)%N, @nil string) by (f_equal; lia).
    rewrite (validateSegments_shift 0 a []). unfold addWarnings.
    unfold referencesOf. cbn [flat_map]. fold (referencesOf segs).
    destruct (crossReferenceNumber s) as [x|]; cbn [bind].
    + rewrite (IH _ _ (x :: before) (sameMembers_add _ _ x Hsame)).
      destruct (forOf validateSegment (0%N, [])
                  (map withoutReference segs)) as [[b seen1]|m'];
        [|reflexivity].
      cbn [bind fst snd app repeats fold_left]. rewrite (Hsame x).
      do 2 f_equal. lia.
    + rewrite (IH _ _ before Hsame).
      destruct (forOf validateSegment (0%N, [])
                  (map withoutReference segs)) as [[b seen1]|m'];
        [|reflexivity].
      cbn [bind fst snd app]. do 2 f_equal. lia.
Qed.

Lemma validateSegments_bare_state
    (segs : list (EFTTransactionSegment Date)) (w : N) (seen : list string) :
  forall st,
    forOf validateSegment (w, seen) (map withoutReference segs) = Ok st ->
    snd st = seen.
Proof.
  revert w seen. induction segs as [|s segs IH]; intros w seen st; simpl.
  - intros E. injection E as <-. reflexivity.
  - destruct (validateSegment (w, seen) (withoutReference s))
      as [[w' seen']|m] eqn:E; simpl; [|discriminate].
    apply validateSegment_bare_state in E. simpl in E. subst seen'.
    apply IH.
Qed.

Lemma repeats_app (before xs ys : list string) :
  repeats before (xs ++ ys)%list
  = (repeats before xs + repeats (rev xs ++ before)%list ys)%N.
Proof.
  revert before. induction xs as [|x xs IH]; intros before; simpl.
  - reflexivity.
  - rewrite IH. rewrite <- app_assoc. simpl. lia.
Qed.

Lemma sameMembers_fold (xs seen before : list string) :
  sameMembers seen before ->
  sameMembers (fold_left JS.Set_add xs seen) (rev xs ++ before)%list.
Proof.
  revert seen before. induction xs as [|x xs IH]; intros seen before H.
  - exact H.
  - simpl. rewrite <- app_assoc. simpl. apply IH.
    now apply sameMembers_add.
Qed.

Lemma validateTransaction_reference (w : N) (seen before : list string) t :
  sameMembers seen before ->
  validateTransaction (w, seen) t
  = bind (validateTransaction (0%N, []) (withoutReferencesIn t))
      (fun st =>
         Ok ((w + fst st + repeats before (referencesOf (segments t)))%N,
             fold_left JS.Set_add (referencesOf (segments t)) seen)).
Proof.
  intros Hsame. unfold validateTransaction. simpl.
  rewrite !length_map.
  destruct (negb (JS.includes ["C"; "D"] (recordType t))); [reflexivity|].
  set (w0 := if (6 <? List.length (segments t))%nat
             then ((if (List.length (segments t) =? 0)%nat
                    then (0 + 1)%N else 0%N) + 1)%N
             else (if (List.length (segments t) =? 0)%nat
                   then (0 + 1)%N else 0%N)).
  set (w1 := if (6 <? List.length (segments t))%nat
             then ((if (List.length (segments t) =? 0)%nat
                    then (w + 1)%N else w) + 1)%N
             else (if (List.length (segments t) =? 0)%nat
                   then (w + 1)%N else w)).
  assert (Hw : w1 = (w + w0)%N).
  { unfold w0, w1.
    destruct (6 <? List.length (segments t))%nat,
      (List.length (segments t) =? 0)%nat; lia. }
  rewrite (validateSegments_reference _ w1 seen before Hsame).
  replace (w0, @nil string) with ((0 + w0)%N, @nil string) by (f_equal; lia).
  rewrite (validateSegments_shift 0 w0 []). unfold addWarnings.
  destruct (forOf validateSegment (0%N, [])
              (map withoutReference (segments t))) as [[b seen1]|m];
    [|reflexivity].
  cbn [bind fst snd]. do 2 f_equal. lia.
Qed.

Lemma validateTransaction_bare_state (w : N) (seen : list string) t :
  forall st,
    validateTransaction (w, seen) (withoutReferencesIn t) = Ok st ->
    snd st = seen.
Proof.
  intros st. unfold validateTransaction. simpl.
  destruct (negb (JS.includes ["C"; "D"] (recordType t))); [discriminate|].
  apply validateSegments_bare_state.
Qed.

Lemma validateTransactions_loop_reference txs :
  forall (w : N) (seen before : list string),
    sameMembers seen before ->
    forOf validateTransaction (w, seen) txs
    = bind (forOf validateTransaction (0%N, []) (withoutReferences txs))
        (fun st =>
           Ok ((w + fst st + repeats before (suppliedReferences txs))%N,
               fold_left JS.Set_add (suppliedReferences txs) seen)).
Proof.
  induction txs as [|t txs IH]; intros w seen before Hsame.
  - simpl. do 2 f_equal. lia.
  - cbn [forOf withoutReferences map].
    fold (withoutReferencesIn t). fold (withoutReferences txs).
    rewrite (validateTransaction_reference w seen before t Hsame).
    destruct (validateTransaction (0%N, []) (withoutReferencesIn t))
      as [[a seen0]|m] eqn:E; [|reflexivity].
    apply validateTransaction_bare_state in E as E'. simpl in E'.
    subst seen0. cbn [bind fst].
    replace (a, @nil string) with ((0 + a)%N, @nil string) by (f_equal; lia).
    rewrite (validateTransactions_loop_shift 0 a []). unfold addWarnings.
    unfold suppliedReferences. cbn [flat_map].
    fold (suppliedReferences txs). fold (referencesOf (segments t)).
    cbn [bind].
    rewrite (IH _ _ (rev (referencesOf (segments t)) ++ before)%list
               (sameMembers_fold _ _ _ Hsame)).
    destruct (forOf validateTransaction (0%N, []) (withoutReferences txs))
      as [[b seen1]|m']; [|reflexivity].
    cbn [bind fst snd]. rewrite repeats_app, fold_left_app.
    do 2 f_equal. lia.
Qed.

Lemma validateTransactions_reference txs :
  validateTransactions txs
  = addCount (repeats [] (suppliedReferences txs))
      (validateTransactions (withoutReferences txs)).
Proof.
  unfold validateTransactions, addCount, withoutReferences.
  rewrite length_map. fold (withoutReferences txs).
  destruct (N.of_nat (List.length txs) =? 0)%N; cbn [bind].
  - rewrite (validateTransactions_loop_reference txs 1 [] [] sameMembers_nil).
    replace (1%N, @nil string) with ((0 + 1)%N, @nil string) by reflexivity.
    rewrite (validateTransactions_loop_shift 0 1 []). unfold addWarnings.
    destruct (forOf validateTransaction (0%N, []) (withoutReferences txs))
      as [[b seen1]|m']; [|reflexivity].
    cbn [bind fst snd]. f_equal. lia.
  - destruct (999999999 <? N.of_nat (List.length txs))%N; cbn [bind];
      [reflexivity|].
    rewrite (validateTransactions_loop_reference txs 0 [] [] sameMembers_nil).
    destruct (forOf validateTransaction (0%N, []) (withoutReferences txs))
      as [[b seen1]|m']; [|reflexivity].
    cbn [bind fst snd]. f_equal.
Qed.

Lemma repeats_member (x : string) (xs before : list string) :
  In x before -> In x xs -> (1 <= repeats before xs)%N.
Proof.
  revert before. induction xs as [|y xs IH]; intros before Hb Hx;
    [contradiction|].
  simpl. destruct Hx as [->|Hx].
  - replace (existsb (String.eqb x) before) with true; [lia|].
    symmetry. apply existsb_exists. exists x. split; [exact Hb|].
    apply String.eqb_refl.
  - assert (1 <= repeats (y :: before) xs)%N
      by (apply IH; [now right | exact Hx]).
    lia.
Qed.

Lemma repeats_twice (x : string) (l1 l2 l3 before : list string) :
  (1 <= repeats before (l1 ++ x :: l2 ++ x :: l3)%list)%N.
Proof.
  rewrite repeats_app. simpl.
  assert (1 <= repeats (x :: rev l1 ++ before)%list (l2 ++ x :: l3)%list)%N.
  { apply (repeats_member x); [now left|].
    apply in_or_app. right. now left. }
  lia.
Qed.

(** C5.  A segment whose amount is 100,000,000, or more, or zero or less,
    makes [validateTransactions] throw wherever it stands in the list; a
    segment whose amount is 99,999,999.99 gets past the two amount guards,
    is accepted when its bank numbers are well formed, and has the
    10-character amount field "9999999999". *)
Theorem amount_limits :
  (forall txs t s,
      In t txs -> In s (segments t) ->
      amount s = 100000000%float
      \/ (100000000 <=? amount s)%float = true
      \/ (amount s <=? 0)%float = true ->
      isThrow (validateTransactions txs) = true)
  /\ (forall s w seen,
         amount s = 99999999.99%float ->
         JS.matchDigits 1 3 (bankInstitutionNumber s) = true ->
         JS.matchDigits 1 5 (bankTransitNumber s) = true ->
         JS.matchDigits 1 12 (bankAccountNumber s) = true ->
         isThrow (validateSegment (w, seen) s) = false)
  /\ (forall s,
         amount s = 99999999.99%float ->
         amountField s = "9999999999"
         /\ String.length (amountField s) = 10).
Proof.
  split; [|split].
  - intros txs t s Ht Hs H.
    apply (validateTransactions_amount_throws txs t s Ht Hs).
    destruct H as [H|[H|H]]; [right; now rewrite H | now right | now left].
  - intros s w seen Ha H1 H2 H3. unfold validateSegment.
    rewrite Ha, H1, H2, H3.
    replace (99999999.99 <=? 0)%float with false by reflexivity.
    replace (100000000 <=? 99999999.99)%float with false by reflexivity.
    simpl. now destruct (crossReferenceNumber s).
  - intros s Ha. unfold amountField. rewrite Ha.
    split; vm_compute; reflexivity.
Qed.

End TransactionProperties.

Lemma amount_limits_sample :
  isThrow (validateTransactions
             [Sample.credit [Sample.withAmount 100000000 Sample.segment]])
  = true
  /\ isThrow (validateSegment (0%N, [])
                (Sample.withAmount 99999999.99 Sample.segment)) = false
  /\ amountField (Sample.withAmount 99999999.99 Sample.segment)
     = "9999999999"
  /\ validateTransactions
       [Sample.credit [Sample.withAmount 99999999.99 Sample.segment]]
     = Ok 0%N.
Proof.
  destruct (@amount_limits Sample.Day Sample.runtime) as (H1 & H2 & H3).
  split; [|split; [|split]].
  - apply (H1 _ (Sample.credit [Sample.withAmount 100000000 Sample.segment])
             (Sample.withAmount 100000000 Sample.segment));
      [now left | now left | now left].
  - apply H2; reflexivity.
  - apply H3. reflexivity.
  - reflexivity.
Defined.

(** ** Properties of the encoder *)

Section EncoderProperties.

Context {Date : Type} {runtime : Runtime Date}.
Implicit Type cfg : EFTConfiguration Date.
Implicit Type s : EFTTransactionSegment Date.
Implicit Type t : EFTTransaction Date.
Implicit Type txs : list (EFTTransaction Date).
Implicit Type st : Encoder.
Implicit Type now : nat -> Date.

(** An invariant of the loop over the segments of a transaction. *)
Lemma encodeSegments_invariant now cfg t (P : N -> Encoder -> Prop)
    (segs : list (EFTTransactionSegment Date)) :
  forall first : N,
    (forall idx st s,
        In s segs ->
        (first <= idx < first + N.of_nat (List.length segs))%N ->
        P idx st -> P (idx + 1)%N (encodeSegment now cfg t idx st s)) ->
    forall st,
      P first st ->
      P (first + N.of_nat (List.length segs))%N
        (encodeSegments now cfg t first st segs).
Proof.
  induction segs as [|s segs IH]; intros first Hstep st H.
  - simpl. now rewrite N.add_0_r.
  - cbn [encodeSegments List.length].
    replace (first + N.of_nat (S (List.length segs)))%N
      with ((first + 1) + N.of_nat (List.length segs))%N by lia.
    apply IH.
    + intros idx st' s' Hin Hidx. apply Hstep; [now right | cbn; lia].
    + apply Hstep; [now left | cbn; lia | exact H].
Qed.

Lemma fold_invariant {S A : Type} (f : S -> A -> S) (P : S -> Prop)
    (xs : list A) :
  (forall acc x, In x xs -> P acc -> P (f acc x)) ->
  forall acc, P acc -> P (fold_left f xs acc).
Proof.
  induction xs as [|x xs IH]; intros Hstep acc H; simpl; [exact H|].
  apply IH.
  - intros acc' y Hy. apply Hstep. now right.
  - apply Hstep; [now left | exact H].
Qed.

Lemma length_recordStart_pos cfg t (rc : N) :
  0 < String.length (recordStart cfg t rc).
Proof.
  unfold recordStart.
  rewrite !JSFacts.length_append, JSFacts.length_padStart. lia.
Qed.

Lemma prepend_front (a rest x back : string) :
  (exists front, rest = front ++ x ++ back) ->
  exists front, a ++ rest = front ++ x ++ back.
Proof.
  intros [front ->]. exists (a ++ front).
  now rewrite JSFacts.append_assoc.
Qed.

(** The text of a segment ends with its cross-reference field followed by
    71 filler characters. *)
Lemma segmentText_reference cfg (rc idx : N) (d : string) s :
  exists front,
    segmentText cfg rc idx d s
    = front ++ crossReferenceField cfg rc idx s ++ returnFiller.
Proof.
  unfold segmentText. do 12 apply prepend_front. now exists "".
Qed.

(** An iteration that starts a physical record. *)
Lemma encodeSegment_open now cfg t (idx : N) st s :
  (idx mod 6 = 0)%N ->
  let st' := encodeSegment now cfg t idx st s in
  outputLines st'
  = (if (0 <? idx)%N then (outputLines st ++ [record st])%list
     else outputLines st)
  /\ recordCount st' = (recordCount st + 1)%N
  /\ record st'
     = recordStart cfg t (recordCount st + 1)
       ++ segmentText cfg (recordCount st + 1) idx (dateField now st s) s.
Proof.
  intros E. unfold encodeSegment, dateField.
  apply N.eqb_eq in E. rewrite E. simpl. auto.
Qed.

(** An iteration that continues the physical record. *)
Lemma encodeSegment_continue now cfg t (idx : N) st s :
  (idx mod 6 <> 0)%N ->
  let st' := encodeSegment now cfg t idx st s in
  outputLines st' = outputLines st
  /\ recordCount st' = recordCount st
  /\ record st'
     = record st
       ++ segmentText cfg (recordCount st) idx (dateField now st s) s.
Proof.
  intros E. unfold encodeSegment, dateField.
  apply N.eqb_neq in E. rewrite E. simpl. auto.
Qed.

Lemma record_encodeSegment now cfg t (idx : N) st s :
  let st' := encodeSegment now cfg t idx st s in
  (idx mod 6 = 0)%N
  /\ recordCount st' = (recordCount st + 1)%N
  /\ record st'
     = recordStart cfg t (recordCount st')
       ++ segmentText cfg (recordCount st') idx (dateField now st s) s
  \/ (idx mod 6 <> 0)%N
     /\ recordCount st' = recordCount st
     /\ record st'
        = record st
          ++ segmentText cfg (recordCount st') idx (dateField now st s) s.
Proof.
  intros st'. destruct (N.eq_dec (idx mod 6) 0) as [E|E].
  - left. destruct (encodeSegment_open now cfg t idx st s E) as (_ & C & R).
    fold st' in C, R. rewrite C. auto.
  - right.
    destruct (encodeSegment_continue now cfg t idx st s E) as (_ & C & R).
    fold st' in C, R. rewrite C. auto.
Qed.

Lemma encodeSegments_app now cfg t
    (before after : list (EFTTransactionSegment Date)) :
  forall (idx : N) st,
    encodeSegments now cfg t idx st (before ++ after)
    = encodeSegments now cfg t (idx + N.of_nat (List.length before))
        (encodeSegments now cfg t idx st before) after.
Proof.
  induction before as [|s before IH]; intros idx st.
  - simpl. now rewrite N.add_0_r.
  - cbn [app encodeSegments List.length]. rewrite IH. f_equal. lia.
Qed.

(** Once a segment has been encoded, the record being filled begins with
    the start of the record numbered [recordCount]. *)
Lemma record_starts now cfg t st
    (before : list (EFTTransactionSegment Date)) :
  before <> [] ->
  exists rest,
    record (encodeSegments now cfg t 0 st before)
    = recordStart cfg t
        (recordCount (encodeSegments now cfg t 0 st before)) ++ rest.
Proof.
  intros Hne.
  assert (H : (0 + N.of_nat (List.length before))%N <> 0%N
              -> exists rest,
                record (encodeSegments now cfg t 0 st before)
                = recordStart cfg t
                    (recordCount (encodeSegments now cfg t 0 st before))
                  ++ rest).
  { apply (encodeSegments_invariant now cfg t
             (fun i st' =>
                i <> 0%N ->
                exists rest,
                  record st' = recordStart cfg t (recordCount st') ++ rest)
             before 0%N).
    - intros idx st' s _ _ IH _.
      destruct (record_encodeSegment now cfg t idx st' s)
        as [(_ & _ & R)|(E & C & R)].
      + eexists. exact R.
      + assert (Hz : idx <> 0%N) by (intros ->; now apply E).
        destruct (IH Hz) as [rest Hrest].
        eexists. rewrite R, C, Hrest, JSFacts.append_assoc. reflexivity.
    - intros F. now contradiction F. }
  apply H. destruct before; [now contradiction Hne | simpl; lia].
Qed.

(** C6.  Validation with cross-reference numbers is validation without
    them plus one warning for every supplied number that repeats an earlier
    one: a repeat adds a warning and never a fatal error, and two segments
    with the same number give at least one such warning.  The encoder
    writes a supplied number, padded with spaces and cut to 19 characters,
    whatever the other segments supply; for a segment without a number,
    wherever it stands in its transaction, it writes "f" +
    fileCreationNumber + "r" + the sequence number with which the physical
    record that holds the segment starts + "s" + the 1-based position of
    the segment in its transaction, padded and cut in the same way.  In
    both cases the field is followed by the 71 filler characters that end
    the text of a segment. *)
Theorem cross_reference_numbers :
  (forall txs,
      validateTransactions txs
      = addCount (repeats [] (suppliedReferences txs))
          (validateTransactions (withoutReferences txs)))
  /\ (forall txs,
         isThrow (validateTransactions txs)
         = isThrow (validateTransactions (withoutReferences txs)))
  /\ (forall txs l1 x l2 l3,
         suppliedReferences txs = (l1 ++ x :: l2 ++ x :: l3)%list ->
         (1 <= repeats [] (suppliedReferences txs))%N)
  /\ (forall cfg rc idx d s x,
         crossReferenceNumber s = Some x ->
         exists front,
           segmentText cfg rc idx d s
           = front ++ referenceField x ++ returnFiller)
  /\ (forall now cfg t st before s after,
         segments t = (before ++ s :: after)%list ->
         crossReferenceNumber s = None ->
         let idx := N.of_nat (List.length before) in
         let st' :=
           encodeSegment now cfg t idx
             (encodeSegments now cfg t 0 (withRecord st "") before) s in
         exists middle,
           record st'
           = recordStart cfg t (recordCount st')
             ++ middle
             ++ referenceField
                  ("f" ++ fileCreationNumber cfg
                   ++ "r" ++ JS.natToString (recordCount st')
                   ++ "s" ++ JS.natToString (idx + 1))
             ++ returnFiller)
  /\ (forall number, String.length (referenceField number) = 19)
  /\ String.length returnFiller = 71.
Proof.
  split; [exact validateTransactions_reference|].
  split.
  { intros txs. rewrite (validateTransactions_reference txs).
    now destruct (validateTransactions (withoutReferences txs)). }
  split.
  { intros txs l1 x l2 l3 ->. apply repeats_twice. }
  split.
  { intros cfg rc idx d s x Hx.
    destruct (segmentText_reference cfg rc idx d s) as [front E].
    exists front. rewrite E. unfold crossReferenceField, crossReferenceOf.
    now rewrite Hx. }
  split.
  { intros now cfg t st0 before s after _ Hx idx.
    set (st := encodeSegments now cfg t 0 (withRecord st0 "") before).
    intros st'.
    destruct (record_encodeSegment now cfg t idx st s)
      as [(Hidx & Hrc & Hrec)|(Hidx & Hrc & Hrec)]; fold st' in Hrc, Hrec.
    - destruct (segmentText_reference cfg (recordCount st') idx
                  (dateField now st s) s) as [front E].
      exists front. rewrite Hrec, E.
      unfold crossReferenceField, crossReferenceOf. now rewrite Hx.
    - assert (Hne : before <> []).
      { intros ->. now apply Hidx. }
      destruct (record_starts now cfg t (withRecord st0 "") before Hne)
        as [rest Hst].
      fold st in Hst.
      destruct (segmentText_reference cfg (recordCount st') idx
                  (dateField now st s) s) as [front E].
      exists (rest ++ front). rewrite Hrec, E, Hst, Hrc.
      unfold crossReferenceField, crossReferenceOf. rewrite Hx.
      now rewrite !JSFacts.append_assoc. }
  split.
  { intros number. apply JSFacts.length_field. }
  reflexivity.
Qed.

Lemma withRecord_idem st (a b : string) :
  withRecord (withRecord st a) b = withRecord st b.
Proof. reflexivity. Qed.

(** The iteration for a transaction starts by clearing [record]. *)
Lemma encodeTransaction_record now cfg st t (text : string) :
  encodeTransaction now cfg (withRecord st text) t
  = encodeTransaction now cfg st t.
Proof.
  unfold encodeTransaction. now rewrite withRecord_idem.
Qed.

Lemma encodeTransaction_congruence now cfg st1 st2 t :
  withRecord st1 "" = withRecord st2 "" ->
  encodeTransaction now cfg st1 t = encodeTransaction now cfg st2 t.
Proof.
  intros H. rewrite <- (encodeTransaction_record now cfg st1 t "").
  rewrite <- (encodeTransaction_record now cfg st2 t "").
  now rewrite H.
Qed.

Lemma encodeTransactions_congruence now cfg txs st1 st2 :
  withRecord st1 "" = withRecord st2 "" ->
  withRecord (fold_left (encodeTransaction now cfg) txs st1) ""
  = withRecord (fold_left (encodeTransaction now cfg) txs st2) "".
Proof.
  intros H. destruct txs as [|t txs]; simpl; [exact H|].
  now rewrite (encodeTransaction_congruence now cfg st1 st2 t H).
Qed.

Lemma encodeTransaction_empty now cfg st t :
  segments t = [] -> encodeTransaction now cfg st t = withRecord st "".
Proof.
  intros H. unfold encodeTransaction. rewrite H. reflexivity.
Qed.

Lemma outputLines_withRecord st1 st2 :
  withRecord st1 "" = withRecord st2 "" ->
  outputLines st1 = outputLines st2.
Proof.
  intros H. change (outputLines (withRecord st1 "")
                    = outputLines (withRecord st2 "")). now rewrite H.
Qed.

Lemma formatTrailer_withRecord cfg st1 st2 :
  withRecord st1 "" = withRecord st2 "" ->
  formatTrailer cfg st1 = formatTrailer cfg st2.
Proof.
  intros H. change (formatTrailer cfg (withRecord st1 "")
                    = formatTrailer cfg (withRecord st2 "")). now rewrite H.
Qed.

(** Leaving out a transaction without segments leaves the encoder, but for
    its scratch variable [record], as it was. *)
Lemma encodeAll_without_empty now cfg (pre post : list (EFTTransaction Date))
    t :
  segments t = [] ->
  withRecord (encodeAll now cfg (pre ++ t :: post)) ""
  = withRecord (encodeAll now cfg (pre ++ post)) "".
Proof.
  intros H. unfold encodeAll. rewrite !fold_left_app. simpl.
  apply encodeTransactions_congruence.
  rewrite (encodeTransaction_empty now cfg _ t H). apply withRecord_idem.
Qed.

Lemma counted_step now cfg t (idx : N) st s :
  counted idx st -> counted (idx + 1) (encodeSegment now cfg t idx st s).
Proof.
  intros [Hc Hr]. unfold counted.
  replace (idx + 1 =? 0)%N with false by (symmetry; apply N.eqb_neq; lia).
  destruct (N.eq_dec (idx mod 6) 0) as [E|E].
  - destruct (encodeSegment_open now cfg t idx st s E) as (O & C & R).
    rewrite O, C, R. split.
    + destruct (N.eqb_spec idx 0) as [->|Hz]; simpl.
      * lia.
      * replace (0 <? idx)%N with true by (symmetry; apply N.ltb_lt; lia).
        rewrite length_app. simpl. lia.
    + intros _. rewrite JSFacts.length_append.
      pose proof (length_recordStart_pos cfg t (recordCount st + 1)). lia.
  - destruct (encodeSegment_continue now cfg t idx st s E) as (O & C & R).
    rewrite O, C, R.
    assert (Hz : idx <> 0%N) by (intros ->; now apply E).
    replace (idx =? 0)%N with false in Hc
      by (symmetry; now apply N.eqb_neq).
    split; [exact Hc|]. intros _. rewrite JSFacts.length_append.
    specialize (Hr Hz). lia.
Qed.

Lemma counted_encodeSegments now cfg t st
    (segs : list (EFTTransactionSegment Date)) :
  counted 0 st ->
  counted (N.of_nat (List.length segs)) (encodeSegments now cfg t 0 st segs).
Proof.
  intros H.
  apply (encodeSegments_invariant now cfg t counted segs 0%N); [|exact H].
  intros idx st' s _ _. apply counted_step.
Qed.

(** Between two iterations of the loop over the transactions, the lines
    pushed are as many as [recordCount]. *)
Lemma count_encodeTransaction now cfg st t :
  N.of_nat (List.length (outputLines st)) = recordCount st ->
  N.of_nat (List.length (outputLines (encodeTransaction now cfg st t)))
  = recordCount (encodeTransaction now cfg st t).
Proof.
  intros H. unfold encodeTransaction.
  assert (H0 : counted 0 (withRecord st "")).
  { split; [simpl; lia | intros F; now contradiction F]. }
  pose proof (counted_encodeSegments now cfg t _ (segments t) H0) as [Hc Hr].
  destruct (segments t) as [|s segs] eqn:Es.
  - simpl. exact H.
  - rewrite <- Es in *.
    assert (Hn : N.of_nat (List.length (segments t)) <> 0%N)
      by (rewrite Es; simpl; lia).
    rewrite JSFacts.eqb_empty_false by (now apply Hr). simpl.
    rewrite length_app. simpl.
    replace (N.of_nat (List.length (segments t)) =? 0)%N with false in Hc
      by (symmetry; now apply N.eqb_neq).
    lia.
Qed.

Lemma count_encodeAll now cfg txs :
  N.of_nat (List.length (outputLines (encodeAll now cfg txs)))
  = recordCount (encodeAll now cfg txs).
Proof.
  unfold encodeAll.
  apply (fold_invariant (encodeTransaction now cfg)
           (fun st => N.of_nat (List.length (outputLines st))
                      = recordCount st)).
  - intros st t _. apply count_encodeTransaction.
  - reflexivity.
Qed.

Lemma recordStart_letter cfg t (rc : N) :
  exists rest,
    recordStart cfg t rc
    = recordType t ++ JS.padStart (JS.natToString rc) 9 "0" ++ rest.
Proof.
  unfold recordStart. eexists. reflexivity.
Qed.

(** The iteration for a transaction of seven segments, from any state. *)
Lemma encodeTransaction_seven now cfg st t s1 s2 s3 s4 s5 s6 s7 :
  segments t = [s1; s2; s3; s4; s5; s6; s7] ->
  let st' := encodeTransaction now cfg st t in
  let k := recordCount st in
  exists d1 d2 d3 d4 d5 d6 d7 : string,
    outputLines st'
    = (outputLines st
       ++ [(recordStart cfg t (k + 1)
            ++ segmentText cfg (k + 1) 0 d1 s1
            ++ segmentText cfg (k + 1) 1 d2 s2
            ++ segmentText cfg (k + 1) 2 d3 s3
            ++ segmentText cfg (k + 1) 3 d4 s4
            ++ segmentText cfg (k + 1) 4 d5 s5
            ++ segmentText cfg (k + 1) 5 d6 s6)%string;
           JS.padEnd
             (recordStart cfg t (k + 2) ++ segmentText cfg (k + 2) 6 d7 s7)
             1464 " "])%list
    /\ recordCount st' = (k + 2)%N.
Proof.
  intros Hsegs. cbv zeta. unfold encodeTransaction. rewrite Hsegs.
  cbn [encodeSegments].
  change (0 + 1)%N with 1%N. change (1 + 1)%N with 2%N.
  change (2 + 1)%N with 3%N. change (3 + 1)%N with 4%N.
  change (4 + 1)%N with 5%N. change (5 + 1)%N with 6%N.
  set (st0 := withRecord st "").
  destruct (encodeSegment_open now cfg t 0 st0 s1 eq_refl) as (O1 & C1 & R1).
  set (st1 := encodeSegment now cfg t 0 st0 s1) in *.
  destruct (encodeSegment_continue now cfg t 1 st1 s2) as (O2 & C2 & R2);
    [discriminate|].
  set (st2 := encodeSegment now cfg t 1 st1 s2) in *.
  destruct (encodeSegment_continue now cfg t 2 st2 s3) as (O3 & C3 & R3);
    [discriminate|].
  set (st3 := encodeSegment now cfg t 2 st2 s3) in *.
  destruct (encodeSegment_continue now cfg t 3 st3 s4) as (O4 & C4 & R4);
    [discriminate|].
  set (st4 := encodeSegment now cfg t 3 st3 s4) in *.
  destruct (encodeSegment_continue now cfg t 4 st4 s5) as (O5 & C5 & R5);
    [discriminate|].
  set (st5 := encodeSegment now cfg t 4 st4 s5) in *.
  destruct (encodeSegment_continue now cfg t 5 st5 s6) as (O6 & C6 & R6);
    [discriminate|].
  set (st6 := encodeSegment now cfg t 5 st5 s6) in *.
  destruct (encodeSegment_open now cfg t 6 st6 s7 eq_refl) as (O7 & C7 & R7).
  set (st7 := encodeSegment now cfg t 6 st6 s7) in *.
  change (0 <? 0)%N with false in O1. change (0 <? 6)%N with true in O7.
  cbv iota in O1, O7.
  assert (K1 : recordCount st6 = (recordCount st + 1)%N).
  { rewrite C6, C5, C4, C3, C2, C1. reflexivity. }
  assert (K0 : outputLines st6 = outputLines st).
  { rewrite O6, O5, O4, O3, O2, O1. reflexivity. }
  exists (dateField now st0 s1), (dateField now st1 s2),
    (dateField now st2 s3), (dateField now st3 s4), (dateField now st4 s5),
    (dateField now st5 s6), (dateField now st6 s7).
  rewrite JSFacts.eqb_empty_false.
  2:{ rewrite R7, JSFacts.length_append.
      pose proof (length_recordStart_pos cfg t (recordCount st6 + 1)). lia. }
  cbn [negb pushLine outputLines recordCount].
  rewrite O7, C7, R7, K0, K1, R6, R5, R4, R3, R2, R1, C5, C4, C3, C2, C1.
  change (recordCount st0) with (recordCount st).
  rewrite !JSFacts.append_assoc.
  replace (recordCount st + 1 + 1)%N with (recordCount st + 2)%N by lia.
  rewrite <- app_assoc. split; reflexivity.
Qed.

(** Lines are only ever added at the end. *)
Lemma outputLines_encodeSegment now cfg t (idx : N) st s :
  exists more,
    outputLines (encodeSegment now cfg t idx st s)
    = (outputLines st ++ more)%list.
Proof.
  destruct (N.eq_dec (idx mod 6) 0) as [E|E].
  - destruct (encodeSegment_open now cfg t idx st s E) as (O & _).
    rewrite O. destruct (0 <? idx)%N.
    + now exists [record st].
    + exists []. now rewrite app_nil_r.
  - destruct (encodeSegment_continue now cfg t idx st s E) as (O & _).
    rewrite O. exists []. now rewrite app_nil_r.
Qed.

Lemma outputLines_encodeTransaction now cfg st t :
  exists more,
    outputLines (encodeTransaction now cfg st t)
    = (outputLines st ++ more)%list.
Proof.
  unfold encodeTransaction.
  assert (H : exists more,
             outputLines (encodeSegments now cfg t 0 (withRecord st "")
                            (segments t))
             = (outputLines st ++ more)%list).
  { apply (encodeSegments_invariant now cfg t
             (fun _ st' => exists more,
                  outputLines st' = (outputLines st ++ more)%list)
             (segments t) 0%N).
    - intros idx st' s _ _ [more E].
      destruct (outputLines_encodeSegment now cfg t idx st' s) as [more' E'].
      exists (more ++ more')%list. now rewrite E', E, app_assoc.
    - exists []. simpl. now rewrite app_nil_r. }
  destruct H as [more H].
  destruct (negb _).
  - eexists. simpl. rewrite H, <- app_assoc. reflexivity.
  - now exists more.
Qed.

Lemma outputLines_encodeTransactions now cfg txs st :
  exists more,
    outputLines (fold_left (encodeTransaction now cfg) txs st)
    = (outputLines st ++ more)%list.
Proof.
  apply (fold_invariant (encodeTransaction now cfg)
           (fun st' => exists more,
                outputLines st' = (outputLines st ++ more)%list)).
  - intros st' t _ [more E].
    destruct (outputLines_encodeTransaction now cfg st' t) as [more' E'].
    exists (more ++ more')%list. now rewrite E', E, app_assoc.
  - exists []. now rewrite app_nil_r.
Qed.


(** With a payment date supplied, an iteration does not read the clock. *)
Lemma encodeSegment_clock now1 now2 cfg t (idx : N) st s :
  paymentDate s <> None ->
  encodeSegment now1 cfg t idx st s = encodeSegment now2 cfg t idx st s.
Proof.
  intros H. unfold encodeSegment.
  destruct (paymentDate s) as [d|]; [reflexivity | now contradiction H].
Qed.

Lemma encodeSegments_clock now1 now2 cfg t
    (segs : list (EFTTransactionSegment Date)) :
  (forall s, In s segs -> paymentDate s <> None) ->
  forall (idx : N) st,
    encodeSegments now1 cfg t idx st segs
    = encodeSegments now2 cfg t idx st segs.
Proof.
  induction segs as [|s segs IH]; intros H idx st; simpl; [reflexivity|].
  rewrite (encodeSegment_clock now1 now2) by (apply H; now left).
  apply IH. intros s' Hs'. apply H. now right.
Qed.

Lemma encodeTransaction_clock now1 now2 cfg st t :
  (forall s, In s (segments t) -> paymentDate s <> None) ->
  encodeTransaction now1 cfg st t = encodeTransaction now2 cfg st t.
Proof.
  intros H. unfold encodeTransaction.
  now rewrite (encodeSegments_clock now1 now2 cfg t (segments t) H).
Qed.

Lemma encodeTransactions_clock now1 now2 cfg txs :
  (forall t s, In t txs -> In s (segments t) -> paymentDate s <> None) ->
  forall st,
    fold_left (encodeTransaction now1 cfg) txs st
    = fold_left (encodeTransaction now2 cfg) txs st.
Proof.
  induction txs as [|t txs IH]; intros H st; simpl; [reflexivity|].
  rewrite (encodeTransaction_clock now1 now2) by (intros s; apply H; now left).
  apply IH. intros t' s Ht'. apply H. now right.
Qed.

Lemma formatHeader_clock now1 now2 (k : nat) cfg :
  fileCreationDate cfg <> None ->
  formatHeader now1 k cfg = formatHeader now2 k cfg.
Proof.
  intros H. unfold formatHeader.
  destruct (fileCreationDate cfg); [reflexivity | now contradiction H].
Qed.

Lemma linesOf_clock now1 now2 cfg txs :
  fileCreationDate cfg <> None ->
  (forall t s, In t txs -> In s (segments t) -> paymentDate s <> None) ->
  linesOf now1 cfg txs = linesOf now2 cfg txs.
Proof.
  intros Hc Ht. unfold linesOf, encodeAll.
  rewrite (formatHeader_clock now1 now2 0 cfg Hc).
  now rewrite (encodeTransactions_clock now1 now2 cfg txs Ht).
Qed.

(** The line pushed last carries, after its first letter, the record
    count: the header is numbered 1, and a detail record is numbered with
    the count at which it was started. *)
Lemma last_numbered now cfg txs :
  exists letter rest,
    last (outputLines (encodeAll now cfg txs)) ""
    = letter
      ++ JS.padStart
           (JS.natToString (recordCount (encodeAll now cfg txs))) 9 "0"
      ++ rest.
Proof.
  unfold encodeAll.
  apply (fold_invariant (encodeTransaction now cfg)
           (fun st => exists letter rest,
                last (outputLines st) ""
                = letter
                  ++ JS.padStart (JS.natToString (recordCount st)) 9 "0"
                  ++ rest)).
  - intros st t _ (letter & rest & H).
    destruct (segments t) as [|s segs] eqn:Es.
    + rewrite (encodeTransaction_empty now cfg st t Es).
      now exists letter, rest.
    + unfold encodeTransaction.
      assert (Hne : segments t <> []) by (rewrite Es; discriminate).
      destruct (record_starts now cfg t (withRecord st "") (segments t) Hne)
        as [tail Hrec].
      set (st1 := encodeSegments now cfg t 0 (withRecord st "")
                    (segments t)) in *.
      rewrite JSFacts.eqb_empty_false.
      2:{ rewrite Hrec, JSFacts.length_append.
          pose proof (length_recordStart_pos cfg t (recordCount st1)). lia. }
      cbn [negb pushLine outputLines recordCount]. rewrite last_last.
      destruct (recordStart_letter cfg t (recordCount st1)) as [more Hs].
      exists (recordType t). eexists.
      unfold JS.padEnd. rewrite Hrec, Hs, !JSFacts.append_assoc.
      reflexivity.
  - exists "A". eexists. unfold formatHeader. reflexivity.
Qed.

(** *** Totals *)

Lemma groups_succ (i : N) :
  ((i + 1 + 5) / 6 = (i + 5) / 6 + (if (i mod 6 =? 0) then 1 else 0))%N.
Proof.
  destruct (N.eqb_spec (i mod 6) 0) as [E|E];
    zify; Z.to_euclidean_division_equations; lia.
Qed.

Lemma totals_encodeSegment now cfg t (idx : N) st s :
  let st' := encodeSegment now cfg t idx st s in
  let opened := (if (idx mod 6 =? 0)%N then 1 else 0)%N in
  recordCount st' = (recordCount st + opened)%N
  /\ totalValueDebits st'
     = (if (recordType t =? "C")%string then totalValueDebits st
        else addAmount (totalValueDebits st) s)
  /\ totalValueCredits st'
     = (if (recordType t =? "C")%string
        then addAmount (totalValueCredits st) s
        else totalValueCredits st)
  /\ totalNumberDebits st'
     = (if (recordType t =? "C")%string then totalNumberDebits st
        else (totalNumberDebits st + opened)%N)
  /\ totalNumberCredits st'
     = (if (recordType t =? "C")%string
        then (totalNumberCredits st + opened)%N
        else totalNumberCredits st).
Proof.
  unfold encodeSegment, addAmount.
  destruct (idx mod 6 =? 0)%N; simpl;
    destruct (recordType t =? "C")%string; simpl;
    repeat split; lia.
Qed.

Lemma values_encodeSegments now cfg t
    (segs : list (EFTTransactionSegment Date)) :
  forall (idx : N) st,
    let st' := encodeSegments now cfg t idx st segs in
    totalValueDebits st'
    = (if (recordType t =? "C")%string then totalValueDebits st
       else fold_left addAmount segs (totalValueDebits st))
    /\ totalValueCredits st'
       = (if (recordType t =? "C")%string
          then fold_left addAmount segs (totalValueCredits st)
          else totalValueCredits st).
Proof.
  induction segs as [|s segs IH]; intros idx st; simpl.
  - now destruct (recordType t =? "C")%string.
  - destruct (IH (idx + 1)%N (encodeSegment now cfg t idx st s)) as [D C].
    destruct (totals_encodeSegment now cfg t idx st s)
      as (_ & D1 & C1 & _).
    rewrite D, C, D1, C1. now destruct (recordType t =? "C")%string.
Qed.

Lemma counts_encodeSegments now cfg t st
    (segs : list (EFTTransactionSegment Date)) :
  let st' := encodeSegments now cfg t 0 st segs in
  let n := ((N.of_nat (List.length segs) + 5) / 6)%N in
  recordCount st' = (recordCount st + n)%N
  /\ totalNumberDebits st'
     = (if (recordType t =? "C")%string then totalNumberDebits st
        else (totalNumberDebits st + n)%N)
  /\ totalNumberCredits st'
     = (if (recordType t =? "C")%string then (totalNumberCredits st + n)%N
        else totalNumberCredits st).
Proof.
  cbv zeta.
  apply (encodeSegments_invariant now cfg t
           (fun i st' =>
              recordCount st' = (recordCount st + (i + 5) / 6)%N
              /\ totalNumberDebits st'
                 = (if (recordType t =? "C")%string then totalNumberDebits st
                    else (totalNumberDebits st + (i + 5) / 6)%N)
              /\ totalNumberCredits st'
                 = (if (recordType t =? "C")%string
                    then (totalNumberCredits st + (i + 5) / 6)%N
                    else totalNumberCredits st))
           segs 0%N).
  - intros idx st' s _ _ (R & D & C).
    destruct (totals_encodeSegment now cfg t idx st' s)
      as (R1 & _ & _ & D1 & C1).
    rewrite R1, D1, C1, R, D, C, groups_succ.
    destruct (recordType t =? "C")%string; repeat split; lia.
  - change ((0 + 5) / 6)%N with 0%N.
    destruct (recordType t =? "C")%string; repeat split; lia.
Qed.

Lemma totals_encodeTransaction now cfg st t :
  let st' := encodeTransaction now cfg st t in
  recordCount st' = (recordCount st + recordsOf t)%N
  /\ totalValueDebits st'
     = (if (recordType t =? "C")%string then totalValueDebits st
        else fold_left addAmount (segments t) (totalValueDebits st))
  /\ totalValueCredits st'
     = (if (recordType t =? "C")%string
        then fold_left addAmount (segments t) (totalValueCredits st)
        else totalValueCredits st)
  /\ totalNumberDebits st'
     = (if (recordType t =? "C")%string then totalNumberDebits st
        else (totalNumberDebits st + recordsOf t)%N)
  /\ totalNumberCredits st'
     = (if (recordType t =? "C")%string
        then (totalNumberCredits st + recordsOf t)%N
        else totalNumberCredits st).
Proof.
  cbv zeta. unfold encodeTransaction, recordsOf.
  destruct (values_encodeSegments now cfg t (segments t) 0%N
              (withRecord st "")) as (V1 & V2).
  destruct (counts_encodeSegments now cfg t (withRecord st "") (segments t))
    as (K1 & K2 & K3).
  cbv zeta in *.
  destruct (negb _); cbn [pushLine recordCount totalValueDebits
                          totalValueCredits totalNumberDebits
                          totalNumberCredits];
    rewrite V1, V2, K1, K2, K3; repeat split; reflexivity.
Qed.

Lemma segmentsOf_cons (kind : EFTTransaction Date -> bool) t txs :
  segmentsOf kind (t :: txs)
  = (if kind t then (segments t ++ segmentsOf kind txs)%list
     else segmentsOf kind txs).
Proof.
  unfold segmentsOf. simpl. now destruct (kind t).
Qed.

Lemma recordTotal_cons t txs :
  recordTotal (t :: txs) = (recordsOf t + recordTotal txs)%N.
Proof. reflexivity. Qed.

Lemma kind_of_valid t :
  validRecordType t = true ->
  isCredit t = (recordType t =? "C")%string
  /\ isDebit t = negb (recordType t =? "C")%string.
Proof.
  unfold validRecordType, JS.includes, isCredit, isDebit. simpl.
  destruct (String.eqb_spec (recordType t) "C") as [->|HC]; [now split|].
  rewrite orb_false_r. simpl. intros ->. now split.
Qed.

(** The totals when the loop over the transactions is left, from the
    totals when it is entered. *)
Lemma totals_encodeTransactions now cfg txs :
  Forall (fun t => validRecordType t = true) txs ->
  forall st,
    let st' := fold_left (encodeTransaction now cfg) txs st in
    recordCount st' = (recordCount st + recordTotal txs)%N
    /\ totalValueDebits st'
       = fold_left addAmount (segmentsOf isDebit txs) (totalValueDebits st)
    /\ totalValueCredits st'
       = fold_left addAmount (segmentsOf isCredit txs) (totalValueCredits st)
    /\ totalNumberDebits st'
       = (totalNumberDebits st + recordTotal (filter isDebit txs))%N
    /\ totalNumberCredits st'
       = (totalNumberCredits st + recordTotal (filter isCredit txs))%N.
Proof.
  induction 1 as [|t txs Ht _ IH]; intros st.
  - simpl. repeat split; lia.
  - cbn [fold_left]. cbv zeta in IH.
    destruct (IH (encodeTransaction now cfg st t)) as (R & VD & VC & ND & NC).
    destruct (totals_encodeTransaction now cfg st t)
      as (R1 & VD1 & VC1 & ND1 & NC1).
    destruct (kind_of_valid t Ht) as [KC KD].
    cbv zeta. rewrite R, VD, VC, ND, NC, R1, VD1, VC1, ND1, NC1.
    rewrite !segmentsOf_cons. cbn [filter]. rewrite KC, KD.
    destruct (recordType t =? "C")%string; cbn [negb];
      rewrite ?fold_left_app, ?recordTotal_cons; repeat split; lia.
Qed.

(** *** Widths *)

Lemma length_segmentText cfg t (rc idx : N) (d : string) s :
  String.length d = 6 ->
  bankNumbersFit s -> fitsSegment t s ->
  (idx < N.of_nat (List.length (segments t)))%N ->
  String.length (segmentText cfg rc idx d s) = 240.
Proof.
  intros Hd (B1 & B2 & B3) (F1 & F2 & F3) Hidx.
  assert (Htrace : String.length (itemTraceField idx s) = 22).
  { unfold itemTraceField. destruct (itemTraceNumber s) as [trace|].
    - destruct F3 as [F3 F4].
      rewrite JSFacts.length_append, JSFacts.length_padStart, F3.
      assert (String.length (JS.natToString (idx + 1)) <= 4)
        by (apply JSFacts.length_natToString; [simpl; lia | lia]).
      lia.
    - reflexivity. }
  unfold segmentText, crossReferenceField, amountField.
  rewrite !JSFacts.length_append, !JSFacts.length_field,
    !JSFacts.length_padStart, !JSFacts.length_padEnd,
    JSFacts.length_sliceTo, Htrace, F1, Hd.
  cbn [String.length]. lia.
Qed.

Lemma length_recordStart cfg t (rc : N) :
  validRecordType t = true ->
  String.length (originatorId cfg) <= 10 ->
  String.length (fileCreationNumber cfg) <= 4 ->
  (rc < 10 ^ 9)%N ->
  String.length (recordStart cfg t rc) = 24.
Proof.
  intros Ht Hid Hfcn Hrc.
  assert (String.length (recordType t) = 1).
  { unfold validRecordType, JS.includes in Ht. simpl in Ht.
    rewrite orb_false_r in Ht. apply orb_true_iff in Ht.
    destruct Ht as [E|E]; apply String.eqb_eq in E; now rewrite E. }
  assert (String.length (JS.natToString rc) <= 9)
    by (apply JSFacts.length_natToString; [exact Hrc | lia]).
  unfold recordStart.
  rewrite !JSFacts.length_append, !JSFacts.length_padStart,
    JSFacts.length_padEnd.
  lia.
Qed.

Lemma length_formatHeader now (k : nat) cfg :
  (forall d, String.length (toShortModernJulianDate d) = 5) ->
  String.length (originatorId cfg) <= 10 ->
  (forall centre, destinationDataCentre cfg = Some centre ->
                  String.length centre <= 5) ->
  (forall currency, destinationCurrency cfg = Some currency ->
                    String.length currency = 3) ->
  fullLine (fst (formatHeader now k cfg)).
Proof.
  intros Hj Hid Hdc Hcur. unfold fullLine, formatHeader, toJulianDate.
  cbn [fst].
  rewrite !JSFacts.length_append, JSFacts.length_sliceLast,
    !JSFacts.length_padStart, !JSFacts.length_padEnd, Hj.
  assert (String.length
            match destinationDataCentre cfg with
            | Some centre => JS.padStart centre 5 "0"
            | None => JS.padEnd "" 5 " "
            end = 5).
  { destruct (destinationDataCentre cfg) as [centre|].
    - rewrite JSFacts.length_padStart. specialize (Hdc centre eq_refl). lia.
    - reflexivity. }
  assert (String.length
            match destinationCurrency cfg with
            | Some currency => currency
            | None => JS.padEnd "" 3 " "
            end = 3).
  { destruct (destinationCurrency cfg) as [currency|].
    - now apply Hcur.
    - reflexivity. }
  cbn [String.length]. lia.
Qed.

Lemma length_formatTrailer cfg st :
  String.length (originatorId cfg) <= 10 ->
  (recordCount st + 1 < 10 ^ 9)%N ->
  String.length
    (numberToString (JS.Math_round (totalValueDebits st * 100)%float)) <= 14 ->
  String.length
    (numberToString (JS.Math_round (totalValueCredits st * 100)%float))
  <= 14 ->
  (totalNumberDebits st < 10 ^ 8)%N ->
  (totalNumberCredits st < 10 ^ 8)%N ->
  fullLine (formatTrailer cfg st).
Proof.
  intros Hid Hrc Hvd Hvc Hnd Hnc. unfold fullLine, formatTrailer.
  pose proof (JSFacts.length_natToString 9 _ Hrc).
  pose proof (JSFacts.length_natToString 8 _ Hnd).
  pose proof (JSFacts.length_natToString 8 _ Hnc).
  rewrite !JSFacts.length_append, JSFacts.length_sliceLast,
    !JSFacts.length_padStart, !JSFacts.length_padEnd.
  cbn [String.length]. lia.
Qed.

Lemma filled_open (idx : N) :
  (idx mod 6 = 0)%N -> (0 < idx)%N -> filled idx = 6.
Proof.
  unfold filled. intros E H. zify. Z.to_euclidean_division_equations. lia.
Qed.

Lemma filled_opened (idx : N) : (idx mod 6 = 0)%N -> filled (idx + 1) = 1.
Proof.
  unfold filled. intros E. replace (idx + 1 - 1)%N with idx by lia.
  rewrite E. reflexivity.
Qed.

Lemma filled_continue (idx : N) :
  (idx mod 6 <> 0)%N -> filled (idx + 1) = filled idx + 1 /\ filled idx < 6.
Proof.
  unfold filled. intros E. replace (idx + 1 - 1)%N with idx by lia.
  zify. Z.to_euclidean_division_equations. lia.
Qed.

Lemma groups_bound (idx n : N) :
  (idx mod 6 = 0)%N -> (idx < n)%N -> ((idx + 5) / 6 + 1 <= (n + 5) / 6)%N.
Proof.
  intros E H. zify. Z.to_euclidean_division_equations. lia.
Qed.

Section DetailWidths.

Variable now : nat -> Date.
Variable cfg : EFTConfiguration Date.
Hypothesis julian : forall d, String.length (toShortModernJulianDate d) = 5.
Hypothesis idFits : String.length (originatorId cfg) <= 10.
Hypothesis numberFits : String.length (fileCreationNumber cfg) <= 4.

Lemma length_dateField st s : String.length (dateField now st s) = 6.
Proof.
  unfold dateField, toJulianDate. rewrite JSFacts.length_append, julian.
  reflexivity.
Qed.

Lemma lengths_encodeTransaction st t :
  validRecordType t = true ->
  (forall s, In s (segments t) -> bankNumbersFit s /\ fitsSegment t s) ->
  (recordCount st + recordsOf t < 10 ^ 9)%N ->
  Forall fullLine (outputLines st) ->
  Forall fullLine (outputLines (encodeTransaction now cfg st t)).
Proof.
  intros Ht Hs Hrc Hout. unfold encodeTransaction.
  set (P := fun (i : N) st' =>
              Forall fullLine (outputLines st')
              /\ recordCount st' = (recordCount st + (i + 5) / 6)%N
              /\ (i <> 0%N ->
                  String.length (record st') = 24 + 240 * filled i)).
  assert (H : P (0 + N.of_nat (List.length (segments t)))%N
                (encodeSegments now cfg t 0 (withRecord st "")
                   (segments t))).
  { apply (encodeSegments_invariant now cfg t P (segments t) 0%N).
    - intros idx st' s Hin Hidx (Q1 & Q2 & Q3).
      destruct (Hs s Hin) as [Hbank Hfit].
      assert (Htext : forall rc,
                 String.length
                   (segmentText cfg rc idx (dateField now st' s) s) = 240).
      { intros rc. apply (length_segmentText cfg t);
          [apply length_dateField | exact Hbank | exact Hfit | lia]. }
      destruct (N.eq_dec (idx mod 6) 0) as [E|E].
      + destruct (encodeSegment_open now cfg t idx st' s E) as (O & C & R).
        unfold P. rewrite O, C, R. split; [|split].
        * destruct (N.ltb_spec 0 idx) as [Hpos|Hz]; [|exact Q1].
          apply Forall_app. split; [exact Q1|].
          constructor; [|constructor]. unfold fullLine.
          rewrite Q3 by lia. now rewrite (filled_open idx E Hpos).
        * rewrite Q2, groups_succ.
          replace (idx mod 6 =? 0)%N with true
            by (symmetry; now apply N.eqb_eq).
          lia.
        * intros _. rewrite JSFacts.length_append, Htext.
          rewrite length_recordStart; [|exact Ht|exact idFits|
                                        exact numberFits|].
          -- rewrite (filled_opened idx E). reflexivity.
          -- pose proof (groups_bound idx
                           (N.of_nat (List.length (segments t))) E).
             unfold recordsOf in Hrc. lia.
      + destruct (encodeSegment_continue now cfg t idx st' s E)
          as (O & C & R).
        unfold P. rewrite O, C, R. split; [exact Q1|]. split.
        * rewrite Q2, groups_succ.
          replace (idx mod 6 =? 0)%N with false
            by (symmetry; now apply N.eqb_neq).
          lia.
        * intros _. rewrite JSFacts.length_append, Htext.
          assert (Hz : idx <> 0%N) by (intros ->; now apply E).
          rewrite (Q3 Hz).
          destruct (filled_continue idx E) as [F _]. rewrite F. lia.
    - unfold P. split; [exact Hout|]. split.
      + change ((0 + 5) / 6)%N with 0%N. cbn [withRecord recordCount]. lia.
      + intros F. now contradiction F. }
  destruct H as (Q1 & _ & Q3).
  destruct (negb _); [|exact Q1].
  cbn [pushLine outputLines]. apply Forall_app. split; [exact Q1|].
  constructor; [|constructor]. unfold fullLine.
  rewrite JSFacts.length_padEnd.
  destruct (segments t) as [|s segs] eqn:Es.
  - reflexivity.
  - rewrite Q3 by (simpl; lia).
    assert (filled (0 + N.of_nat (List.length (s :: segs))) <= 6).
    { unfold filled. zify. Z.to_euclidean_division_equations. lia. }
    lia.
Qed.

Lemma lengths_encodeTransactions txs :
  Forall (fun t => validRecordType t = true) txs ->
  (forall t s, In t txs -> In s (segments t) ->
               bankNumbersFit s /\ fitsSegment t s) ->
  forall st,
    (recordCount st + recordTotal txs < 10 ^ 9)%N ->
    Forall fullLine (outputLines st) ->
    Forall fullLine
      (outputLines (fold_left (encodeTransaction now cfg) txs st)).
Proof.
  induction 1 as [|t txs Ht _ IH]; intros Hs st Hrc Hout; [exact Hout|].
  cbn [fold_left]. rewrite recordTotal_cons in Hrc. apply IH.
  - intros t' s Ht'. apply Hs. now right.
  - destruct (totals_encodeTransaction now cfg st t) as (R & _).
    rewrite R. lia.
  - apply lengths_encodeTransaction; [exact Ht | | lia | exact Hout].
    intros s. apply Hs. now left.
Qed.

End DetailWidths.

End EncoderProperties.

Lemma cross_reference_numbers_sample :
  validateTransactions Sample.repeatedReference = Ok 1%N
  /\ validateTransactions (withoutReferences Sample.repeatedReference)
     = Ok 0%N
  /\ validateTransactions Sample.repeatedReference
     = addCount 1 (validateTransactions
                     (withoutReferences Sample.repeatedReference))
  /\ (1 <= repeats [] (suppliedReferences Sample.repeatedReference))%N
  /\ (exists front,
        segmentText Sample.config 2 0 "024033" (Sample.invoice "INV-1")
        = front ++ "INV-1              " ++ returnFiller)
  /\ (exists middle,
        record (encodeSegment Sample.today Sample.config
                  (Sample.credit [Sample.segment; Sample.segment]) 1
                  (encodeSegments Sample.today Sample.config
                     (Sample.credit [Sample.segment; Sample.segment]) 0
                     (withRecord (afterHeader "" 0) "") [Sample.segment])
                  Sample.segment)
        = "C00000000200000123450001" ++ middle
          ++ "f0001r2s2          " ++ returnFiller).
Proof.
  destruct (@cross_reference_numbers Sample.Day Sample.runtime)
    as (H1 & _ & H3 & H4 & H5 & _).
  split; [reflexivity|]. split; [reflexivity|].
  split; [exact (H1 Sample.repeatedReference)|].
  split; [exact (H3 Sample.repeatedReference [] "INV-1" [] [] eq_refl)|].
  split.
  - exact (H4 Sample.config 2%N 0%N "024033" (Sample.invoice "INV-1")
             "INV-1" eq_refl).
  - destruct (H5 Sample.today Sample.config
                (Sample.credit [Sample.segment; Sample.segment])
                (afterHeader "" 0) [Sample.segment] Sample.segment []
                eq_refl eq_refl) as [middle E].
    change (N.of_nat (List.length [Sample.segment])) with 1%N in E.
    exists middle. rewrite E. vm_compute. reflexivity.
Defined.

(** ** Properties of a whole run *)

Section RunProperties.

Context {Date : Type} {runtime : Runtime Date}.
Implicit Type cfg : EFTConfiguration Date.
Implicit Type g : EFTGenerator Date.
Implicit Type s : EFTTransactionSegment Date.
Implicit Type t : EFTTransaction Date.
Implicit Type txs : list (EFTTransaction Date).
Implicit Type st : Encoder.
Implicit Type now : nat -> Date.

Lemma formatLines_ok now g (lines : list string) :
  snd (formatLines now g) = Ok lines <->
  exists c n,
    snd (validateConfig (getConfiguration g)) = Ok c
    /\ validateTransactions (getTransactions g) = Ok n
    /\ lines = linesOf now (fst (validateConfig (getConfiguration g)))
                 (getTransactions g).
Proof.
  unfold formatLines, validateCPA005.
  destruct (validateConfig (getConfiguration g)) as [cfg' [c|m]]; simpl.
  - destruct (validateTransactions (getTransactions g)) as [n|m]; simpl.
    + split.
      * intros E. injection E as <-. now exists c, n.
      * intros (c' & n' & _ & _ & ->). reflexivity.
    + split; [discriminate|]. intros (c' & n' & _ & E & _). discriminate.
  - split; [discriminate|]. intros (c' & n' & E & _). discriminate.
Qed.

Lemma configuration_formatLines now g :
  getConfiguration (fst (formatLines now g))
  = fst (validateConfig (getConfiguration g)).
Proof.
  unfold formatLines, validateCPA005.
  now destruct (validateConfig (getConfiguration g)) as [cfg' r].
Qed.

Lemma validateTransactions_ok txs (n : N) :
  validateTransactions txs = Ok n ->
  (N.of_nat (List.length txs) <= 999999999)%N
  /\ exists seen,
      forOf validateTransaction
        ((if (N.of_nat (List.length txs) =? 0)%N then 1 else 0)%N, []) txs
      = Ok (n, seen).
Proof.
  unfold validateTransactions.
  destruct (N.eqb_spec (N.of_nat (List.length txs)) 0) as [E|E]; cbn [bind].
  - destruct (forOf validateTransaction (1%N, []) txs) as [[a seen]|m];
      cbn [bind fst]; [|discriminate].
    intros H. injection H as <-. split; [lia | now exists seen].
  - destruct (N.ltb_spec 999999999 (N.of_nat (List.length txs))) as [L|L];
      cbn [bind]; [discriminate|].
    destruct (forOf validateTransaction (0%N, []) txs) as [[a seen]|m];
      cbn [bind fst]; [|discriminate].
    intros H. injection H as <-. split; [lia | now exists seen].
Qed.

Lemma validateTransaction_empty (w : N) (seen : list string) t :
  segments t = [] ->
  validateTransaction (w, seen) t
  = if validRecordType t then Ok ((w + 1)%N, seen)
    else Throw ("Unsupported recordType: " ++ recordType t).
Proof.
  intros H. unfold validateTransaction, validRecordType. rewrite H. simpl.
  now destruct (JS.includes ["C"; "D"] (recordType t)).
Qed.

Lemma validateTransactions_without_empty
    (pre post : list (EFTTransaction Date)) t (n : N) :
  segments t = [] ->
  validateTransactions (pre ++ t :: post) = Ok n ->
  validRecordType t = true
  /\ (1 <= n)%N
  /\ exists n',
      validateTransactions (pre ++ post) = Ok n'
      /\ ((pre ++ post)%list <> [] -> n' = (n - 1)%N).
Proof.
  intros Ht H0. apply validateTransactions_ok in H0 as [Hlen [seen H]].
  rewrite length_app in Hlen, H. simpl in Hlen, H.
  replace (N.of_nat (List.length pre + S (List.length post)) =? 0)%N
    with false in H by (symmetry; apply N.eqb_neq; lia).
  rewrite forOf_app in H.
  destruct (forOf validateTransaction (0%N, []) pre) as [[w1 s1]|m] eqn:Epre;
    cbn [bind forOf] in H; [|discriminate].
  rewrite (validateTransaction_empty w1 s1 t Ht) in H.
  destruct (validRecordType t); [|discriminate].
  cbn [bind] in H. rewrite validateTransactions_loop_shift in H.
  destruct (forOf validateTransaction (w1, s1) post) as [[a sa]|m] eqn:Epost;
    simpl in H; [|discriminate].
  injection H as <- <-.
  split; [reflexivity|]. split; [lia|].
  unfold validateTransactions. rewrite length_app.
  destruct (N.eqb_spec (N.of_nat (List.length pre + List.length post)) 0)
    as [E|E]; cbn [bind].
  - destruct pre, post; simpl in E; try lia.
    exists 1%N. split; [reflexivity|]. intros F. now contradiction F.
  - replace (999999999 <? N.of_nat (List.length pre + List.length post))%N
      with false by (symmetry; apply N.ltb_ge; lia).
    cbn [bind]. rewrite forOf_app, Epre. cbn [bind]. rewrite Epost.
    cbn [bind fst]. exists a. split; [reflexivity|]. intros _. lia.
Qed.

(** C7.  In a run that returns, a transaction without segments adds no
    line: the lines are those of the run without it, and its iteration
    leaves the output and the record count as they were.  Its iteration of
    the validation loop adds exactly one warning and nothing else, so that
    the count returned is one more than without the transaction (when other
    transactions remain). *)
Theorem empty_transaction now g (pre post : list (EFTTransaction Date)) t
    (lines : list string) :
  getTransactions g = (pre ++ t :: post)%list ->
  segments t = [] ->
  snd (formatLines now g) = Ok lines ->
  snd (formatLines now (withTransactions g (pre ++ post))) = Ok lines
  /\ (forall cfg st,
         outputLines (encodeTransaction now cfg st t) = outputLines st
         /\ recordCount (encodeTransaction now cfg st t) = recordCount st)
  /\ (forall w seen,
         validateTransaction (w, seen) t = Ok ((w + 1)%N, seen))
  /\ exists n n',
      validateTransactions (pre ++ t :: post) = Ok n
      /\ validateTransactions (pre ++ post) = Ok n'
      /\ ((pre ++ post)%list <> [] -> n = (n' + 1)%N).
Proof.
  intros Htxs Ht Hrun.
  apply formatLines_ok in Hrun as (c & n & Hc & Hn & ->).
  rewrite Htxs in Hn.
  destruct (validateTransactions_without_empty pre post t n Ht Hn)
    as (Hvalid & Hpos & n' & Hn' & Hrel).
  split; [|split; [|split]].
  - apply formatLines_ok. exists c, n'. simpl.
    split; [exact Hc|]. split; [exact Hn'|].
    rewrite Htxs. unfold linesOf.
    pose proof (encodeAll_without_empty now
                  (fst (validateConfig (getConfiguration g))) pre post t Ht)
      as E.
    rewrite (outputLines_withRecord _ _ E).
    now rewrite (formatTrailer_withRecord _ _ _ E).
  - intros cfg st. now rewrite (encodeTransaction_empty now cfg st t Ht).
  - intros w seen. rewrite (validateTransaction_empty w seen t Ht).
    now rewrite Hvalid.
  - exists n, n'. split; [exact Hn|]. split; [exact Hn'|].
    intros F. specialize (Hrel F). lia.
Qed.

(** C8.  In a run that returns, the trailer is the last line; the number
    it carries after its "Z", left-padded with zeros to 9 characters, is the
    final record count plus one, which is the number of lines of the output,
    header and trailer included (and is exactly the 9 characters after the
    "Z" when the output has fewer than [10^9] lines).  The final record
    count is the sequence number that the line before the trailer, header
    or detail record, carries after its first letter. *)
Theorem trailer_count now g (lines : list string) :
  snd (formatLines now g) = Ok lines ->
  let cfg := getConfiguration (fst (formatLines now g)) in
  let st := encodeAll now cfg (getTransactions g) in
  lines = (outputLines st ++ [formatTrailer cfg st])%list
  /\ last lines "" = formatTrailer cfg st
  /\ N.of_nat (List.length lines) = (recordCount st + 1)%N
  /\ (exists rest,
        formatTrailer cfg st
        = "Z" ++ JS.padStart
                   (JS.natToString (N.of_nat (List.length lines))) 9 "0"
              ++ rest)
  /\ ((N.of_nat (List.length lines) < 10 ^ 9)%N ->
      substring 1 9 (formatTrailer cfg st)
      = JS.padStart (JS.natToString (N.of_nat (List.length lines))) 9 "0")
  /\ (exists letter rest,
        last (removelast lines) ""
        = letter
          ++ JS.padStart (JS.natToString (recordCount st)) 9 "0" ++ rest).
Proof.
  intros Hrun. cbv zeta. rewrite configuration_formatLines.
  apply formatLines_ok in Hrun as (c & n & _ & _ & ->).
  unfold linesOf.
  set (cfg := fst (validateConfig (getConfiguration g))).
  set (st := encodeAll now cfg (getTransactions g)).
  assert (Hlen : N.of_nat (List.length
                             (outputLines st ++ [formatTrailer cfg st]))
                 = (recordCount st + 1)%N).
  { rewrite length_app. simpl.
    pose proof (count_encodeAll now cfg (getTransactions g)) as H.
    fold st in H. lia. }
  split; [reflexivity|]. split; [apply last_last|]. split; [exact Hlen|].
  rewrite Hlen. split; [|split].
  - unfold formatTrailer. eexists. reflexivity.
  - intros Hlt. unfold formatTrailer.
    set (field := JS.padStart (JS.natToString (recordCount st + 1)) 9 "0").
    assert (Hf : String.length field = 9).
    { unfold field. rewrite JSFacts.length_padStart.
      pose proof (JSFacts.length_natToString 9 (recordCount st + 1) Hlt).
      lia. }
    change (substring 1 9 ("Z" ++ field ++ ?r))
      with (substring 0 9 (field ++ r)).
    rewrite <- Hf at 1. apply JSFacts.substring_append_take.
  - rewrite removelast_last. apply last_numbered.
Qed.

(** C3.  In a run that returns, a transaction of exactly seven segments
    adds exactly two lines, right after the lines of the transactions
    before it: the first is the start of a record followed by the texts of
    segments 1 to 6, the second the start of a record followed by the text
    of segment 7 alone and padded with spaces to 1464 characters.  Both
    starts begin with the record type of the transaction followed by the
    sequence number, left-padded with zeros to 9 characters, and the second
    number is the first plus one.  The lines of the later transactions and
    the trailer follow. *)
Theorem seven_segments now g (pre post : list (EFTTransaction Date)) t
    s1 s2 s3 s4 s5 s6 s7 (lines : list string) :
  getTransactions g = (pre ++ t :: post)%list ->
  segments t = [s1; s2; s3; s4; s5; s6; s7] ->
  snd (formatLines now g) = Ok lines ->
  let cfg := getConfiguration (fst (formatLines now g)) in
  let before := encodeAll now cfg pre in
  let k := recordCount before in
  exists (d1 d2 d3 d4 d5 d6 d7 : string) (first second : string)
         (later : list string),
    lines = (outputLines before ++ [first; second] ++ later)%list
    /\ outputLines (encodeTransaction now cfg before t)
       = (outputLines before ++ [first; second])%list
    /\ first
       = recordStart cfg t (k + 1)
         ++ segmentText cfg (k + 1) 0 d1 s1
         ++ segmentText cfg (k + 1) 1 d2 s2
         ++ segmentText cfg (k + 1) 2 d3 s3
         ++ segmentText cfg (k + 1) 3 d4 s4
         ++ segmentText cfg (k + 1) 4 d5 s5
         ++ segmentText cfg (k + 1) 5 d6 s6
    /\ second
       = JS.padEnd
           (recordStart cfg t (k + 2) ++ segmentText cfg (k + 2) 6 d7 s7)
           1464 " "
    /\ (exists rest1 rest2,
          first = recordType t
                  ++ JS.padStart (JS.natToString (k + 1)) 9 "0" ++ rest1
          /\ second = recordType t
                      ++ JS.padStart (JS.natToString (k + 2)) 9 "0" ++ rest2)
    /\ (k + 1 < k + 2)%N
    /\ N.of_nat (List.length (outputLines before)) = k.
Proof.
  intros Htxs Hsegs Hrun. cbv zeta. rewrite configuration_formatLines.
  apply formatLines_ok in Hrun as (c & n & _ & _ & ->).
  set (cfg := fst (validateConfig (getConfiguration g))).
  set (before := encodeAll now cfg pre).
  destruct (encodeTransaction_seven now cfg before t s1 s2 s3 s4 s5 s6 s7
              Hsegs) as (d1 & d2 & d3 & d4 & d5 & d6 & d7 & Hout & Hrc).
  assert (Hall : encodeAll now cfg (getTransactions g)
                 = fold_left (encodeTransaction now cfg) post
                     (encodeTransaction now cfg before t)).
  { rewrite Htxs. unfold before, encodeAll. rewrite fold_left_app.
    reflexivity. }
  destruct (outputLines_encodeTransactions now cfg post
              (encodeTransaction now cfg before t)) as [more Hmore].
  exists d1, d2, d3, d4, d5, d6, d7.
  eexists. eexists.
  exists (more ++ [formatTrailer cfg (encodeAll now cfg (getTransactions g))])
         %list.
  split.
  { unfold linesOf. rewrite Hall at 1. rewrite Hmore, Hout.
    now rewrite <- !app_assoc. }
  split; [exact Hout|]. split; [reflexivity|]. split; [reflexivity|].
  split.
  { destruct (recordStart_letter cfg t (recordCount before + 1))
      as [r1 E1].
    destruct (recordStart_letter cfg t (recordCount before + 2))
      as [r2 E2].
    eexists. eexists. split.
    - rewrite E1. rewrite !JSFacts.append_assoc. reflexivity.
    - rewrite E2. unfold JS.padEnd. rewrite !JSFacts.append_assoc.
      reflexivity. }
  split; [lia|]. apply count_encodeAll.
Qed.

(** C10.  When the configuration has a file creation date and every
    segment a payment date, the outcome of [formatToCPA005], output string
    or error, and the generator it leaves are the same whatever the clock
    returns.  When the file creation date is omitted, the header carries
    the Julian date of a clock reading made when the header is formatted;
    when a payment date is omitted, the text of the segment carries, after
    its code and amount, the Julian date of a clock reading made when the
    segment is encoded. *)
Theorem clock_dependence :
  (forall now1 now2 g,
      fileCreationDate (getConfiguration g) <> None ->
      (forall t s, In t (getTransactions g) -> In s (segments t) ->
                   paymentDate s <> None) ->
      formatToCPA005 now1 g = formatToCPA005 now2 g)
  /\ (forall now (k : nat) cfg,
         fileCreationDate cfg = None ->
         exists rest,
           formatHeader now k cfg
           = ("A" ++ JS.padStart "1" 9 "0"
                  ++ JS.padEnd (originatorId cfg) 10 " "
                  ++ JS.sliceLast
                       (JS.padStart (fileCreationNumber cfg) 4 "0") 4
                  ++ toJulianDate (now k) ++ rest,
              S k))
  /\ (forall now cfg t idx st s,
         paymentDate s = None ->
         let st' := encodeSegment now cfg t idx st s in
         clockReads st' = S (clockReads st)
         /\ exists front rest,
             record st'
             = front ++ numberToString (cpaCode s) ++ amountField s
                     ++ toJulianDate (now (clockReads st)) ++ rest).
Proof.
  split; [|split].
  - intros now1 now2 g Hc Ht. unfold formatToCPA005, formatLines.
    destruct (validateCPA005 g) as [g' r] eqn:E.
    assert (Hg : getTransactions g' = getTransactions g
                 /\ getConfiguration g'
                    = fst (validateConfig (getConfiguration g))).
    { unfold validateCPA005 in E.
      destruct (validateConfig (getConfiguration g)) as [cfg' r'].
      injection E as <- _. now split. }
    destruct Hg as [Hg1 Hg2].
    rewrite (linesOf_clock now1 now2).
    + reflexivity.
    + rewrite Hg2.
      destruct (validateConfig_frame (getConfiguration g))
        as (_ & _ & _ & F & _).
      cbv zeta in F. rewrite F. exact Hc.
    + rewrite Hg1. exact Ht.
  - intros now k cfg H. unfold formatHeader. rewrite H. simpl.
    eexists. reflexivity.
  - intros now cfg t idx st s H st'. split.
    + unfold st', encodeSegment. rewrite H.
      now destruct (idx mod 6 =? 0)%N.
    + destruct (record_encodeSegment now cfg t idx st s)
        as [(_ & _ & R)|(_ & _ & R)]; fold st' in R; rewrite R;
        unfold dateField, segmentText; rewrite H; simpl;
        eexists; eexists; reflexivity.
Qed.

Lemma validateTransaction_ok (a b : N * list string) t :
  validateTransaction a t = Ok b ->
  validRecordType t = true
  /\ forall s, In s (segments t) ->
               exists a' b', validateSegment a' s = Ok b'.
Proof.
  unfold validateTransaction, validRecordType. destruct a as [w seen].
  destruct (JS.includes ["C"; "D"] (recordType t)); simpl; [|discriminate].
  intros H. split; [reflexivity|].
  exact (forOf_each validateSegment (segments t) _ _ H).
Qed.

Lemma validateTransactions_types txs (n : N) :
  validateTransactions txs = Ok n ->
  Forall (fun t => validRecordType t = true) txs.
Proof.
  intros H. apply validateTransactions_ok in H as [_ [seen H]].
  apply Forall_forall. intros t Ht.
  destruct (forOf_each validateTransaction txs _ _ H t Ht) as (a & b & E).
  exact (proj1 (validateTransaction_ok a b t E)).
Qed.

(** The encoder when the loop over the transactions is left, from the
    transaction list. *)
Lemma totals_encodeAll now cfg txs :
  Forall (fun t => validRecordType t = true) txs ->
  let st := encodeAll now cfg txs in
  recordCount st = (1 + recordTotal txs)%N
  /\ totalValueDebits st = dollarSum (segmentsOf isDebit txs)
  /\ totalValueCredits st = dollarSum (segmentsOf isCredit txs)
  /\ totalNumberDebits st = recordTotal (filter isDebit txs)
  /\ totalNumberCredits st = recordTotal (filter isCredit txs).
Proof.
  intros H. unfold encodeAll.
  exact (totals_encodeTransactions now cfg txs H
           (afterHeader (fst (formatHeader now 0 cfg))
              (snd (formatHeader now 0 cfg)))).
Qed.

(** C2 (amended).  In a run that returns, the trailer is "Z", the number of
    lines, the originator id and the file creation number, followed by:
    the debit amount, which is [Math.round] of 100 times the binary64
    running sum, in input order, of the dollar amounts of the segments of
    Debit transactions, rendered in decimal and left-padded with zeros to 14
    characters; the debit count, which is the number of physical detail
    records of the Debit transactions (one per started group of six
    segments), left-padded to 8; then the same two fields for the Credit
    transactions, and the filler. *)
Theorem trailer_totals now g (lines : list string) :
  snd (formatLines now g) = Ok lines ->
  let cfg := getConfiguration (fst (formatLines now g)) in
  let txs := getTransactions g in
  last lines ""
  = "Z"
    ++ JS.padStart (JS.natToString (recordTotal txs + 2)) 9 "0"
    ++ JS.padEnd (originatorId cfg) 10 " "
    ++ JS.sliceLast (JS.padStart (fileCreationNumber cfg) 4 "0") 4
    ++ JS.padStart
         (numberToString
            (JS.Math_round (dollarSum (segmentsOf isDebit txs) * 100)%float))
         14 "0"
    ++ JS.padStart (JS.natToString (recordTotal (filter isDebit txs))) 8 "0"
    ++ JS.padStart
         (numberToString
            (JS.Math_round (dollarSum (segmentsOf isCredit txs) * 100)%float))
         14 "0"
    ++ JS.padStart (JS.natToString (recordTotal (filter isCredit txs))) 8 "0"
    ++ JS.padEnd "" 1396 " ".
Proof.
  intros Hrun. cbv zeta. rewrite configuration_formatLines.
  apply formatLines_ok in Hrun as (c & n & _ & Hn & ->).
  unfold linesOf. rewrite last_last. unfold formatTrailer.
  destruct (totals_encodeAll now (fst (validateConfig (getConfiguration g)))
              (getTransactions g) (validateTransactions_types _ _ Hn))
    as (R & VD & VC & ND & NC).
  rewrite R, VD, VC, ND, NC.
  replace (1 + recordTotal (getTransactions g) + 1)%N
    with (recordTotal (getTransactions g) + 2)%N by lia.
  reflexivity.
Qed.

Lemma validateSegment_ok (a b : N * list string) s :
  validateSegment a s = Ok b -> bankNumbersFit s.
Proof.
  unfold validateSegment, bankNumbersFit. destruct a as [w seen].
  destruct (amount s <=? 0)%float; [discriminate|].
  destruct (100000000 <=? amount s)%float; [discriminate|].
  destruct (JS.matchDigits 1 3 (bankInstitutionNumber s)) eqn:E1;
    [|discriminate].
  destruct (JS.matchDigits 1 5 (bankTransitNumber s)) eqn:E2;
    [|discriminate].
  destruct (JS.matchDigits 1 12 (bankAccountNumber s)) eqn:E3;
    [|discriminate].
  intros _.
  apply JSFacts.matchDigits_length in E1, E2, E3. lia.
Qed.

Lemma validateTransactions_segments txs (n : N) :
  validateTransactions txs = Ok n ->
  forall t s, In t txs -> In s (segments t) -> bankNumbersFit s.
Proof.
  intros H t s Ht Hs. apply validateTransactions_ok in H as [_ [seen H]].
  destruct (forOf_each validateTransaction txs _ _ H t Ht) as (a & b & E).
  destruct (proj2 (validateTransaction_ok a b t E) s Hs) as (a' & b' & E').
  exact (validateSegment_ok a' b' s E').
Qed.

Lemma validateConfig_ok cfg (c : N) :
  snd (validateConfig cfg) = Ok c ->
  String.length (originatorId cfg) <= 10
  /\ String.length (fileCreationNumber cfg) <= 4
  /\ (forall centre, destinationDataCentre cfg = Some centre ->
                     String.length centre <= 5)
  /\ (forall currency, destinationCurrency cfg = Some currency ->
                       currency = "" \/ currency = "CAD"
                       \/ currency = "USD").
Proof.
  intros H. destruct (validateConfig_cases cfg) as [[_ T]|[NF _]].
  { rewrite H in T. discriminate. }
  unfold configFault in NF. split; [lia|]. split; [|split].
  - destruct (JS.matchDigits 1 4 (fileCreationNumber cfg)) eqn:E.
    + apply JSFacts.matchDigits_length in E. lia.
    + contradiction NF. auto.
  - intros centre Hc.
    destruct (JS.matchDigits 0 5 centre) eqn:E.
    + apply JSFacts.matchDigits_length in E. lia.
    + contradiction NF. right. right. left. now exists centre.
  - intros currency Hc.
    destruct (string_dec currency "") as [|N1]; [now left|].
    destruct (string_dec currency "CAD") as [|N2]; [now right; left|].
    destruct (string_dec currency "USD") as [|N3]; [now right; right|].
    contradiction NF. right. right. right. now exists currency.
Qed.

(** C1 (amended).  In a run that returns, every line (header, each detail
    record, trailer) has exactly 1464 characters, provided that the
    variable-width parts have the width the layout counts on: the short
    Julian date has 5 characters, the destination currency is not the empty
    string, every CPA code is rendered in 3 characters and every amount in
    at most 10 digits of cents, every item trace number that is supplied
    has 18 characters in a transaction of fewer than 10,000 segments, each
    total amount takes at most 14 digits of cents, each of the two record
    counts at most 8 digits, and the number of lines at most 9 digits. *)
Theorem line_lengths now g (lines : list string) :
  snd (formatLines now g) = Ok lines ->
  (forall d, String.length (toShortModernJulianDate d) = 5) ->
  destinationCurrency (getConfiguration g) <> Some "" ->
  (forall t s, In t (getTransactions g) -> In s (segments t) ->
               fitsSegment t s) ->
  fitsTotals (getTransactions g) ->
  Forall (fun line => String.length line = 1464) lines.
Proof.
  intros Hrun Hj Hcur Hseg (T1 & T2 & T3 & T4 & T5).
  apply formatLines_ok in Hrun as (c & n & Hc & Hn & ->).
  destruct (validateConfig_ok _ c Hc) as (Hid & Hfcn & Hdc & Hcurs).
  destruct (validateConfig_frame (getConfiguration g))
    as (F1 & _ & F3 & _ & F4 & F5).
  set (cfg := fst (validateConfig (getConfiguration g))) in *.
  pose proof (validateTransactions_types _ _ Hn) as Htypes.
  assert (Hid' : String.length (originatorId cfg) <= 10)
    by (now rewrite F1).
  assert (Hfcn' : String.length (fileCreationNumber cfg) <= 4)
    by (now rewrite F3).
  destruct (totals_encodeAll now cfg _ Htypes) as (R & VD & VC & ND & NC).
  unfold linesOf. apply Forall_app. split.
  - unfold encodeAll.
    apply (lengths_encodeTransactions now cfg Hj Hid' Hfcn' _ Htypes).
    + intros t s Ht Hs. split.
      * exact (validateTransactions_segments _ _ Hn t s Ht Hs).
      * exact (Hseg t s Ht Hs).
    + cbn [afterHeader recordCount]. lia.
    + constructor; [|constructor].
      apply length_formatHeader; [exact Hj | exact Hid' | |].
      * intros centre E. apply Hdc. now rewrite <- F4.
      * intros currency E. rewrite F5 in E.
        destruct (Hcurs currency E) as [->|[->| ->]];
          [now contradiction Hcur | reflexivity | reflexivity].
  - constructor; [|constructor].
    apply length_formatTrailer; rewrite ?R, ?VD, ?VC, ?ND, ?NC;
      [exact Hid' | lia | exact T1 | exact T2 | exact T3 | exact T4].
Qed.

End RunProperties.

Lemma empty_transaction_sample :
  snd (formatLines Sample.today
         (Sample.generator [Sample.credit [Sample.segment];
                            Sample.debit [Sample.segment]]))
  = snd (formatLines Sample.today (Sample.generator Sample.aroundEmpty))
  /\ validateTransactions Sample.aroundEmpty = Ok 1%N
  /\ validateTransactions [Sample.credit [Sample.segment];
                           Sample.debit [Sample.segment]] = Ok 0%N.
Proof.
  assert (E : exists lines,
             snd (formatLines Sample.today
                    (Sample.generator Sample.aroundEmpty)) = Ok lines).
  { eexists. vm_compute. reflexivity. }
  destruct E as [lines E].
  destruct (empty_transaction Sample.today
              (Sample.generator Sample.aroundEmpty)
              [Sample.credit [Sample.segment]] [Sample.debit [Sample.segment]]
              (Sample.debit []) lines eq_refl eq_refl E) as (H & _).
  split; [|split; reflexivity].
  rewrite E. exact H.
Defined.

Lemma seven_segments_sample :
  exists header first second trailer,
    snd (formatLines Sample.today
           (Sample.generator [Sample.credit Sample.sevenSegments]))
    = Ok [header; first; second; trailer]
    /\ substring 0 10 first = "C000000002"
    /\ substring 0 10 second = "C000000003"
    /\ String.length first = 1464
    /\ String.length second = 1464.
Proof.
  pose (g := Sample.generator [Sample.credit Sample.sevenSegments]).
  assert (E : snd (formatLines Sample.today g)
              = Ok (linesOf Sample.today
                      (fst (validateConfig Sample.config))
                      [Sample.credit Sample.sevenSegments]))
    by reflexivity.
  destruct (seven_segments Sample.today g [] [] _
              Sample.segment Sample.segment Sample.segment Sample.segment
              Sample.segment Sample.segment Sample.segment _
              eq_refl eq_refl E)
    as (d1 & d2 & d3 & d4 & d5 & d6 & d7 & first & second & later
        & _ & Hout & _).
  vm_compute in Hout. injection Hout as H1 H2.
  eexists. exists first, second. eexists.
  split; [vm_compute; rewrite H1, H2; reflexivity|].
  rewrite <- H1, <- H2. repeat split; reflexivity.
Defined.

Lemma trailer_count_sample :
  exists lines,
    snd (formatLines Sample.today
           (Sample.generator [Sample.credit Sample.sevenSegments]))
    = Ok lines
    /\ List.length lines = 4
    /\ substring 1 9 (last lines "") = "000000004".
Proof.
  pose (g := Sample.generator [Sample.credit Sample.sevenSegments]).
  assert (E : snd (formatLines Sample.today g)
              = Ok (linesOf Sample.today
                      (fst (validateConfig Sample.config))
                      [Sample.credit Sample.sevenSegments]))
    by reflexivity.
  destruct (trailer_count Sample.today g _ E) as (_ & H2 & _ & _ & H5 & _).
  eexists. split; [exact E|]. split; [reflexivity|].
  rewrite H2. rewrite H5; [reflexivity|]. vm_compute. reflexivity.
Defined.

Lemma clock_dependence_sample :
  formatToCPA005 Sample.today
    (Sample.generator [Sample.credit Sample.sevenSegments])
  = formatToCPA005 Sample.tomorrow
      (Sample.generator [Sample.credit Sample.sevenSegments])
  /\ (exists rest,
        formatHeader Sample.today 0
          (Sample.withoutCreationDate Sample.config)
        = ("A00000000100000123450001" ++ "024061" ++ rest, 1))
  /\ clockReads
       (encodeSegment Sample.today Sample.config
          (Sample.credit [Sample.withoutDate Sample.segment]) 0
          (afterHeader "" 0) (Sample.withoutDate Sample.segment)) = 1.
Proof.
  destruct (@clock_dependence Sample.Day Sample.runtime) as (H1 & H2 & H3).
  split; [|split].
  - apply H1; [discriminate|].
    intros t s [<-|[]] Hs. simpl in Hs.
    repeat (destruct Hs as [<-|Hs]; [discriminate|]). destruct Hs.
  - exact (H2 Sample.today 0 (Sample.withoutCreationDate Sample.config)
             eq_refl).
  - exact (proj1 (H3 Sample.today Sample.config
                    (Sample.credit [Sample.withoutDate Sample.segment]) 0%N
                    (afterHeader "" 0) (Sample.withoutDate Sample.segment)
                    eq_refl)).
Defined.

(** C2 as stated fails on the counts: one Debit transaction of two segments
    is one physical record, and the debit count of the trailer is 1 while
    the Debit segments are 2. *)
Lemma trailer_counts_records_not_segments :
  exists lines,
    snd (formatLines Sample.today (Sample.generator Sample.twoDebits))
    = Ok lines
    /\ substring 38 8 (last lines "") = "00000001"
    /\ List.length (segmentsOf isDebit Sample.twoDebits) = 2.
Proof.
  eexists. split; [vm_compute; reflexivity|]. split; reflexivity.
Qed.

Lemma trailer_totals_sample :
  exists lines,
    snd (formatLines Sample.today (Sample.generator Sample.twoDebits))
    = Ok lines
    /\ substring 0 68 (last lines "")
       = "Z00000000300000123450001"
         ++ "00000000002468" ++ "00000001"
         ++ "00000000000000" ++ "00000000".
Proof.
  pose (g := Sample.generator Sample.twoDebits).
  assert (E : snd (formatLines Sample.today g)
              = Ok (linesOf Sample.today
                      (fst (validateConfig Sample.config))
                      Sample.twoDebits))
    by reflexivity.
  eexists. split; [exact E|].
  rewrite (trailer_totals Sample.today g _ E). reflexivity.
Defined.

(** C1 as stated fails: six segments whose CPA code has four digits pass
    validation and give a detail record of 1470 characters. *)
Lemma long_code_overflows_record :
  exists lines,
    snd (formatLines Sample.today (Sample.generator Sample.longCodes))
    = Ok lines
    /\ isThrow (snd (validateCPA005 (Sample.generator Sample.longCodes)))
       = false
    /\ map String.length lines = [1464; 1470; 1464].
Proof.
  eexists. split; [vm_compute; reflexivity|]. split; reflexivity.
Qed.

Lemma length_shortJulian (d : Sample.Day) :
  String.length (Sample.shortJulian d) = 5.
Proof.
  unfold Sample.shortJulian.
  rewrite JSFacts.length_append, !JSFacts.length_sliceLast,
    !JSFacts.length_padStart.
  lia.
Qed.

Lemma line_lengths_sample :
  exists lines,
    snd (formatLines Sample.today
           (Sample.generator [Sample.credit Sample.sevenSegments;
                              Sample.debit [Sample.segment]]))
    = Ok lines
    /\ List.length lines = 5
    /\ Forall (fun line => String.length line = 1464) lines.
Proof.
  pose (txs := [Sample.credit Sample.sevenSegments;
                Sample.debit [Sample.segment]]).
  assert (E : snd (formatLines Sample.today (Sample.generator txs))
              = Ok (linesOf Sample.today
                      (fst (validateConfig Sample.config)) txs))
    by reflexivity.
  eexists. split; [exact E|]. split; [reflexivity|].
  apply (line_lengths Sample.today (Sample.generator txs) _ E).
  - exact length_shortJulian.
  - discriminate.
  - intros t s Ht Hs.
    assert (Hseg : s = Sample.segment).
    { destruct Ht as [<-|[<-|[]]]; simpl in Hs;
        repeat (destruct Hs as [<-|Hs]; [reflexivity|]); destruct Hs. }
    subst s. split; [reflexivity|]. split; [vm_compute; lia | exact I].
  - repeat split; vm_compute; solve [reflexivity | lia].
Defined.

(** ** Further properties of [validateTransactions] *)

Section ValidationOutcome.

Context {Date : Type} {runtime : Runtime Date}.
Implicit Type s : EFTTransactionSegment Date.
Implicit Type t : EFTTransaction Date.
Implicit Type txs : list (EFTTransaction Date).

Lemma forOf_isThrow {S A : Type} (body : S -> A -> result S)
    (faulty : A -> bool) (xs : list A) :
  (forall acc x, isThrow (body acc x) = faulty x) ->
  forall acc, isThrow (forOf body acc xs) = existsb faulty xs.
Proof.
  intros H. induction xs as [|x xs IH]; intros acc; [reflexivity|].
  cbn [forOf existsb]. rewrite <- (H acc x).
  destruct (body acc x) as [acc'|m]; [apply IH | reflexivity].
Qed.

Lemma isThrow_validateSegment (st : N * list string) s :
  isThrow (validateSegment st s) = segmentFault s.
Proof.
  unfold validateSegment, segmentFault. destruct st as [w seen].
  destruct (amount s <=? 0)%float; [reflexivity|].
  destruct (100000000 <=? amount s)%float; [reflexivity|].
  destruct (JS.matchDigits 1 3 (bankInstitutionNumber s)); [|reflexivity].
  destruct (JS.matchDigits 1 5 (bankTransitNumber s)); [|reflexivity].
  destruct (JS.matchDigits 1 12 (bankAccountNumber s)); [|reflexivity].
  now destruct (crossReferenceNumber s).
Qed.

Lemma isThrow_validateTransaction (st : N * list string) t :
  isThrow (validateTransaction st t) = transactionFault t.
Proof.
  unfold validateTransaction, transactionFault, validRecordType.
  destruct st as [w seen].
  destruct (JS.includes ["C"; "D"] (recordType t)); [|reflexivity].
  cbn [negb orb].
  apply (forOf_isThrow validateSegment segmentFault).
  intros acc s. apply isThrow_validateSegment.
Qed.

(** X1.  [validateTransactions] throws exactly when the list has more than
    999,999,999 transactions, or one of them has a record type other than
    "C" and "D", or one of their segments has an amount that is zero or
    less or 100,000,000 or more, an institution number that is not 1 to 3
    digits, a transit number that is not 1 to 5 digits or an account number
    that is not 1 to 12 digits.  Nothing else makes it throw: not a warning,
    however many, and not the state in which a transaction is met. *)
Theorem validateTransactions_throws_iff txs :
  isThrow (validateTransactions txs)
  = ((999999999 <? N.of_nat (List.length txs))%N
     || existsb transactionFault txs)%bool.
Proof.
  unfold validateTransactions.
  assert (L : forall acc,
             isThrow (bind (forOf validateTransaction acc txs)
                        (fun st => Ok (fst st)))
             = existsb transactionFault txs).
  { intros acc.
    rewrite <- (forOf_isThrow validateTransaction transactionFault txs
                  isThrow_validateTransaction acc).
    now destruct (forOf validateTransaction acc txs). }
  destruct (N.eqb_spec (N.of_nat (List.length txs)) 0) as [E|E].
  - cbn [bind]. rewrite L.
    replace (999999999 <? N.of_nat (List.length txs))%N with false
      by (symmetry; apply N.ltb_ge; lia).
    reflexivity.
  - destruct (999999999 <? N.of_nat (List.length txs))%N; cbn [bind].
    + reflexivity.
    + apply L.
Qed.

Lemma count_bare_segment (w : N) (seen : list string) s
    (st : N * list string) :
  validateSegment (w, seen) (withoutReference s) = Ok st ->
  fst st = (w + segmentWarnings s)%N.
Proof.
  unfold validateSegment, segmentWarnings. simpl.
  destruct (amount s <=? 0)%float; [discriminate|].
  destruct (100000000 <=? amount s)%float; [discriminate|].
  destruct (JS.matchDigits 1 3 (bankInstitutionNumber s)); [|discriminate].
  destruct (JS.matchDigits 1 5 (bankTransitNumber s)); [|discriminate].
  destruct (JS.matchDigits 1 12 (bankAccountNumber s)); [|discriminate].
  simpl. intros E. injection E as <-. simpl.
  destruct (isValidCPACode (cpaCode s)),
    (30 <? String.length (payeeName s))%nat; simpl; lia.
Qed.

Lemma count_bare_segments (segs : list (EFTTransactionSegment Date)) :
  forall (w : N) (seen : list string) (st : N * list string),
    forOf validateSegment (w, seen) (map withoutReference segs) = Ok st ->
    fst st = (w + fold_right (fun s n => segmentWarnings s + n) 0 segs)%N.
Proof.
  induction segs as [|s segs IH]; intros w seen st; simpl.
  - intros E. injection E as <-. simpl. lia.
  - destruct (validateSegment (w, seen) (withoutReference s))
      as [[w' seen']|m] eqn:E; simpl; [|discriminate].
    apply count_bare_segment in E. simpl in E. intros H.
    rewrite (IH _ _ _ H), E. lia.
Qed.

Lemma count_bare_transaction (w : N) (seen : list string) t
    (st : N * list string) :
  validateTransaction (w, seen) (withoutReferencesIn t) = Ok st ->
  fst st = (w + transactionWarnings t)%N.
Proof.
  unfold validateTransaction, transactionWarnings. simpl.
  rewrite length_map.
  destruct (negb (JS.includes ["C"; "D"] (recordType t))); [discriminate|].
  intros H. rewrite (count_bare_segments _ _ _ _ H).
  destruct (List.length (segments t) =? 0)%nat,
    (6 <? List.length (segments t))%nat; lia.
Qed.

Lemma count_bare_transactions txs :
  forall (w : N) (seen : list string) (st : N * list string),
    forOf validateTransaction (w, seen) (withoutReferences txs) = Ok st ->
    fst st = (w + fold_right (fun t n => transactionWarnings t + n) 0 txs)%N.
Proof.
  induction txs as [|t txs IH]; intros w seen st.
  - simpl. intros E. injection E as <-. simpl. lia.
  - cbn [withoutReferences map forOf].
    fold (withoutReferencesIn t). fold (withoutReferences txs).
    destruct (validateTransaction (w, seen) (withoutReferencesIn t))
      as [[w' seen']|m] eqn:E; cbn [bind]; [|discriminate].
    apply count_bare_transaction in E. simpl in E. intros H.
    rewrite (IH _ _ _ H), E. simpl. lia.
Qed.

(** X2.  When [validateTransactions] returns, the count is: one if the
    list is empty; one for every transaction without segments and one for
    every transaction of more than six segments; one for every segment
    whose CPA code [isValidCPACode] does not know and one for every segment
    whose payee name is longer than 30 characters; one for every supplied
    cross-reference number that repeats an earlier one. *)
Theorem validateTransactions_count txs (n : N) :
  validateTransactions txs = Ok n -> n = listWarnings txs.
Proof.
  rewrite (validateTransactions_reference txs). unfold addCount.
  destruct (validateTransactions (withoutReferences txs)) as [b|m] eqn:E;
    cbn [bind]; [|discriminate].
  intros H. injection H as <-. unfold listWarnings.
  apply validateTransactions_ok in E as [_ [seen E]].
  apply count_bare_transactions in E. cbn [fst] in E.
  unfold withoutReferences in E. rewrite length_map in E.
  rewrite E. destruct txs; simpl; lia.
Qed.

End ValidationOutcome.

Lemma validateTransactions_throws_iff_sample :
  isThrow
    (validateTransactions
       [Sample.credit [Sample.segment];
        Sample.debit [Sample.segment; Sample.badTransit]])
  = true
  /\ isThrow (validateTransactions [Sample.credit [Sample.longPayee]])
     = false.
Proof.
  rewrite !validateTransactions_throws_iff. split; reflexivity.
Defined.

Lemma validateTransactions_count_sample :
  validateTransactions
    [Sample.credit []; Sample.debit [Sample.invoice "INV-1";
                                     Sample.longPayee]]
  = Ok 4%N
  /\ listWarnings
       [Sample.credit []; Sample.debit [Sample.invoice "INV-1";
                                        Sample.longPayee]]
     = 4%N.
Proof.
  split; [reflexivity|].
  symmetry. apply validateTransactions_count. reflexivity.
Defined.

(** ** Validating and exporting again *)

Section Again.

Context {Date : Type} {runtime : Runtime Date}.
Implicit Type cfg : EFTConfiguration Date.
Implicit Type g : EFTGenerator Date.
Implicit Type now : nat -> Date.

(** X3.  The configuration that [validateConfig] leaves is left as it is
    by a second validation, which throws the same error when the first
    threw, and otherwise returns the same count, less the one warning for
    the short name when the first validation had to fill it in. *)
Theorem validateConfig_again cfg :
  fst (validateConfig (fst (validateConfig cfg))) = fst (validateConfig cfg)
  /\ (forall m, snd (validateConfig cfg) = Throw m ->
                snd (validateConfig (fst (validateConfig cfg))) = Throw m)
  /\ (forall n, snd (validateConfig cfg) = Ok n ->
                snd (validateConfig (fst (validateConfig cfg)))
                = Ok (match originatorShortName cfg with
                      | None => (n - 1)%N
                      | Some _ => n
                      end)).
Proof.
  cbv zeta. unfold validateConfig.
  destruct (10 <? String.length (originatorId cfg))%nat eqn:E1.
  { cbn [fst snd]. rewrite E1. cbn [fst snd].
    split; [reflexivity|]. split; [auto | discriminate]. }
  destruct (JS.matchDigits 1 4 (fileCreationNumber cfg)) eqn:E2.
  2:{ cbn [negb fst snd]. rewrite E1, E2. cbn [negb fst snd].
      split; [reflexivity|]. split; [auto | discriminate]. }
  destruct (JS.matchDigits 0 5 (orElse (destinationDataCentre cfg) ""))
    eqn:E3.
  2:{ cbn [negb fst snd]. rewrite E1, E2, E3. cbn [negb fst snd].
      split; [reflexivity|]. split; [auto | discriminate]. }
  cbn [negb].
  destruct (originatorShortName cfg) as [name|] eqn:E4; simpl;
    destruct (JS.includes [""; "CAD"; "USD"]
                (orElse (destinationCurrency cfg) "")) eqn:E5;
    simpl; rewrite ?E1, ?E2, ?E3, ?E4; simpl; rewrite ?E5; simpl;
    (split; [reflexivity|]); (split; [try discriminate; auto|]);
    try discriminate;
    intros n H; injection H as <-; f_equal;
    destruct (15 <? String.length (originatorLongName cfg))%nat,
      (30 <? String.length (originatorLongName cfg))%nat; lia.
Qed.

(** What a second call of [validateCPA005] needs of the second call of
    [validateConfig]. *)
Lemma validateConfig_twice cfg :
  fst (validateConfig (fst (validateConfig cfg))) = fst (validateConfig cfg)
  /\ bind (snd (validateConfig (fst (validateConfig cfg)))) (fun _ => Ok tt)
     = bind (snd (validateConfig cfg)) (fun _ => Ok tt).
Proof.
  unfold validateConfig.
  destruct (10 <? String.length (originatorId cfg))%nat eqn:E1.
  { cbn [fst snd]. rewrite E1. split; reflexivity. }
  destruct (JS.matchDigits 1 4 (fileCreationNumber cfg)) eqn:E2.
  2:{ cbn [negb fst snd]. rewrite E1, E2. split; reflexivity. }
  destruct (JS.matchDigits 0 5 (orElse (destinationDataCentre cfg) ""))
    eqn:E3.
  2:{ cbn [negb fst snd]. rewrite E1, E2, E3. split; reflexivity. }
  cbn [negb].
  destruct (originatorShortName cfg) as [name|] eqn:E4; simpl;
    destruct (JS.includes [""; "CAD"; "USD"]
                (orElse (destinationCurrency cfg) "")) eqn:E5;
    simpl; rewrite ?E1, ?E2, ?E3, ?E4; simpl; rewrite ?E5; simpl;
    split; reflexivity.
Qed.

Lemma validateCPA005_again g :
  let g' := fst (validateCPA005 g) in
  fst (validateCPA005 g') = g'
  /\ bind (snd (validateCPA005 g')) (fun _ => Ok tt)
     = bind (snd (validateCPA005 g)) (fun _ => Ok tt).
Proof.
  cbv zeta. unfold validateCPA005.
  destruct (validateConfig_twice (getConfiguration g)) as (F & T).
  destruct (validateConfig (getConfiguration g)) as [cfg' r] eqn:E.
  cbn [fst snd getConfiguration getTransactions] in *.
  destruct (validateConfig cfg') as [cfg'' r'] eqn:E'.
  cbn [fst snd] in *. subst cfg''. split; [reflexivity|].
  destruct r as [n|m], r' as [n'|m']; cbn [bind] in *;
    try discriminate T.
  - now destruct (validateTransactions (getTransactions g)).
  - exact T.
Qed.

(** X4.  Calling [formatToCPA005] again on the generator that a first call
    has left, with the short name it may have filled in, gives for the same
    clock readings the same output string or the same error, and leaves the
    generator as the first call left it. *)
Theorem formatToCPA005_again now g :
  formatToCPA005 now (fst (formatToCPA005 now g)) = formatToCPA005 now g.
Proof.
  assert (H : forall g0,
             formatToCPA005 now g0
             = (fst (validateCPA005 g0),
                bind (bind (snd (validateCPA005 g0)) (fun _ => Ok tt))
                  (fun _ =>
                     Ok (JS.join CRLF
                           (linesOf now
                              (getConfiguration (fst (validateCPA005 g0)))
                              (getTransactions
                                 (fst (validateCPA005 g0)))))))).
  { intros g0. unfold formatToCPA005, formatLines.
    destruct (validateCPA005 g0) as [g1 [n|m]]; reflexivity. }
  rewrite (H g). cbn [fst]. rewrite (H (fst (validateCPA005 g))).
  destruct (validateCPA005_again g) as [F T]. cbv zeta in F, T.
  now rewrite F, T.
Qed.

End Again.

Lemma validateConfig_again_sample :
  fst (validateConfig (fst (validateConfig Sample.config)))
  = fst (validateConfig Sample.config)
  /\ snd (validateConfig Sample.config) = Ok 1%N
  /\ snd (validateConfig (fst (validateConfig Sample.config))) = Ok 0%N.
Proof.
  destruct (validateConfig_again Sample.config) as (H1 & _ & H3).
  split; [exact H1|]. split; [reflexivity|].
  exact (H3 1%N eq_refl).
Defined.

(** ** The numbering of the lines *)

Section Numbering.

Context {Date : Type} {runtime : Runtime Date}.
Implicit Type cfg : EFTConfiguration Date.
Implicit Type g : EFTGenerator Date.
Implicit Type s : EFTTransactionSegment Date.
Implicit Type t : EFTTransaction Date.
Implicit Type txs : list (EFTTransaction Date).
Implicit Type st : Encoder.
Implicit Type now : nat -> Date.

Lemma detailLines_push txs (lines : list string) (line : string) t :
  detailLines txs lines ->
  0 < List.length lines ->
  In t txs ->
  carriesNumber (List.length lines) line (recordType t) ->
  detailLines txs (lines ++ [line]).
Proof.
  intros H Hpos Ht Hline i l Hi.
  destruct (Nat.lt_ge_cases i (List.length lines)) as [Hlt|Hge].
  - rewrite nth_error_app1 in Hi by exact Hlt. exact (H i l Hi).
  - rewrite nth_error_app2 in Hi by exact Hge.
    destruct (i - List.length lines) as [|k] eqn:E.
    + simpl in Hi. injection Hi as <-.
      assert (i = List.length lines) by lia. subst i.
      exists (recordType t). split; [exact Hline|]. split; [lia|].
      intros _. now exists t.
    + destruct k; discriminate.
Qed.

Lemma carriesNumber_recordStart cfg t (rc : N) (i : nat) (rest : string) :
  (N.of_nat i + 1 = rc)%N ->
  carriesNumber i (recordStart cfg t rc ++ rest) (recordType t).
Proof.
  intros <-. unfold carriesNumber, recordStart. eexists.
  rewrite !JSFacts.append_assoc. reflexivity.
Qed.

Lemma numbering_step now cfg txs t (idx : N) st s :
  In t txs ->
  numbering cfg txs t idx st ->
  numbering cfg txs t (idx + 1) (encodeSegment now cfg t idx st s).
Proof.
  intros Ht (D & Hpos & C & R).
  pose proof (counted_step now cfg t idx st s C) as C'.
  unfold numbering. split; [|split; [|split; [exact C'|]]].
  - destruct (N.eq_dec (idx mod 6) 0) as [E|E].
    + destruct (encodeSegment_open now cfg t idx st s E) as (O & _).
      rewrite O. destruct (N.ltb_spec 0 idx) as [Hi|Hi]; [|exact D].
      assert (Hz : idx <> 0%N) by lia.
      destruct (R Hz) as [rest Hrec].
      apply (detailLines_push txs _ _ t D Hpos Ht).
      rewrite Hrec. apply carriesNumber_recordStart.
      destruct C as [C _].
      replace (idx =? 0)%N with false in C
        by (symmetry; now apply N.eqb_neq).
      exact C.
    + destruct (encodeSegment_continue now cfg t idx st s E) as (O & _).
      now rewrite O.
  - destruct (outputLines_encodeSegment now cfg t idx st s) as [more O].
    rewrite O, length_app. lia.
  - intros _.
    destruct (record_encodeSegment now cfg t idx st s)
      as [(_ & _ & Hrec)|(E & Hrc & Hrec)].
    + eexists. exact Hrec.
    + assert (Hz : idx <> 0%N) by (intros ->; now apply E).
      destruct (R Hz) as [rest Hrest].
      eexists. rewrite Hrec, Hrc, Hrest, JSFacts.append_assoc. reflexivity.
Qed.

Lemma numbering_encodeTransaction now cfg txs st t :
  In t txs ->
  detailLines txs (outputLines st)
  /\ 0 < List.length (outputLines st)
  /\ N.of_nat (List.length (outputLines st)) = recordCount st ->
  detailLines txs (outputLines (encodeTransaction now cfg st t))
  /\ 0 < List.length (outputLines (encodeTransaction now cfg st t))
  /\ N.of_nat (List.length (outputLines (encodeTransaction now cfg st t)))
     = recordCount (encodeTransaction now cfg st t).
Proof.
  intros Ht (D & Hpos & Hc).
  split; [|split; [|now apply count_encodeTransaction]].
  2:{ destruct (outputLines_encodeTransaction now cfg st t) as [more O].
      rewrite O, length_app. lia. }
  destruct (segments t) as [|s0 segs] eqn:Es.
  { now rewrite (encodeTransaction_empty now cfg st t Es). }
  unfold encodeTransaction.
  assert (H : numbering cfg txs t (0 + N.of_nat (List.length (segments t)))
                (encodeSegments now cfg t 0 (withRecord st "")
                   (segments t))).
  { apply (encodeSegments_invariant now cfg t (numbering cfg txs t)
             (segments t) 0%N).
    - intros idx st' s _ _. now apply numbering_step.
    - split; [exact D|]. split; [exact Hpos|]. split.
      + split; [simpl; lia | intros F; now contradiction F].
      + intros F. now contradiction F. }
  set (st1 := encodeSegments now cfg t 0 (withRecord st "") (segments t))
    in *.
  assert (Hn : (0 + N.of_nat (List.length (segments t)))%N <> 0%N)
    by (rewrite Es; simpl; lia).
  destruct H as (D1 & Hpos1 & [C1 L1] & R1).
  destruct (R1 Hn) as [rest Hrec].
  rewrite JSFacts.eqb_empty_false by (now apply L1).
  cbn [negb pushLine outputLines].
  apply (detailLines_push txs _ _ t D1 Hpos1 Ht).
  unfold JS.padEnd. rewrite Hrec, JSFacts.append_assoc.
  apply carriesNumber_recordStart.
  replace (0 + N.of_nat (List.length (segments t)) =? 0)%N with false in C1
    by (symmetry; now apply N.eqb_neq).
  exact C1.
Qed.

Lemma numbering_encodeAll now cfg txs :
  detailLines txs (outputLines (encodeAll now cfg txs)).
Proof.
  unfold encodeAll.
  apply (fold_invariant (encodeTransaction now cfg)
           (fun st =>
              detailLines txs (outputLines st)
              /\ 0 < List.length (outputLines st)
              /\ N.of_nat (List.length (outputLines st)) = recordCount st)).
  - intros st t Ht. now apply numbering_encodeTransaction.
  - split; [|split; [simpl; lia | reflexivity]].
    intros i line Hi. destruct i as [|[|i]]; try discriminate.
    simpl in Hi. injection Hi as <-.
    exists "A". split; [|split; [reflexivity | lia]].
    unfold carriesNumber, formatHeader. eexists. reflexivity.
Qed.

(** X5.  In a run that returns, the lines are numbered in the order of the
    output: the line at position [i], counted from 0, is one letter followed
    by [i + 1] left-padded with zeros to 9 characters.  The letter is "A" for
    the first line, "Z" for the last, and "C" or "D" for every line between
    them. *)
Theorem lines_numbered now g (lines : list string) (i : nat)
    (line : string) :
  snd (formatLines now g) = Ok lines ->
  nth_error lines i = Some line ->
  exists letter rest,
    line = letter ++ JS.padStart (JS.natToString (N.of_nat i + 1)) 9 "0"
                  ++ rest
    /\ (i = 0 /\ letter = "A"
        \/ i + 1 = List.length lines /\ letter = "Z"
        \/ 0 < i /\ i + 1 < List.length lines
           /\ (letter = "C" \/ letter = "D")).
Proof.
  intros Hrun Hi.
  apply formatLines_ok in Hrun as (c & n & _ & Hn & ->).
  set (cfg := fst (validateConfig (getConfiguration g))) in *.
  pose proof (numbering_encodeAll now cfg (getTransactions g)) as D.
  pose proof (count_encodeAll now cfg (getTransactions g)) as C.
  pose proof (validateTransactions_types _ _ Hn) as Htypes.
  unfold linesOf in *.
  set (st := encodeAll now cfg (getTransactions g)) in *.
  rewrite length_app. cbn [List.length].
  destruct (Nat.lt_ge_cases i (List.length (outputLines st))) as [Hlt|Hge].
  - rewrite nth_error_app1 in Hi by exact Hlt.
    destruct (D i line Hi) as (letter & [rest Hline] & HA & HC).
    exists letter, rest. split; [exact Hline|].
    destruct i as [|i].
    + left. split; [reflexivity | now apply HA].
    + right. right. split; [lia|]. split; [lia|].
      destruct HC as (t & Ht & ->); [lia|].
      rewrite Forall_forall in Htypes. specialize (Htypes t Ht).
      unfold validRecordType, JS.includes in Htypes. simpl in Htypes.
      rewrite orb_false_r in Htypes. apply orb_true_iff in Htypes.
      destruct Htypes as [E|E]; apply String.eqb_eq in E; auto.
  - rewrite nth_error_app2 in Hi by exact Hge.
    destruct (i - List.length (outputLines st)) as [|k] eqn:E.
    2:{ destruct k; discriminate. }
    simpl in Hi. injection Hi as <-.
    exists "Z". eexists. split.
    + unfold formatTrailer.
      replace (N.of_nat i + 1)%N with (recordCount st + 1)%N by lia.
      reflexivity.
    + right. left. split; [lia | reflexivity].
Qed.

(** X6.  In a run that returns, the output has two lines, header and
    trailer, and one line for every started group of six segments of every
    transaction. *)
Theorem lines_counted now g (lines : list string) :
  snd (formatLines now g) = Ok lines ->
  N.of_nat (List.length lines) = (recordTotal (getTransactions g) + 2)%N.
Proof.
  intros Hrun. apply formatLines_ok in Hrun as (c & n & _ & Hn & ->).
  unfold linesOf. rewrite length_app. cbn [List.length].
  pose proof (count_encodeAll now
                (fst (validateConfig (getConfiguration g)))
                (getTransactions g)) as C.
  destruct (totals_encodeAll now
              (fst (validateConfig (getConfiguration g)))
              (getTransactions g) (validateTransactions_types _ _ Hn))
    as (R & _).
  lia.
Qed.

End Numbering.

Lemma lines_numbered_sample :
  exists lines letter rest,
    snd (formatLines Sample.today
           (Sample.generator [Sample.credit Sample.sevenSegments]))
    = Ok lines
    /\ nth_error lines 2 = Some (letter ++ "000000003" ++ rest)
    /\ (letter = "C" \/ letter = "D").
Proof.
  pose (g := Sample.generator [Sample.credit Sample.sevenSegments]).
  assert (E : snd (formatLines Sample.today g)
              = Ok (linesOf Sample.today
                      (fst (validateConfig Sample.config))
                      [Sample.credit Sample.sevenSegments]))
    by reflexivity.
  assert (E2 : exists line,
             nth_error (linesOf Sample.today
                          (fst (validateConfig Sample.config))
                          [Sample.credit Sample.sevenSegments]) 2
             = Some line).
  { eexists. vm_compute. reflexivity. }
  destruct E2 as [line E2].
  destruct (lines_numbered Sample.today g _ 2 line E E2)
    as (letter & rest & Hline & Hletter).
  eexists. exists letter, rest. split; [exact E|].
  rewrite E2, Hline. split; [reflexivity|].
  destruct Hletter as [[F _]|[[F _]|(_ & _ & H)]];
    [discriminate | | exact H].
  exfalso. vm_compute in F. discriminate.
Defined.

Lemma lines_counted_sample :
  exists lines,
    snd (formatLines Sample.today
           (Sample.generator [Sample.credit Sample.sevenSegments;
                              Sample.debit [];
                              Sample.debit [Sample.segment]]))
    = Ok lines
    /\ List.length lines = 5.
Proof.
  pose (g := Sample.generator [Sample.credit Sample.sevenSegments;
                               Sample.debit [];
                               Sample.debit [Sample.segment]]).
  assert (E : exists lines, snd (formatLines Sample.today g) = Ok lines).
  { eexists. reflexivity. }
  destruct E as [lines E]. exists lines. split; [exact E|].
  pose proof (lines_counted Sample.today g lines E) as H.
  change (recordTotal (getTransactions g) + 2)%N with 5%N in H. lia.
Defined.

(** ** An amount that is not a number *)

Section NotANumber.

Context {Date : Type} {runtime : Runtime Date}.
Implicit Type cfg : EFTConfiguration Date.
Implicit Type g : EFTGenerator Date.
Implicit Type s : EFTTransactionSegment Date.
Implicit Type t : EFTTransaction Date.
Implicit Type txs : list (EFTTransaction Date).
Implicit Type now : nat -> Date.

Lemma isNaN_compare (x : float) :
  isNaN x ->
  (x <=? 0)%float = false /\ (100000000 <=? x)%float = false.
Proof.
  unfold isNaN. intros H. rewrite !leb_spec, H. split; reflexivity.
Qed.

Lemma isNaN_add_l (x y : float) : isNaN x -> isNaN (x + y)%float.
Proof.
  unfold isNaN. intros H. rewrite add_spec, H. reflexivity.
Qed.

Lemma isNaN_add_r (x y : float) : isNaN y -> isNaN (x + y)%float.
Proof.
  unfold isNaN. intros H. rewrite add_spec, H.
  now destruct (Prim2SF x) as [| | |? ? ?].
Qed.

Lemma isNaN_cents (x : float) :
  isNaN x -> numberToString (JS.Math_round (x * 100)%float) = "NaN".
Proof.
  unfold isNaN. intros H.
  assert (H' : Prim2SF (x * 100)%float = S754_nan)
    by (rewrite mul_spec, H; reflexivity).
  unfold numberToString, JS.Math_round. rewrite H'.
  unfold JS.toString. now rewrite H'.
Qed.

Lemma isNaN_fold (segs : list (EFTTransactionSegment Date)) :
  forall total, isNaN total -> isNaN (fold_left addAmount segs total).
Proof.
  induction segs as [|s segs IH]; intros total H; [exact H|].
  simpl. apply IH. now apply isNaN_add_l.
Qed.

Lemma isNaN_dollarSum (segs : list (EFTTransactionSegment Date)) s :
  In s segs -> isNaN (amount s) -> isNaN (dollarSum segs).
Proof.
  unfold dollarSum. generalize 0%float as total.
  induction segs as [|s' segs IH]; intros total Hin H; [contradiction|].
  simpl. destruct Hin as [->|Hin].
  - apply isNaN_fold. now apply isNaN_add_r.
  - now apply IH.
Qed.

(** X7.  Neither amount guard stops an amount that is NaN: with well-formed
    bank numbers the segment is accepted, its amount field reads
    "0000000NaN", and in a run that returns a Debit transaction holding such
    a segment makes the debit amount of the trailer read "00000000000NaN". *)
Theorem nan_amount_accepted :
  (forall s w seen,
      isNaN (amount s) ->
      JS.matchDigits 1 3 (bankInstitutionNumber s) = true ->
      JS.matchDigits 1 5 (bankTransitNumber s) = true ->
      JS.matchDigits 1 12 (bankAccountNumber s) = true ->
      isThrow (validateSegment (w, seen) s) = false)
  /\ (forall s, isNaN (amount s) -> amountField s = "0000000NaN")
  /\ (forall now g lines t s,
         snd (formatLines now g) = Ok lines ->
         In t (getTransactions g) -> recordType t = "D" ->
         In s (segments t) -> isNaN (amount s) ->
         let cfg := getConfiguration (fst (formatLines now g)) in
         exists rest,
           last lines ""
           = "Z"
             ++ JS.padStart
                  (JS.natToString (recordTotal (getTransactions g) + 2))
                  9 "0"
             ++ JS.padEnd (originatorId cfg) 10 " "
             ++ JS.sliceLast (JS.padStart (fileCreationNumber cfg) 4 "0") 4
             ++ "00000000000NaN" ++ rest).
Proof.
  split; [|split].
  - intros s w seen Ha H1 H2 H3. unfold validateSegment.
    destruct (isNaN_compare _ Ha) as [G1 G2].
    rewrite G1, G2, H1, H2, H3. simpl. now destruct (crossReferenceNumber s).
  - intros s Ha. unfold amountField. now rewrite (isNaN_cents _ Ha).
  - intros now g lines t s Hrun Ht Htype Hs Ha. cbv zeta.
    rewrite configuration_formatLines.
    apply formatLines_ok in Hrun as (c & n & _ & Hn & ->).
    unfold linesOf. rewrite last_last. unfold formatTrailer.
    destruct (totals_encodeAll now
                (fst (validateConfig (getConfiguration g)))
                (getTransactions g) (validateTransactions_types _ _ Hn))
      as (R & VD & _).
    rewrite R, VD.
    assert (Hin : In s (segmentsOf isDebit (getTransactions g))).
    { unfold segmentsOf. apply in_flat_map. exists t. split; [|exact Hs].
      apply filter_In. split; [exact Ht|].
      unfold isDebit. now rewrite Htype. }
    rewrite (isNaN_cents _ (isNaN_dollarSum _ s Hin Ha)).
    replace (1 + recordTotal (getTransactions g) + 1)%N
      with (recordTotal (getTransactions g) + 2)%N by lia.
    eexists. reflexivity.
Qed.

End NotANumber.

Lemma nan_amount_accepted_sample :
  exists lines,
    snd (formatLines Sample.today
           (Sample.generator
              [Sample.debit [Sample.segment;
                             Sample.withAmount nan Sample.segment]]))
    = Ok lines
    /\ (exists rest,
          last lines ""
          = "Z00000000300000123450001" ++ "00000000000NaN" ++ rest)
    /\ amountField (Sample.withAmount nan Sample.segment) = "0000000NaN".
Proof.
  destruct (@nan_amount_accepted Sample.Day Sample.runtime)
    as (_ & H2 & H3).
  pose (g := Sample.generator
               [Sample.debit [Sample.segment;
                              Sample.withAmount nan Sample.segment]]).
  assert (E : exists lines, snd (formatLines Sample.today g) = Ok lines).
  { eexists. reflexivity. }
  destruct E as [lines E]. exists lines. split; [exact E|]. split.
  - destruct (H3 Sample.today g lines
                (Sample.debit [Sample.segment;
                               Sample.withAmount nan Sample.segment])
                (Sample.withAmount nan Sample.segment) E
                (or_introl eq_refl) eq_refl (or_intror (or_introl eq_refl))
                eq_refl) as [rest Hlast].
    exists rest. rewrite Hlast. reflexivity.
  - apply H2. reflexivity.
Defined.

(** ** Properties of the earlier formatter *)

Section LegacyProperties.

Context {Date : Type} {runtime : Runtime Date} {julian : Legacy.Julian Date}.
Implicit Type g : Legacy.Generator Date.
Implicit Type cfg : EFTConfiguration Date.
Implicit Type s : EFTTransactionSegment Date.
Implicit Type t : EFTTransaction Date.
Implicit Type txs : list (EFTTransaction Date).
Implicit Type st : Encoder.
Implicit Type now : nat -> Date.

Lemma legacy_segments_invariant now g t (P : N -> Encoder -> Prop)
    (segs : list (EFTTransactionSegment Date)) :
  forall first : N,
    (forall idx st s,
        In s segs ->
        (first <= idx < first + N.of_nat (List.length segs))%N ->
        P idx st -> P (idx + 1)%N (Legacy.encodeSegment now g t idx st s)) ->
    forall st,
      P first st ->
      P (first + N.of_nat (List.length segs))%N
        (Legacy.encodeSegments now g t first st segs).
Proof.
  induction segs as [|s segs IH]; intros first Hstep st H.
  - simpl. now rewrite N.add_0_r.
  - cbn [Legacy.encodeSegments List.length].
    replace (first + N.of_nat (S (List.length segs)))%N
      with ((first + 1) + N.of_nat (List.length segs))%N by lia.
    apply IH.
    + intros idx st' s' Hin Hidx. apply Hstep; [now right | cbn; lia].
    + apply Hstep; [now left | cbn; lia | exact H].
Qed.

Lemma legacy_open now g t (idx : N) st s :
  (idx mod 6 = 0)%N ->
  let st' := Legacy.encodeSegment now g t idx st s in
  outputLines st'
  = (if (0 <? idx)%N then (outputLines st ++ [record st])%list
     else outputLines st)
  /\ recordCount st' = (recordCount st + 1)%N
  /\ record st'
     = Legacy.recordStart g t (recordCount st + 1)
       ++ Legacy.segmentText g (recordCount st + 1) idx
            (Legacy.toJulianDate
               (fst (orNow now (clockReads st) (paymentDate s)))) s.
Proof.
  intros E. unfold Legacy.encodeSegment.
  apply N.eqb_eq in E. rewrite E. simpl.
  split; [reflexivity|]. split; reflexivity.
Qed.

Lemma legacy_continue now g t (idx : N) st s :
  (idx mod 6 <> 0)%N ->
  let st' := Legacy.encodeSegment now g t idx st s in
  outputLines st' = outputLines st
  /\ recordCount st' = recordCount st
  /\ record st'
     = record st
       ++ Legacy.segmentText g (recordCount st) idx
            (Legacy.toJulianDate
               (fst (orNow now (clockReads st) (paymentDate s)))) s.
Proof.
  intros E. unfold Legacy.encodeSegment.
  apply N.eqb_neq in E. rewrite E. simpl.
  split; [reflexivity|]. split; reflexivity.
Qed.

Lemma legacyCounted_step now g t (extra first idx : N) st s :
  legacyCounted extra first idx st ->
  legacyCounted extra first (idx + 1) (Legacy.encodeSegment now g t idx st s).
Proof.
  intros [Hc Hr]. unfold legacyCounted.
  replace (idx + 1 =? 0)%N with false by (symmetry; apply N.eqb_neq; lia).
  rewrite groups_succ.
  destruct (N.eq_dec (idx mod 6) 0) as [E|E].
  - destruct (legacy_open now g t idx st s E) as (O & C & _).
    rewrite O, C.
    replace (idx mod 6 =? 0)%N with true by (symmetry; now apply N.eqb_eq).
    split; [|lia].
    destruct (N.eqb_spec idx 0) as [->|Hz]; simpl.
    + lia.
    + replace (0 <? idx)%N with true by (symmetry; apply N.ltb_lt; lia).
      rewrite length_app. simpl. lia.
  - destruct (legacy_continue now g t idx st s E) as (O & C & _).
    rewrite O, C.
    replace (idx mod 6 =? 0)%N with false by (symmetry; now apply N.eqb_neq).
    assert (Hz : idx <> 0%N) by (intros ->; now apply E).
    replace (idx =? 0)%N with false in Hc
      by (symmetry; now apply N.eqb_neq).
    split; [exact Hc | lia].
Qed.

(** After the earlier iteration for a transaction. *)
Lemma legacy_count_transaction now g st t (extra : N) :
  (N.of_nat (List.length (outputLines st)) = recordCount st + extra)%N ->
  let st' := Legacy.encodeTransaction now g st t in
  (N.of_nat (List.length (outputLines st'))
   = recordCount st' + (extra + if hasNoSegment t then 1 else 0))%N
  /\ recordCount st' = (recordCount st + recordsOf t)%N.
Proof.
  intros H. cbv zeta. unfold Legacy.encodeTransaction, hasNoSegment, recordsOf.
  assert (H0 : legacyCounted extra (recordCount st) 0 st).
  { split; [simpl; lia|]. change ((0 + 5) / 6)%N with 0%N. lia. }
  pose proof (legacy_segments_invariant now g t
                (legacyCounted extra (recordCount st)) (segments t) 0%N
                (fun idx st' s _ _ => legacyCounted_step now g t extra
                                        (recordCount st) idx st' s)
                st H0) as [Hc Hr].
  cbn [pushLine outputLines recordCount]. rewrite length_app. simpl.
  replace (0 + N.of_nat (List.length (segments t)))%N
    with (N.of_nat (List.length (segments t))) in * by lia.
  split; [|exact Hr].
  destruct (List.length (segments t)) as [|n]; simpl in *; lia.
Qed.

Lemma emptyCount_cons t txs :
  emptyCount (t :: txs)
  = ((if hasNoSegment t then 1 else 0) + emptyCount txs)%N.
Proof.
  unfold emptyCount. cbn [filter].
  destruct (hasNoSegment t); cbn [List.length]; lia.
Qed.

Lemma legacy_count_transactions now g txs :
  forall st (extra : N),
    (N.of_nat (List.length (outputLines st)) = recordCount st + extra)%N ->
    let st' := fold_left (Legacy.encodeTransaction now g) txs st in
    (N.of_nat (List.length (outputLines st'))
     = recordCount st' + (extra + emptyCount txs))%N
    /\ recordCount st' = (recordCount st + recordTotal txs)%N.
Proof.
  induction txs as [|t txs IH]; intros st extra H.
  - cbn [fold_left]. unfold emptyCount. cbn [filter List.length recordTotal
                                            fold_right]. lia.
  - cbn [fold_left]. cbv zeta.
    destruct (legacy_count_transaction now g st t extra H) as [H1 H2].
    destruct (IH _ _ H1) as [H3 H4]. cbv zeta in H3, H4.
    rewrite emptyCount_cons, recordTotal_cons. split; lia.
Qed.

(** X8.  In the earlier formatter the trailer counts the physical records
    and not the lines: the output has two lines and one line for every
    started group of six segments, and one more line for every transaction
    without segments, which the number in the trailer leaves out. *)
Theorem legacy_line_count now g :
  let lines := Legacy.linesOf now g in
  let txs := Legacy.getTransactions g in
  N.of_nat (List.length lines) = (recordTotal txs + 2 + emptyCount txs)%N
  /\ exists rest,
      last lines ""
      = "Z" ++ JS.padStart (JS.natToString (recordTotal txs + 2)) 9 "0"
            ++ rest.
Proof.
  cbv zeta. unfold Legacy.linesOf. rewrite last_last, length_app.
  cbn [List.length]. unfold Legacy.encodeAll.
  destruct (legacy_count_transactions now g (Legacy.getTransactions g)
              (afterHeader
                 (fst (Legacy.formatHeader now 0 (Legacy._header g)))
                 (snd (Legacy.formatHeader now 0 (Legacy._header g))))
              0%N eq_refl) as [H1 H2].
  cbv zeta in H1, H2. cbn [afterHeader recordCount] in H2. split.
  - lia.
  - unfold Legacy.formatTrailer. rewrite H2.
    replace (1 + recordTotal (Legacy.getTransactions g) + 1)%N
      with (recordTotal (Legacy.getTransactions g) + 2)%N by lia.
    eexists. reflexivity.
Qed.

Lemma legacy_encodeTransaction_empty now g st t :
  segments t = [] ->
  Legacy.encodeTransaction now g st t
  = pushLine st (JS.padEnd (record st) 1464 " ").
Proof.
  intros H. unfold Legacy.encodeTransaction. now rewrite H.
Qed.

(** The line pushed for a transaction is the record it leaves, padded. *)
Lemma legacy_last_line now g st t :
  last (outputLines (Legacy.encodeTransaction now g st t)) ""
  = JS.padEnd (record (Legacy.encodeTransaction now g st t)) 1464 " ".
Proof.
  unfold Legacy.encodeTransaction. cbn [pushLine outputLines record].
  now rewrite last_last.
Qed.

(** X9.  In the earlier formatter a transaction without segments pushes
    again the line that was pushed before it, and leaves the record count
    as it is. *)
Theorem legacy_empty_repeats now g st t1 t2 :
  segments t2 = [] ->
  let st1 := Legacy.encodeTransaction now g st t1 in
  let st2 := Legacy.encodeTransaction now g st1 t2 in
  outputLines st2 = (outputLines st1 ++ [last (outputLines st1) ""])%list
  /\ recordCount st2 = recordCount st1.
Proof.
  intros H. cbv zeta.
  rewrite (legacy_encodeTransaction_empty now g _ t2 H).
  cbn [pushLine outputLines recordCount].
  now rewrite legacy_last_line.
Qed.

(** The totals are computed in the same way by the two formatters. *)
Lemma sameTotals_encodeSegment now now' g cfg t (idx : N) st st' s :
  sameTotals st st' ->
  sameTotals (Legacy.encodeSegment now g t idx st s)
    (encodeSegment now' cfg t idx st' s).
Proof.
  intros (H1 & H2 & H3 & H4 & H5).
  unfold sameTotals, Legacy.encodeSegment, encodeSegment.
  destruct (idx mod 6 =? 0)%N; simpl;
    rewrite H1, H2, H3, H4, H5; repeat split; reflexivity.
Qed.

Lemma sameTotals_encodeSegments now now' g cfg t
    (segs : list (EFTTransactionSegment Date)) :
  forall (idx : N) st st',
    sameTotals st st' ->
    sameTotals (Legacy.encodeSegments now g t idx st segs)
      (encodeSegments now' cfg t idx st' segs).
Proof.
  induction segs as [|s segs IH]; intros idx st st' H; [exact H|].
  simpl. apply IH. now apply sameTotals_encodeSegment.
Qed.

Lemma sameTotals_encodeTransaction now now' g cfg st st' t :
  sameTotals st st' ->
  sameTotals (Legacy.encodeTransaction now g st t)
    (encodeTransaction now' cfg st' t).
Proof.
  intros H. unfold Legacy.encodeTransaction, encodeTransaction.
  assert (H' : sameTotals st (withRecord st' "")) by exact H.
  pose proof (sameTotals_encodeSegments now now' g cfg t (segments t) 0%N
                _ _ H') as K.
  destruct (negb _); exact K.
Qed.

Lemma sameTotals_encodeTransactions now now' g cfg txs :
  forall st st',
    sameTotals st st' ->
    sameTotals (fold_left (Legacy.encodeTransaction now g) txs st)
      (fold_left (encodeTransaction now' cfg) txs st').
Proof.
  induction txs as [|t txs IH]; intros st st' H; [exact H|].
  simpl. apply IH. now apply sameTotals_encodeTransaction.
Qed.

(** X10.  For the same originator id, file creation number and
    transactions, validated or not, the earlier formatter and the present
    one end with the same trailer line. *)
Theorem legacy_same_trailer now now' g cfg :
  Legacy.originatorId (Legacy._header g) = originatorId cfg ->
  Legacy.fileCreationNumber (Legacy._header g) = fileCreationNumber cfg ->
  last (Legacy.linesOf now g) ""
  = last (linesOf now' cfg (Legacy.getTransactions g)) "".
Proof.
  intros Hid Hfcn. unfold Legacy.linesOf, linesOf. rewrite !last_last.
  assert (H : sameTotals (Legacy.encodeAll now g)
                (encodeAll now' cfg (Legacy.getTransactions g))).
  { unfold Legacy.encodeAll, encodeAll.
    apply sameTotals_encodeTransactions. repeat split; reflexivity. }
  destruct H as (H1 & H2 & H3 & H4 & H5).
  unfold Legacy.formatTrailer, formatTrailer.
  now rewrite Hid, Hfcn, H1, H2, H3, H4, H5.
Qed.

(** *** Widths of the earlier layout *)

Lemma length_legacy_segmentText g (rc idx : N) (d : string) s :
  String.length d = 6 ->
  String.length (Legacy.originatorId (Legacy._header g)) <= 10 ->
  legacyFits s ->
  String.length (Legacy.segmentText g rc idx d s) = 232.
Proof.
  intros Hd Hid (F1 & F2 & B1 & B2 & B3).
  unfold Legacy.segmentText.
  rewrite !JSFacts.length_append, !JSFacts.length_field,
    !JSFacts.length_padStart, !JSFacts.length_padEnd, F1, Hd.
  cbn [String.length]. lia.
Qed.

Lemma length_legacy_recordStart g t (rc : N) :
  validRecordType t = true ->
  String.length (Legacy.originatorId (Legacy._header g)) <= 10 ->
  String.length (Legacy.fileCreationNumber (Legacy._header g)) <= 4 ->
  (rc < 10 ^ 9)%N ->
  String.length (Legacy.recordStart g t rc) = 24.
Proof.
  intros Ht Hid Hfcn Hrc.
  assert (String.length (recordType t) = 1).
  { unfold validRecordType, JS.includes in Ht. simpl in Ht.
    rewrite orb_false_r in Ht. apply orb_true_iff in Ht.
    destruct Ht as [E|E]; apply String.eqb_eq in E; now rewrite E. }
  assert (String.length (JS.natToString rc) <= 9)
    by (apply JSFacts.length_natToString; [exact Hrc | lia]).
  unfold Legacy.recordStart.
  rewrite !JSFacts.length_append, !JSFacts.length_padStart,
    JSFacts.length_padEnd.
  lia.
Qed.

Lemma length_legacy_toJulianDate (d : Date) :
  String.length (Legacy.modernJulianDateText d) = 7 ->
  String.length (Legacy.toJulianDate d) = 6.
Proof.
  intros H. unfold Legacy.toJulianDate, Legacy.sliceFrom.
  rewrite JSFacts.length_append, JSFacts.length_substring, H. reflexivity.
Qed.

Lemma legacyWidths_encodeSegments now g st t :
  (forall d, String.length (Legacy.modernJulianDateText d) = 7) ->
  String.length (Legacy.originatorId (Legacy._header g)) <= 10 ->
  String.length (Legacy.fileCreationNumber (Legacy._header g)) <= 4 ->
  validRecordType t = true ->
  (forall s, In s (segments t) -> legacyFits s) ->
  (recordCount st + recordsOf t < 10 ^ 9)%N ->
  legacyWidths (outputLines st) (recordCount st)
    (0 + N.of_nat (List.length (segments t)))
    (Legacy.encodeSegments now g t 0 st (segments t)).
Proof.
  intros Hjulian Hid Hfcn Ht Hs Hrc.
  apply (legacy_segments_invariant now g t
           (legacyWidths (outputLines st) (recordCount st))
           (segments t) 0%N).
  - intros idx st' s Hin Hidx ((pushed & Q0 & Q1 & Qn) & Q2 & Q3).
    assert (Htext : forall rc,
               String.length
                 (Legacy.segmentText g rc idx
                    (Legacy.toJulianDate
                       (fst (orNow now (clockReads st') (paymentDate s))))
                    s) = 232).
    { intros rc. apply length_legacy_segmentText;
        [apply length_legacy_toJulianDate, Hjulian | exact Hid
        | exact (Hs s Hin)]. }
    assert (Hnext : (idx + 1 =? 0)%N = false) by (apply N.eqb_neq; lia).
    unfold legacyWidths. rewrite Hnext, groups_succ.
    destruct (N.eq_dec (idx mod 6) 0) as [E|E].
    + destruct (legacy_open now g t idx st' s E) as (O & C & R).
      rewrite O, C, R.
      replace (idx mod 6 =? 0)%N with true by (symmetry; now apply N.eqb_eq).
      split; [|split].
      * destruct (N.ltb_spec 0 idx) as [Hpos|Hz].
        -- exists (pushed ++ [record st'])%list.
           split; [now rewrite Q0, app_assoc|]. split.
           ++ apply Forall_app. split; [exact Q1|].
              constructor; [|constructor].
              rewrite Q3 by lia. now rewrite (filled_open idx E Hpos).
           ++ rewrite length_app. cbn [List.length].
              replace (idx =? 0)%N with false in Qn
                by (symmetry; apply N.eqb_neq; lia).
              lia.
        -- exists pushed. split; [exact Q0|]. split; [exact Q1|].
           replace (idx =? 0)%N with true in Qn
             by (symmetry; apply N.eqb_eq; lia).
           lia.
      * lia.
      * intros _. rewrite JSFacts.length_append, Htext.
        rewrite length_legacy_recordStart;
          [|exact Ht|exact Hid|exact Hfcn|].
        -- rewrite (filled_opened idx E). reflexivity.
        -- pose proof (groups_bound idx
                         (N.of_nat (List.length (segments t))) E).
           unfold recordsOf in Hrc. lia.
    + destruct (legacy_continue now g t idx st' s E) as (O & C & R).
      rewrite O, C, R.
      replace (idx mod 6 =? 0)%N with false
        by (symmetry; now apply N.eqb_neq).
      assert (Hz : idx <> 0%N) by (intros ->; now apply E).
      replace (idx =? 0)%N with false in Qn
        by (symmetry; now apply N.eqb_neq).
      split; [|split].
      * exists pushed. split; [exact Q0|]. split; [exact Q1|]. lia.
      * lia.
      * intros _. rewrite JSFacts.length_append, Htext, (Q3 Hz).
        destruct (filled_continue idx E) as [F _]. rewrite F. lia.
  - split; [|split].
    + exists []. split; [now rewrite app_nil_r|]. split; [constructor|].
      reflexivity.
    + change ((0 + 5) / 6)%N with 0%N. lia.
    + intros F. now contradiction F.
Qed.

(** X11. In the earlier formatter a transaction with segments, whose fields
    have the widths of the layout, adds one line for each group of six
    segments: every line before its last has 1416 characters, since it is
    pushed as it stands with 232 characters for each of its six segments,
    and only its last line has 1464. *)
Theorem legacy_short_records now g st t :
  (forall d, String.length (Legacy.modernJulianDateText d) = 7) ->
  String.length (Legacy.originatorId (Legacy._header g)) <= 10 ->
  String.length (Legacy.fileCreationNumber (Legacy._header g)) <= 4 ->
  validRecordType t = true ->
  (forall s, In s (segments t) -> legacyFits s) ->
  (recordCount st + recordsOf t < 10 ^ 9)%N ->
  segments t <> [] ->
  exists pushed final,
    outputLines (Legacy.encodeTransaction now g st t)
    = (outputLines st ++ pushed ++ [final])%list
    /\ Forall (fun line => String.length line = 1416) pushed
    /\ (N.of_nat (List.length pushed) + 1 = recordsOf t)%N
    /\ String.length final = 1464.
Proof.
  intros Hjulian Hid Hfcn Ht Hs Hrc Hsegs.
  destruct (legacyWidths_encodeSegments now g st t Hjulian Hid Hfcn Ht Hs Hrc)
    as ((pushed & Q0 & Q1 & Qn) & _ & Q3).
  assert (Hn : (0 + N.of_nat (List.length (segments t)))%N <> 0%N).
  { destruct (segments t); [now contradiction Hsegs | cbn [List.length]; lia]. }
  replace (_ =? 0)%N with false in Qn by (symmetry; now apply N.eqb_neq).
  exists pushed. eexists.
  unfold Legacy.encodeTransaction. cbn [pushLine outputLines].
  split; [rewrite Q0, <- app_assoc; reflexivity|].
  split; [exact Q1|]. split.
  - unfold recordsOf. rewrite Qn. now rewrite N.add_0_l.
  - rewrite JSFacts.length_padEnd, (Q3 Hn).
    assert (filled (0 + N.of_nat (List.length (segments t))) <= 6).
    { unfold filled. zify. Z.to_euclidean_division_equations. lia. }
    lia.
Qed.

End LegacyProperties.

Lemma legacy_same_trailer_sample :
  last (Legacy.linesOf Sample.today
          (Sample.legacy [Sample.credit Sample.sevenSegments;
                          Sample.debit []])) ""
  = last (linesOf Sample.tomorrow Sample.config
            [Sample.credit Sample.sevenSegments; Sample.debit []]) "".
Proof.
  exact (legacy_same_trailer Sample.today Sample.tomorrow
           (Sample.legacy [Sample.credit Sample.sevenSegments;
                           Sample.debit []])
           Sample.config eq_refl eq_refl).
Defined.

Lemma legacy_empty_repeats_sample :
  exists line,
    outputLines
      (Legacy.encodeAll Sample.today
         (Sample.legacy [Sample.credit [Sample.segment]; Sample.debit []]))
    = [fst (Legacy.formatHeader Sample.today 0
              (Legacy._header (Sample.legacy []))); line; line].
Proof.
  pose proof (legacy_empty_repeats Sample.today
                (Sample.legacy [Sample.credit [Sample.segment];
                                Sample.debit []])
                (afterHeader
                   (fst (Legacy.formatHeader Sample.today 0
                           (Legacy._header (Sample.legacy []))))
                   0)
                (Sample.credit [Sample.segment]) (Sample.debit [])
                eq_refl) as [H _].
  eexists. unfold Legacy.encodeAll. cbn [fold_left Legacy.getTransactions
                                          Sample.legacy].
  etransitivity; [exact H|]. vm_compute. reflexivity.
Defined.

Lemma length_sample_julian (d : Sample.Day) :
  String.length (Legacy.modernJulianDateText d) = 7.
Proof.
  cbn [Legacy.modernJulianDateText Sample.julian].
  rewrite JSFacts.length_append, !JSFacts.length_sliceLast,
    !JSFacts.length_padStart.
  lia.
Qed.

Lemma legacy_short_records_sample :
  exists pushed final,
    outputLines
      (Legacy.encodeTransaction Sample.today (Sample.legacy [])
         (afterHeader "A" 0) (Sample.debit Sample.sevenSegments))
    = (["A"] ++ pushed ++ [final])%list
    /\ Forall (fun line => String.length line = 1416) pushed
    /\ (N.of_nat (List.length pushed) + 1 = 2)%N
    /\ String.length final = 1464.
Proof.
  apply (legacy_short_records Sample.today (Sample.legacy [])
           (afterHeader "A" 0) (Sample.debit Sample.sevenSegments)).
  - exact length_sample_julian.
  - vm_compute. lia.
  - vm_compute. lia.
  - reflexivity.
  - intros s Hs.
    assert (Hseg : s = Sample.segment).
    { simpl in Hs.
      repeat (destruct Hs as [<-|Hs]; [reflexivity|]); destruct Hs. }
    subst s. repeat split; vm_compute; solve [reflexivity | lia].
  - vm_compute. reflexivity.
  - discriminate.
Defined.

(** ** Cross-reference numbers longer than their field *)

Section ReferenceCut.

Context {Date : Type} {runtime : Runtime Date}.
Implicit Type s : EFTTransactionSegment Date.
Implicit Type txs : list (EFTTransaction Date).

Lemma substring_all (s : string) (n : nat) :
  String.length s <= n -> substring 0 n s = s.
Proof.
  revert n. induction s as [|c s IH]; intros n H.
  - now destruct n.
  - destruct n as [|n]; simpl in *; [lia|]. rewrite IH; [reflexivity | lia].
Qed.

Lemma substring_front (s rest : string) (n : nat) :
  n <= String.length s -> substring 0 n (s ++ rest) = substring 0 n s.
Proof.
  revert n. induction s as [|c s IH]; intros n H.
  - simpl in H. assert (n = 0) by lia. subst n. simpl. now destruct rest.
  - destruct n as [|n]; simpl in *; [reflexivity|].
    rewrite IH; [reflexivity | lia].
Qed.

(** Only the first [n] characters of a text reach a field of width [n]. *)
Lemma field_cut (s : string) (n : nat) (c : ascii) :
  JS.sliceTo (JS.padEnd s n c) n = JS.sliceTo (JS.padEnd (JS.sliceTo s n) n c) n.
Proof.
  destruct (Nat.le_gt_cases (String.length s) n) as [H|H].
  - unfold JS.sliceTo at 3. now rewrite substring_all.
  - unfold JS.sliceTo, JS.padEnd.
    rewrite JSFacts.length_substring, Nat.sub_0_r.
    replace (n - String.length s) with 0 by lia.
    replace (n - Nat.min n (String.length s)) with 0 by lia.
    rewrite !substring_front;
      [|rewrite JSFacts.length_substring; lia|lia].
    symmetry. apply substring_all. rewrite JSFacts.length_substring. lia.
Qed.

Lemma repeats_distinct (xs before : list string) :
  NoDup xs -> (forall x, In x xs -> ~ In x before) ->
  repeats before xs = 0%N.
Proof.
  revert before. induction xs as [|x xs IH]; intros before Hd Hb;
    [reflexivity|].
  inversion Hd as [|? ? Hx Hd']; subst. cbn [repeats].
  replace (existsb (String.eqb x) before) with false.
  - rewrite IH; [reflexivity | exact Hd'|].
    intros y Hy [<-|Hin]; [now apply Hx|].
    apply (Hb y); [now right | exact Hin].
  - symmetry. apply not_true_is_false. intros E.
    apply existsb_exists in E as (y & Hy & E).
    apply String.eqb_eq in E. subst y. apply (Hb x); [now left | exact Hy].
Qed.

(** X12. Only the first 19 characters of a supplied cross-reference number
    reach the file: the text of a segment is the same for a number and for
    its first 19 characters.  Validation compares the numbers in full: when
    the supplied numbers are pairwise different it gives the outcome it
    gives without them, so two numbers that differ after their 19th
    character are written as the same field without a warning. *)
Theorem reference_cut :
  (forall cfg rc idx d s x,
      segmentText cfg rc idx d (citing x s)
      = segmentText cfg rc idx d (citing (JS.sliceTo x 19) s))
  /\ (forall txs,
         NoDup (suppliedReferences txs) ->
         validateTransactions txs
         = validateTransactions (withoutReferences txs)).
Proof.
  split.
  - intros cfg rc idx d s x.
    unfold segmentText, crossReferenceField, crossReferenceOf, amountField,
      itemTraceField.
    cbn [citing cpaCode amount paymentDate bankInstitutionNumber
         bankTransitNumber itemTraceNumber bankAccountNumber payeeName
         crossReferenceNumber].
    now rewrite (field_cut x 19 " ").
  - intros txs Hd. rewrite (validateTransactions_reference txs).
    rewrite (repeats_distinct _ [] Hd) by (intros x _ []).
    unfold addCount.
    destruct (validateTransactions (withoutReferences txs)) as [n|e];
      simpl; [now rewrite N.add_0_r | reflexivity].
Qed.

End ReferenceCut.

Lemma reference_cut_sample :
  validateTransactions
    [Sample.credit [citing "INVOICE-2024-000017-A" Sample.segment;
                    citing "INVOICE-2024-000017-B" Sample.segment]]
  = Ok 0%N
  /\ segmentText Sample.config 2 0 "024033"
       (citing "INVOICE-2024-000017-A" Sample.segment)
     = segmentText Sample.config 2 0 "024033"
         (citing "INVOICE-2024-000017-B" Sample.segment).
Proof.
  destruct (@reference_cut Sample.Day Sample.runtime) as [F V]. split.
  - rewrite V; [vm_compute; reflexivity|].
    cbn. constructor; [|constructor; [intros []|constructor]].
    intros [E|[]]. discriminate E.
  - rewrite F, (F _ _ _ _ _ "INVOICE-2024-000017-B"). reflexivity.
Defined.
